(** * wapanel-open: the messaging gateway core, embedded and verified

    A shallow embedding of the Green-API gateway of the panel: the rate
    limiter and HTTP client ([app/green_api/limiter.py], [client.py]), the
    payload mapping and media download ([green_msg.py]), the webhook handlers
    ([webhook.py]), the history adapter ([app/utils/history_downloader.py]),
    the outbound dispatcher ([app/listeners/msg_out_listener.py]) and the
    backfill lock ([app/routes/admin_qr.py], [manager.py]).

    Python values that come out of JSON are kept dynamically typed ([json]);
    exceptions are explicit ([outcome]); time is an explicit rational clock;
    the database, the file system, the network and the random generator are
    explicit state or explicit oracles. *)

From Stdlib Require Import ZArith QArith Qround Lqa Lia List Ascii.
From stdpp Require Import base option list gmap strings pretty.

(** ** Python-level preliminaries *)

Module Py.

(** The exception classes the modelled code raises or catches. *)
Inductive exn : Type :=
  | KeyError (key : string)
  | TypeError
  | AttributeError
  | ValueError
  | ZeroDivisionError
  | RuntimeError (msg : string)
  | GreenAPIError (msg : string)
  | GreenAPIThrottleError (msg : string)
  | ClientError
  | TimeoutError
  | OSError
  | IntegrityError
  | DBAPIError
  | ContentTypeError
  | HTTPBadRequest (text : string).

(** A computation either returns or raises. *)
Inductive outcome (A : Type) : Type :=
  | Ok (a : A)
  | Raise (e : exn).
Arguments Ok {A} a.
Arguments Raise {A} e.

#[global] Instance outcome_ret : MRet outcome := fun A a => Ok a.
#[global] Instance outcome_bind : MBind outcome := fun A B f m =>
  match m with
  | Ok a => f a
  | Raise e => Raise e
  end.

Definition is_ok {A} (o : outcome A) : bool :=
  match o with Ok _ => true | Raise _ => false end.

(** The empty string literal. *)
Definition empty_str : string := EmptyString.

(** The line feed. *)
Definition LF : string := String (ascii_of_nat 10) EmptyString.

(** [s.split(sep)[0]] for a one-character separator. *)
Fixpoint split_first (sep : ascii) (s : string) : string :=
  match s with
  | EmptyString => EmptyString
  | String c r => if Ascii.eqb c sep then EmptyString else String c (split_first sep r)
  end.

(** Python's [round] on a real: round half to even. *)
Definition py_round (x : Q) : Z :=
  let f := Qfloor x in
  match (x - inject_Z f ?= 1 # 2)%Q with
  | Lt => f
  | Gt => (f + 1)%Z
  | Eq => if Z.even f then f else (f + 1)%Z
  end.

End Py.
Export Py.

(** ** The rate limiter ([app/green_api/limiter.py])

    [SmartLimiter] extends aiolimiter's [AsyncLimiter], a leaky bucket: the
    bucket fields and [_leak], [has_capacity], [acquire] follow that library,
    for a single caller; [period], [_blocked_until], [wait_slot] and [block]
    are the repository's. Instants and durations are rationals (seconds). *)

Module Limiter.

Record SmartLimiter : Type := mkLimiter {
  max_rate : Q;
  time_period : Q;
  _level : Q;
  _last_check : Q;
  period : Q;
  _blocked_until : option Q
}.

Definition _rate_per_sec (l : SmartLimiter) : Q := (max_rate l / time_period l)%Q.

Definition is_zero (q : Q) : bool := Qeq_bool q 0.
Definition Qltb (a b : Q) : bool := negb (Qle_bool b a).

(** Python's [max(a, b)]: [b] only when it is strictly greater. *)
Definition py_max (a b : Q) : Q := if Qltb a b then b else a.

(** [SmartLimiter.__init__(rps)]. *)
Definition SmartLimiter_init (rps : Q) : outcome SmartLimiter :=
  if Qle_bool 1 rps then
    Ok (mkLimiter rps 1 0 0 (1 / rps) None)
  else if is_zero rps then Raise ZeroDivisionError
  else
    let p := inject_Z (py_round (1 / rps)) in
    if is_zero p then Raise ZeroDivisionError
    else Ok (mkLimiter 1 p 0 0 p None).

Definition set_bucket (l : SmartLimiter) (lvl chk : Q) : SmartLimiter :=
  mkLimiter (max_rate l) (time_period l) lvl chk (period l) (_blocked_until l).

(** [_leak]: drip out the capacity of the time elapsed since the last check. *)
Definition _leak (l : SmartLimiter) (now : Q) : SmartLimiter :=
  let lvl :=
    if is_zero (_level l) then _level l
    else py_max (_level l - (now - _last_check l) * _rate_per_sec l) 0 in
  set_bucket l lvl now.

Definition has_capacity (l : SmartLimiter) (now amount : Q) : bool * SmartLimiter :=
  let l' := _leak l now in
  (Qle_bool (_level l' + amount) (max_rate l'), l').

(** [acquire]: the loop waits [1 / rate * amount] seconds per round; the
    result carries the instant at which the slot is granted. [None] only
    when the fuel runs out. *)
Fixpoint acquire_loop (fuel : nat) (l : SmartLimiter) (now : Q) : option (SmartLimiter * Q) :=
  match fuel with
  | O => None
  | S fuel' =>
      let '(ok, l') := has_capacity l now 1 in
      if ok then Some (set_bucket l' (_level l' + 1) (_last_check l'), now)
      else acquire_loop fuel' l' (now + 1 / _rate_per_sec l' * 1)%Q
  end.

Definition acquire (fuel : nat) (l : SmartLimiter) (now : Q)
  : option (outcome (SmartLimiter * Q)) :=
  if Qle_bool 1 (max_rate l) then Ok <$> acquire_loop fuel l now
  else Some (Raise ValueError).

(** [block]: 1.5 x period wait upon call. *)
Definition block (l : SmartLimiter) (now : Q) : SmartLimiter :=
  mkLimiter (max_rate l) (time_period l) (_level l) (_last_check l) (period l)
            (Some (now + period l * (3 # 2))%Q).

(** [wait_slot]: sleep out an outstanding block, then [acquire]. *)
Definition wait_slot (fuel : nat) (l : SmartLimiter) (now : Q)
  : option (outcome (SmartLimiter * Q)) :=
  let now' :=
    match _blocked_until l with
    | Some until =>
        let delay := (until - now)%Q in
        if Qltb 0 delay then (now + delay)%Q else now
    | None => now
    end in
  acquire fuel l now'.

(** A limiter as the constructor and [acquire] leave it, seen at [now]. *)
Record limiter_wf (l : SmartLimiter) (now : Q) : Prop := {
  wf_rate : (1 <= max_rate l)%Q;
  wf_period : (0 < time_period l)%Q;
  wf_level_lo : (0 <= _level l)%Q;
  wf_level_hi : (_level l <= max_rate l)%Q;
  wf_check : (_last_check l <= now)%Q;
  wf_pace : (1 / _rate_per_sec l == period l)%Q
}.

End Limiter.

(** ** JSON values as Python sees them *)

Module Json.

(** A decoded JSON document. A float is carried by its Python [repr], the
    only thing the modelled code does with one is to format it or test its
    truth; a dict is its list of items in insertion order. *)
#[warnings="-register-all"]
Inductive json : Type :=
  | JNull
  | JBool (b : bool)
  | JInt (z : Z)
  | JFloat (repr : string)
  | JStr (s : string)
  | JList (l : list json)
  | JDict (items : list (string * json)).

Fixpoint assoc (k : string) (items : list (string * json)) : option json :=
  match items with
  | [] => None
  | (k', v) :: rest => if String.eqb k k' then Some v else assoc k rest
  end.

(** [d[k] = v] on the items of a dict: replace in place or append. *)
Fixpoint assoc_set (k : string) (v : json) (items : list (string * json))
  : list (string * json) :=
  match items with
  | [] => [(k, v)]
  | (k', v') :: rest =>
      if String.eqb k k' then (k, v) :: rest else (k', v') :: assoc_set k v rest
  end.

(** [x[k]] with a string key: [KeyError] on a dict without the key,
    [TypeError] on anything that is not a dict. *)
Definition getitem (x : json) (k : string) : outcome json :=
  match x with
  | JDict items =>
      match assoc k items with
      | Some v => Ok v
      | None => Raise (KeyError k)
      end
  | _ => Raise TypeError
  end.

(** [x.get(k, default)]: only dicts have [get]. *)
Definition get_default (x : json) (k : string) (default : json) : outcome json :=
  match x with
  | JDict items => Ok (match assoc k items with Some v => v | None => default end)
  | _ => Raise AttributeError
  end.

(** Truth value of a Python object. *)
Definition truthy (x : json) : bool :=
  match x with
  | JNull => false
  | JBool b => b
  | JInt z => negb (z =? 0)%Z
  | JFloat r => negb (String.eqb r "0.0" || String.eqb r "-0.0")
  | JStr s => negb (String.eqb s empty_str)
  | JList l => match l with [] => false | _ => true end
  | JDict d => match d with [] => false | _ => true end
  end.

(** [a or b]. *)
Definition py_or (a b : json) : json := if truthy a then a else b.

(** [x == "lit"] for a string literal. *)
Definition is_str (x : json) (lit : string) : bool :=
  match x with
  | JStr s => String.eqb s lit
  | _ => false
  end.

(** [x in S] for a set (or the keys of a dict) of string literals: the
    lookup hashes [x], which lists and dicts refuse. *)
Definition in_str_set (x : json) (S : list string) : outcome bool :=
  match x with
  | JList _ | JDict _ => Raise TypeError
  | JStr s => Ok (existsb (String.eqb s) S)
  | _ => Ok false
  end.

(** [for c in x]: the items of a list, the keys of a dict, the characters
    of a string. *)
Definition py_iter (x : json) : outcome (list json) :=
  match x with
  | JList l => Ok l
  | JDict d => Ok (map (fun kv => JStr (fst kv)) d)
  | JStr s => Ok (map (fun c => JStr (String c EmptyString)) (String.list_ascii_of_string s))
  | _ => Raise TypeError
  end.

(** *** Strings *)

Fixpoint is_prefix (p s : string) : bool :=
  match p, s with
  | EmptyString, _ => true
  | String a p', String b s' => Ascii.eqb a b && is_prefix p' s'
  | String _ _, EmptyString => false
  end.

Fixpoint drop_str (n : nat) (s : string) : string :=
  match n, s with
  | O, _ => s
  | S n', String _ r => drop_str n' r
  | S _, EmptyString => EmptyString
  end.

(** [pat in s] for strings. *)
Fixpoint contains (pat s : string) : bool :=
  is_prefix pat s ||
  match s with
  | EmptyString => false
  | String _ r => contains pat r
  end.

Definition rev_str (s : string) : string :=
  String.string_of_list_ascii (rev (String.list_ascii_of_string s)).

(** [s.split(pat)] for a non-empty [pat]: the separators are found from the
    left and do not overlap. [skip] counts the characters of a separator
    still to pass, [piece] is the current piece, reversed. *)
Fixpoint split_go (pat : string) (s : string) (skip : nat) (piece : list ascii)
  : list string :=
  match s with
  | EmptyString => [String.string_of_list_ascii (rev piece)]
  | String c r =>
      match skip with
      | S k => split_go pat r k piece
      | O =>
          if is_prefix pat s
          then String.string_of_list_ascii (rev piece) :: split_go pat r (String.length pat - 1) []
          else split_go pat r 0 (c :: piece)
      end
  end.

Definition py_split (pat s : string) : list string := split_go pat s 0 [].

(** [s.split(pat)[-1]]. *)
Definition split_last (pat s : string) : string :=
  List.last (py_split pat s) EmptyString.

(** [s.rsplit(sep, 1)] for a one-character separator: one or two parts. *)
Fixpoint rsplit1_go (sep : ascii) (s : list ascii) (tail : list ascii)
  : option (list ascii * list ascii) :=
  match s with
  | [] => None
  | c :: r => if Ascii.eqb c sep then Some (rev r, tail) else rsplit1_go sep r (c :: tail)
  end.

Definition rsplit1 (sep : ascii) (s : string) : list string :=
  match rsplit1_go sep (rev (String.list_ascii_of_string s)) [] with
  | Some (a, b) => [String.string_of_list_ascii a; String.string_of_list_ascii b]
  | None => [s]
  end.

(** [sep.join(parts)]. *)
Fixpoint join (sep : string) (parts : list string) : string :=
  match parts with
  | [] => EmptyString
  | [p] => p
  | p :: rest => p +:+ sep +:+ join sep rest
  end.

(** The UTF-8 encodings of the characters [str.strip] removes. *)
Definition whitespace_tokens : list string :=
  map (fun bs => String.string_of_list_ascii (map ascii_of_nat bs))
    [ [9]; [10]; [11]; [12]; [13]; [28]; [29]; [30]; [31]; [32];
      [194; 133]; [194; 160]; [225; 154; 128];
      [226; 128; 128]; [226; 128; 129]; [226; 128; 130]; [226; 128; 131];
      [226; 128; 132]; [226; 128; 133]; [226; 128; 134]; [226; 128; 135];
      [226; 128; 136]; [226; 128; 137]; [226; 128; 138];
      [226; 128; 168]; [226; 128; 169]; [226; 128; 175];
      [226; 129; 159]; [227; 128; 128] ]%nat.

(** The characters at which [str.splitlines] breaks (CR LF first). *)
Definition linebreak_tokens : list string :=
  map (fun bs => String.string_of_list_ascii (map ascii_of_nat bs))
    [ [13; 10]; [10]; [13]; [11]; [12]; [28]; [29]; [30];
      [194; 133]; [226; 128; 168]; [226; 128; 169] ]%nat.

Definition token_at (tokens : list string) (s : string) : option nat :=
  String.length <$> List.find (fun t => is_prefix t s) tokens.

(** [s.strip() == ""]: the string is made of whitespace only. *)
Fixpoint blank_go (s : string) (skip : nat) : bool :=
  match s with
  | EmptyString => true
  | String _ r =>
      match skip with
      | S k => blank_go r k
      | O =>
          match token_at whitespace_tokens s with
          | Some n => blank_go r (n - 1)
          | None => false
          end
      end
  end.

Definition is_blank (s : string) : bool := blank_go s 0.

(** [s.splitlines()]. *)
Fixpoint splitlines_go (s : string) (skip : nat) (piece : list ascii) : list string :=
  match s with
  | EmptyString =>
      match piece with
      | [] => []
      | _ => [String.string_of_list_ascii (rev piece)]
      end
  | String c r =>
      match skip with
      | S k => splitlines_go r k piece
      | O =>
          match token_at linebreak_tokens s with
          | Some n => String.string_of_list_ascii (rev piece) :: splitlines_go r (n - 1) []
          | None => splitlines_go r 0 (c :: piece)
          end
      end
  end.

Definition splitlines (s : string) : list string := splitlines_go s 0 [].

(** What the interpreter and its libraries compute and the model does not
    look into: [repr] of a list or dict, and the file name at the end of a
    URL's path ([os.path.basename(unquote(urlparse(u).path))]). *)
Record Runtime : Type := {
  py_repr : json -> string;
  url_basename : string -> string
}.

(** [str(x)], as an f-string formats [x]. *)
Definition py_str (rt : Runtime) (x : json) : string :=
  match x with
  | JNull => "None"
  | JBool true => "True"
  | JBool false => "False"
  | JInt z => pretty z
  | JFloat r => r
  | JStr s => s
  | JList _ | JDict _ => py_repr rt x
  end.

End Json.

(** ** The gateway client ([app/green_api/client.py]) *)

Module Client.
Import Json Limiter.

(** The public operations of [GreenAPIClient]; each funnels through
    [_json] with the endpoint below. *)
Inductive operation : Type :=
  | get_qr | get_settings | get_state | logout | set_settings
  | last_incoming | last_outgoing | get_chat_history
  | download_file | send_message | send_file.

Definition endpoint_of (op : operation) : string :=
  match op with
  | get_qr => "qr"
  | get_settings => "getSettings"
  | get_state => "getStateInstance"
  | logout => "logout"
  | set_settings => "setSettings"
  | last_incoming => "lastIncomingMessages"
  | last_outgoing => "lastOutgoingMessages"
  | get_chat_history => "getChatHistory"
  | download_file => "downloadFile"
  | send_message => "sendMessage"
  | send_file => "sendFileByUpload"
  end.

Definition media_of (op : operation) : bool :=
  match op with send_file => true | _ => false end.

Record GreenAPIClient : Type := mkClient {
  api_root : string;
  media_root : string;
  id : Z;
  tok : string;
  _limiters : gmap string SmartLimiter
}.

Definition set_limiters (c : GreenAPIClient) (ls : gmap string SmartLimiter)
  : GreenAPIClient :=
  mkClient (api_root c) (media_root c) (id c) (tok c) ls.

(** The HTTP response object: [r.status], [await r.text()], [await r.json()]. *)
Record response : Type := mkResponse {
  status : Z;
  text : string;
  json_body : outcome json
}.

(** What [session.request] does: a response after [took] seconds, or a
    network-level exception. *)
Inductive exchange : Type :=
  | Responded (r : response) (took : Q)
  | Failed (e : exn) (took : Q).

Section Limits.

(** [app/green_api/limits.py] is not part of the sources: the per-method
    table and the default rate are parameters. *)
Variable _METHOD_RPS : gmap string Q.
Variable DEFAULT_RPS : Q.

(** [_get_limiter]: per-instance rate-limit, built lazily per endpoint base. *)
Definition _get_limiter (c : GreenAPIClient) (method : string)
  : outcome (SmartLimiter * GreenAPIClient) :=
  let base := split_first "/" method in
  match _limiters c !! base with
  | Some l => Ok (l, c)
  | None =>
      let rps := default DEFAULT_RPS (_METHOD_RPS !! base) in
      l ← SmartLimiter_init rps;
      Ok (l, set_limiters c (<[base := l]> (_limiters c)))
  end.

(** One run of [_json]. *)
Record json_run : Type := mkRun {
  result : outcome json;
  client_after : GreenAPIClient;
  url : string;
  slot_at : option Q;
  done_at : Q
}.

(** [_json]: resolve the limiter, enter it ([async with limiter] is
    [AsyncLimiter.__aenter__], that is [acquire]), issue the request and
    classify the response. [None] only when the fuel of [acquire] runs out. *)
Definition _json (fuel : nat) (c : GreenAPIClient) (endpoint : string) (media : bool)
    (net : exchange) (now : Q) : option json_run :=
  let root := if media then media_root c else api_root c in
  let url := root +:+ "/waInstance" +:+ pretty (id c) +:+ "/" +:+ endpoint +:+ "/" +:+ tok c in
  let base := split_first "/" endpoint in
  match _get_limiter c base with
  | Raise e => Some (mkRun (Raise e) c url None now)
  | Ok (limiter, c1) =>
      acq ← acquire fuel limiter now;
      match acq with
      | Raise e => Some (mkRun (Raise e) c1 url None now)
      | Ok (limiter1, t_slot) =>
          let c2 := set_limiters c1 (<[base := limiter1]> (_limiters c1)) in
          match net with
          | Failed e took => Some (mkRun (Raise e) c2 url (Some t_slot) (t_slot + took)%Q)
          | Responded r took =>
              let t := (t_slot + took)%Q in
              if (status r =? 429)%Z then
                let c3 := set_limiters c2 (<[base := block limiter1 t]> (_limiters c2)) in
                Some (mkRun (Raise (GreenAPIThrottleError "429 Too Many Requests"))
                            c3 url (Some t_slot) t)
              else if (400 <=? status r)%Z then
                Some (mkRun (Raise (GreenAPIError
                                      ("GREEN-API " +:+ pretty (status r) +:+ ": " +:+ text r)))
                            c2 url (Some t_slot) t)
              else Some (mkRun (json_body r) c2 url (Some t_slot) t)
          end
      end
  end.

End Limits.

End Client.

(** ** The persisted model ([shared/models.py]) *)

Module Models.
Import Json.

Module InstanceState.
Inductive t : Type := unknown | authorized | not_authorized | blocked | starting | yellow_card.
End InstanceState.

Module MessageDirection.
Inductive t : Type := inc | out | sys.
Definition eqb (a b : t) : bool :=
  match a, b with inc, inc | out, out | sys, sys => true | _, _ => false end.
End MessageDirection.

Module MessageType.
Inductive t : Type :=
  | text | file_image | file_video | file_audio | file_doc
  | notification | call | location | contact.
End MessageType.

Module MessageStatus.
Inductive t : Type := pending | sent | error_api | error_int | delivered | read | incoming.
Definition eqb (a b : t) : bool :=
  match a, b with
  | pending, pending | sent, sent | error_api, error_api | error_int, error_int
  | delivered, delivered | read, read | incoming, incoming => true
  | _, _ => false
  end.
(** The enum's [value]. *)
Definition value (s : t) : string :=
  match s with
  | pending => "pending" | sent => "sent" | error_api => "api_error"
  | error_int => "internal_error" | delivered => "delivered" | read => "read"
  | incoming => "inc"
  end.
End MessageStatus.

Module FileType.
Inductive t : Type := image | video | audio | other.
End FileType.

(** *** ORM objects, as Python code builds them

    Fields filled from a payload hold whatever JSON value the payload had;
    the column types are checked when the row is written. *)

Record MessageFile : Type := mkFile {
  file_type : FileType.t;
  name : string;
  mime : json;
  file_path : string;
  file_url : string;
  size : Z
}.

Record Message : Type := mkMessage {
  instance_id : Z;
  conversation_id : option Z;
  wa_message_id : json;
  chat_id : string;
  chat_name : json;
  created_at : json;
  from_app : bool;
  direction : MessageDirection.t;
  status : MessageStatus.t;
  message_type : MessageType.t;
  text : json;
  is_archived : bool;
  files : list MessageFile
}.

Definition with_content (m : Message) (ty : MessageType.t) (txt : json)
    (fl : list MessageFile) : Message :=
  mkMessage (instance_id m) (conversation_id m) (wa_message_id m) (chat_id m)
            (chat_name m) (created_at m) (from_app m) (direction m) (status m)
            ty txt (is_archived m) fl.

Definition with_direction (m : Message) (d : MessageDirection.t) (fa : bool) : Message :=
  mkMessage (instance_id m) (conversation_id m) (wa_message_id m) (chat_id m)
            (chat_name m) (created_at m) fa d (status m)
            (message_type m) (text m) (is_archived m) (files m).

Definition with_archived (m : Message) (a : bool) : Message :=
  mkMessage (instance_id m) (conversation_id m) (wa_message_id m) (chat_id m)
            (chat_name m) (created_at m) (from_app m) (direction m) (status m)
            (message_type m) (text m) a (files m).

(** *** Rows, as the tables hold them *)

Record FileRow : Type := mkFileRow {
  f_type : FileType.t;
  f_name : string;
  f_mime : string;
  f_path : string;
  f_url : string;
  f_size : Z
}.

Record Row : Type := mkRow {
  r_id : Z;
  r_instance_id : Z;
  r_conversation_id : option Z;
  r_wa_message_id : option string;
  r_tg_message_id : option Z;
  r_chat_id : string;
  r_chat_name : string;
  r_created_at : json;
  r_from_app : bool;
  r_direction : MessageDirection.t;
  r_status : MessageStatus.t;
  r_message_type : MessageType.t;
  r_text : option string;
  r_is_archived : bool;
  r_files : list FileRow
}.

Definition row_with_status (r : Row) (st : MessageStatus.t) : Row :=
  mkRow (r_id r) (r_instance_id r) (r_conversation_id r) (r_wa_message_id r)
        (r_tg_message_id r) (r_chat_id r) (r_chat_name r) (r_created_at r)
        (r_from_app r) (r_direction r) st (r_message_type r) (r_text r)
        (r_is_archived r) (r_files r).

Definition row_with_text (r : Row) (txt : option string) : Row :=
  mkRow (r_id r) (r_instance_id r) (r_conversation_id r) (r_wa_message_id r)
        (r_tg_message_id r) (r_chat_id r) (r_chat_name r) (r_created_at r)
        (r_from_app r) (r_direction r) (r_status r) (r_message_type r) txt
        (r_is_archived r) (r_files r).

Definition row_with_wa_id (r : Row) (wa : option string) : Row :=
  mkRow (r_id r) (r_instance_id r) (r_conversation_id r) wa
        (r_tg_message_id r) (r_chat_id r) (r_chat_name r) (r_created_at r)
        (r_from_app r) (r_direction r) (r_status r) (r_message_type r) (r_text r)
        (r_is_archived r) (r_files r).

Record Conversation : Type := mkConversation {
  c_id : Z;
  c_instance_id : Z;
  c_chat_id : string;
  c_phone : string;
  c_title : string;
  c_is_group : bool
}.

Record Instance : Type := mkInstance {
  i_id : Z;
  i_api_id : Z;
  i_state : InstanceState.t;
  i_telegram_id : Z
}.

End Models.

(** ** The relational store

    The tables the core reads and writes, with the constraints of
    [shared/models.py] ([uq_msg_wa], [uq_conv_instance_chat]) and the
    triggers of [app/utils/triggers.py]. A commit either applies as a whole
    or raises and leaves the store as it was. *)

Module Store.
Import Json Models.

(** The notification channels the message triggers feed. *)
Inductive channel : Type := msg_in | msg_out.

Record DB : Type := mkDB {
  instances : list Instance;
  conversations : list Conversation;
  messages : list Row;
  next_id : Z;
  next_conv_id : Z;
  notified : list (channel * Z)
}.

Definition set_messages (db : DB) (rows : list Row) : DB :=
  mkDB (instances db) (conversations db) rows (next_id db) (next_conv_id db) (notified db).

(** A value bound to a nullable text column: [None] is SQL NULL, anything
    but a string is refused by the driver. *)
Definition as_text (x : json) : outcome (option string) :=
  match x with
  | JNull => Ok None
  | JStr s => Ok (Some s)
  | _ => Raise DBAPIError
  end.

(** The same for a NOT NULL column. *)
Definition as_text_not_null (x : json) : outcome string :=
  match x with
  | JStr s => Ok s
  | JNull => Raise IntegrityError
  | _ => Raise DBAPIError
  end.

(** [select(Instance.id).where(Instance.api_id == api_id)]. *)
Definition resolve_internal_id (api_id : json) (db : DB) : outcome (option Z) :=
  match api_id with
  | JInt z => Ok (i_id <$> List.find (fun i => (i_api_id i =? z)%Z) (instances db))
  | JNull => Ok None
  | _ => Raise DBAPIError
  end.

Definition wa_matches (inst : Z) (wa : option string) (r : Row) : bool :=
  (r_instance_id r =? inst)%Z &&
  match wa, r_wa_message_id r with
  | Some w, Some w' => String.eqb w w'
  | None, None => true
  | _, _ => false
  end.

(** [select(Message).where(instance_id == inst, wa_message_id == wa)],
    first row; a null [wa] compares with IS NULL. *)
Definition select_by_wa (inst : Z) (wa : json) (db : DB) : outcome (option Row) :=
  w ← as_text wa;
  Ok (List.find (wa_matches inst w) (messages db)).

Definition select_by_id (mid : Z) (db : DB) : option Row :=
  List.find (fun r => (r_id r =? mid)%Z) (messages db).

(** The unique constraint [uq_msg_wa] on (instance_id, wa_message_id):
    a new key conflicts with a row holding the same non-null pair. *)
Definition conflicts (inst : Z) (wa : option string) (rows : list Row) : bool :=
  match wa with
  | Some _ => existsb (wa_matches inst wa) rows
  | None => false
  end.

(** What the triggers [notify_msg_in] and [notify_msg_out] emit for a new row. *)
Definition triggers (r : Row) : list (channel * Z) :=
  (match r_direction r with
   | MessageDirection.sys | MessageDirection.inc => [(msg_in, r_id r)]
   | MessageDirection.out => []
   end) ++
  (match r_direction r, r_status r with
   | MessageDirection.out, MessageStatus.pending => [(msg_out, r_id r)]
   | _, _ => []
   end).

Definition file_row (f : MessageFile) : outcome FileRow :=
  m ← as_text_not_null (mime f);
  Ok (mkFileRow (file_type f) (name f) m (file_path f) (file_url f) (size f)).

Fixpoint file_rows (fs : list MessageFile) : outcome (list FileRow) :=
  match fs with
  | [] => Ok []
  | f :: rest =>
      r ← file_row f;
      rs ← file_rows rest;
      Ok (r :: rs)
  end.

(** [db.add(msg); await db.commit()] for a new message. *)
Definition insert_message (m : Message) (db : DB) : outcome DB :=
  wa ← as_text (wa_message_id m);
  nm ← as_text (chat_name m);
  tx ← as_text (text m);
  match nm with
  | None => Raise IntegrityError
  | Some nm =>
      if conflicts (instance_id m) wa (messages db) then Raise IntegrityError
      else
        frs ← file_rows (files m);
        let row := mkRow (next_id db) (instance_id m) (conversation_id m) wa None
                         (chat_id m) nm (created_at m) (from_app m) (direction m)
                         (status m) (message_type m) tx (is_archived m) frs in
        Ok (mkDB (instances db) (conversations db) (messages db ++ [row])
                 (next_id db + 1)%Z (next_conv_id db) (notified db ++ triggers row))
  end.

Definition update_row (mid : Z) (f : Row -> Row) (rows : list Row) : list Row :=
  map (fun r => if (r_id r =? mid)%Z then f r else r) rows.

(** [msg.status = st; await db.commit()]. *)
Definition commit_status (mid : Z) (st : MessageStatus.t) (db : DB) : DB :=
  set_messages db (update_row mid (fun r => row_with_status r st) (messages db)).

(** [row.text = txt; await db.commit()]. *)
Definition commit_text (mid : Z) (txt : string) (db : DB) : DB :=
  set_messages db (update_row mid (fun r => row_with_text r (Some txt)) (messages db)).

(** [msg.wa_message_id = wa; await db.commit()], under [uq_msg_wa]. *)
Definition commit_wa_id (mid : Z) (inst : Z) (wa : string) (db : DB) : outcome DB :=
  if conflicts inst (Some wa) (List.filter (fun r => negb (r_id r =? mid)%Z) (messages db))
  then Raise IntegrityError
  else Ok (set_messages db (update_row mid (fun r => row_with_wa_id r (Some wa)) (messages db))).

Fixpoint ends_with_go (suffix s : list ascii) : bool :=
  match suffix, s with
  | [], _ => true
  | a :: p, b :: r => Ascii.eqb a b && ends_with_go p r
  | _ :: _, [] => false
  end.

(** [s.endswith(suffix)]. *)
Definition ends_with (suffix s : string) : bool :=
  ends_with_go (rev (String.list_ascii_of_string suffix)) (rev (String.list_ascii_of_string s)).

(** [shared/crud/conversations.py]: look the conversation up by
    (instance, chat id), create and commit it when absent. *)
Definition get_or_create_conversation (db : DB) (instance_id : Z) (chat_id phone : string)
    (chat_name : json) : outcome (Conversation * DB) :=
  match List.find (fun c => (c_instance_id c =? instance_id)%Z && String.eqb (c_chat_id c) chat_id)
                  (conversations db) with
  | Some conv => Ok (conv, db)
  | None =>
      title ← as_text_not_null (py_or chat_name (JStr phone));
      let conv := mkConversation (next_conv_id db) instance_id chat_id phone title
                                 (ends_with "@g.us" chat_id) in
      Ok (conv, mkDB (instances db) (conversations db ++ [conv]) (messages db)
                     (next_id db) (next_conv_id db + 1)%Z (notified db))
  end.

(** The invariant behind [uq_msg_wa]: no two rows share an instance and a
    non-null provider message id. *)
Definition uq_msg_wa (rows : list Row) : Prop :=
  forall i j r1 r2 w,
    rows !! i = Some r1 -> rows !! j = Some r2 ->
    r_instance_id r1 = r_instance_id r2 ->
    r_wa_message_id r1 = Some w -> r_wa_message_id r2 = Some w ->
    i = j.

(** The rows of one (instance, provider message id) pair. *)
Definition rows_of (inst : Z) (w : string) (rows : list Row) : list Row :=
  List.filter (wa_matches inst (Some w)) rows.

End Store.

(** ** Effects: the world the handlers run in *)

Module Eff.
Import Json Models Store.

Inductive level : Type := debug | info | warning | error.

(** What a handler does to the outside, in order. *)
Inductive event : Type :=
  | Log (lv : level) (what : string)
  | HttpGet (url : string)
  | Sleep (seconds : Q)
  | Unlink (path : string)
  | Rollback
  | Telegram (chat : Z) (text : string)
  | SendMessage (chat_id : string) (text : string)
  | SendFile (chat_id : string) (file_bytes : string) (filename mime caption : string)
  | Reaction (tg_message_id : Z) (emoji : string).

(** The mutable world: the store and the media directory (path to content). *)
Record world : Type := mkWorld {
  db : DB;
  fs : gmap string string
}.

(** A handler: from a world to an outcome, the world it leaves and the
    events it emitted; state changes made before an exception stay. *)
Definition M (A : Type) : Type := world -> outcome A * world * list event.

Definition ret {A} (a : A) : M A := fun w => (Ok a, w, []).

Definition bind {A B} (m : M A) (f : A -> M B) : M B := fun w =>
  match m w with
  | (Ok a, w1, t1) => let '(r, w2, t2) := f a w1 in (r, w2, t1 ++ t2)
  | (Raise e, w1, t1) => (Raise e, w1, t1)
  end.

Definition lift {A} (o : outcome A) : M A := fun w => (o, w, []).
Definition raise {A} (e : exn) : M A := lift (Raise e).
Definition emit (ev : event) : M unit := fun w => (Ok tt, w, [ev]).

(** A read of the store. *)
Definition query {A} (q : DB -> outcome A) : M A := fun w => (q (db w), w, []).

(** A read that may write and commit (the store is left as it was when
    the statement raises). *)
Definition with_db {A} (f : DB -> outcome (A * DB)) : M A := fun w =>
  match f (db w) with
  | Ok (a, d) => (Ok a, mkWorld d (fs w), [])
  | Raise e => (Raise e, w, [])
  end.

(** [open(path, "wb")] and the writes: the file holds [data] afterwards. *)
Definition write_file (path data : string) : M unit := fun w =>
  (Ok tt, mkWorld (db w) (<[path := data]> (fs w)), []).

(** [path.unlink(missing_ok=True)], failures ignored. *)
Definition remove_file (path : string) : M unit := fun w =>
  (Ok tt, mkWorld (db w) (delete path (fs w)), [Unlink path]).

(** [Path(path).read_bytes()]. *)
Definition read_file (path : string) : M string := fun w =>
  match fs w !! path with
  | Some data => (Ok data, w, [])
  | None => (Raise OSError, w, [])
  end.

(** [try: body except <classes in handles>: handler]. *)
Definition try_except {A} (body : M A) (handles : exn -> bool) (handler : exn -> M A) : M A :=
  fun w =>
    match body w with
    | (Raise e, w1, t1) =>
        if handles e then let '(r, w2, t2) := handler e w1 in (r, w2, t1 ++ t2)
        else (Raise e, w1, t1)
    | r => r
    end.

(** A commit: the new store, or the exception with the store untouched. *)
Definition commit (f : DB -> outcome DB) : M unit := fun w =>
  match f (db w) with
  | Ok d => (Ok tt, mkWorld d (fs w), [])
  | Raise e => (Raise e, w, [])
  end.

Declare Scope eff_scope.
Delimit Scope eff_scope with eff.
Notation "x <- m ;; k" := (bind m (fun x => k))
  (at level 100, m at next level, right associativity) : eff_scope.
Notation "m ;;; k" := (bind m (fun _ => k))
  (at level 100, right associativity) : eff_scope.

End Eff.

(** ** Payload mapping and media download ([app/green_api/green_msg.py]) *)

Module GreenMsg.
Import Json Models Store Eff.
Local Open Scope eff_scope.

Definition _EXT2FCLS : list (string * (MessageType.t * FileType.t)) :=
  [ ("imageMessage", (MessageType.file_image, FileType.image));
    ("stickerMessage", (MessageType.file_image, FileType.image));
    ("videoMessage", (MessageType.file_video, FileType.video));
    ("audioMessage", (MessageType.file_audio, FileType.audio));
    ("documentMessage", (MessageType.file_doc, FileType.other)) ].

Definition _IGNORE_MTYPE : list string :=
  [ "pollUpdateMessage"; "interactiveButtonsReply"; "templateButtonsReplyMessage" ].

(** One GET of the download loop, as the network and the disk decide it. *)
Inductive fetch_result : Type :=
  | Fetched (data : string)
      (** every chunk arrived and was written to the file *)
  | Refused (e : exn)
      (** [e] was raised before the file was opened *)
  | Broken (partial : string) (e : exn)
      (** the file was opened, [partial] written, then [e] was raised *).

(** The surroundings of the mapping: the client manager, the provider's
    [downloadFile] call, the downloads, the random generator, the date. *)
Record Net : Type := {
  get_client : json -> outcome unit;
  cl_download_file : string -> json -> outcome json;
  fetch : string -> nat -> fetch_result;
  random : nat -> Q;
  utc_month : string
}.

Section Mapping.

Variable MEDIA_ROOT : string.
Variable N : Net.
Variable rt : Runtime.

(** The classes [download_safe] catches around one attempt. *)
Definition caught (e : exn) : bool :=
  match e with
  | ClientError | TimeoutError | OSError | ValueError => true
  | _ => false
  end.

(** [dir / fname]: an absolute [fname] replaces the directory. *)
Definition path_join (dir fname : string) : string :=
  if is_prefix "/" fname then fname else dir +:+ "/" +:+ fname.

(** One round of the [while attempt <= retries] loop of [download_safe] and
    the rounds after it; [rounds] is the number of rounds the loop condition
    still admits, [retries + 1 - attempt]. *)
Fixpoint download_loop (rounds : nat) (retries : nat) (backoff : Q) (url local : string)
    (attempt : nat) : M (option (string * Z)) :=
  match rounds with
  | O => ret None
  | S rounds' =>
      emit (HttpGet url) ;;;
      got <- (match fetch N url attempt with
              | Fetched data =>
                  write_file local data ;;;
                  let size := Z.of_nat (String.length data) in
                  if (size =? 0)%Z then ret (inr ValueError) else ret (inl size)
              | Refused e => ret (inr e)
              | Broken partial e =>
                  write_file local partial ;;;
                  ret (inr e)
              end) ;;
      match got with
      | inl size => ret (Some (local, size))
      | inr e =>
          if caught e then
            let attempt' := S attempt in
            emit (Log warning "Download failed (try %s/%s) url=%s err=%s") ;;;
            remove_file local ;;;
            if (retries <? attempt')%nat then
              emit (Log error "All retries exhausted; give up downloading %s") ;;;
              ret None
            else
              emit (Sleep (backoff ^ Z.of_nat attempt' * ((1 # 2) + random N attempt / 2))%Q) ;;;
              download_loop rounds' retries backoff url local attempt'
          else raise e
      end
  end.

(** [download_safe(url, fname, session)] with the default [retries = 3]
    and [backoff = 1.5]. *)
Definition download_safe (url fname : json) : M (option (string * Z)) :=
  let retries := 3%nat in
  let backoff := (3 # 2)%Q in
  if negb (truthy url) then ret None
  else
    match url with
    | JStr u =>
        if is_blank u then ret None
        else
          let dst_dir := MEDIA_ROOT +:+ "/" +:+ utc_month N in
          match fname with
          | JStr f => download_loop (S retries) retries backoff u (path_join dst_dir f) 0
          | _ => raise TypeError
          end
    | _ => raise AttributeError
    end.

(** ["/media/" + Path(abs_path).relative_to(MEDIA_ROOT).as_posix()]. *)
Definition _public_url (abs_path : string) : outcome string :=
  if is_prefix (MEDIA_ROOT +:+ "/") abs_path
  then Ok ("/media/" +:+ drop_str (String.length MEDIA_ROOT + 1) abs_path)
  else Raise ValueError.

Definition get (x : json) (k : string) : outcome json := get_default x k JNull.

Definition _location_to_text (data : json) : outcome string :=
  d ← getitem data "locationMessageData";
  nm ← get d "nameLocation";
  addr ← get_default d "address" (JStr empty_str);
  lat ← getitem d "latitude";
  lon ← getitem d "longitude";
  Ok ("<местоположение>" +:+ LF +:+ py_str rt (py_or nm (JStr empty_str)) +:+ LF +:+ py_str rt addr +:+ LF +:+ "шир. " +:+ py_str rt (py_or lat (JStr "--")) +:+ ", долг. " +:+ py_str rt lon).

Definition str_method (x : json) : outcome string :=
  match x with
  | JStr s => Ok s
  | _ => Raise AttributeError
  end.

Definition _contact_to_text (d : json) : outcome string :=
  dn ← get d "displayName";
  let name := py_or dn (JStr "Contact") in
  vc ← getitem d "vcard";
  v ← str_method vc;
  let phones :=
    join ", " (map (split_last "waid=") (List.filter (contains "waid=") (splitlines v))) in
  Ok ("<контакт>" +:+ LF +:+ py_str rt name +:+ ":" +:+ LF +:+ phones).

Fixpoint map_outcome {A B} (f : A -> outcome B) (l : list A) : outcome (list B) :=
  match l with
  | [] => Ok []
  | a :: rest =>
      b ← f a;
      bs ← map_outcome f rest;
      Ok (b :: bs)
  end.

(** An item of [sep.join(...)] must be a string. *)
Definition join_item (x : json) : outcome string :=
  match x with
  | JStr s => Ok s
  | _ => Raise TypeError
  end.

(** [datetime.utcfromtimestamp(x)]: a number is required (the range of
    representable dates is not modelled). *)
Definition utcfromtimestamp (x : json) : outcome json :=
  match x with
  | JInt _ | JFloat _ | JBool _ => Ok x
  | _ => Raise TypeError
  end.

(** [chat_id.rsplit("@", 1)] unpacked into two names. *)
Definition rsplit_at (chat_id : json) : outcome (string * string * string) :=
  s ← str_method chat_id;
  match rsplit1 "@" s with
  | [phone; gtype] => Ok (s, phone, gtype)
  | _ => Raise ValueError
  end.

(** ['.' in fname]. *)
Definition has_dot (fname : json) : outcome bool :=
  match fname with
  | JStr s => Ok (contains "." s)
  | JList l => Ok (existsb (fun x => is_str x ".") l)
  | JDict d => Ok (existsb (fun kv => String.eqb (fst kv) ".") d)
  | _ => Raise TypeError
  end.

(** [os.path.basename(unquote(urlparse(u).path))]: the empty string and a
    false value that is not a string parse as empty, a true value that is
    not a string has no [decode]. *)
Definition url_file_name (u : json) : outcome string :=
  match u with
  | JStr s => Ok (if String.eqb s empty_str then empty_str else url_basename rt s)
  | _ => if truthy u then Raise AttributeError else Ok empty_str
  end.

(** [_EXT2FCLS[mtype]] when [mtype in _EXT2FCLS]. *)
Definition ext_class (mtype : json) : option (MessageType.t * FileType.t) :=
  match mtype with
  | JStr s => snd <$> List.find (fun kv => String.eqb (fst kv) s) _EXT2FCLS
  | _ => None
  end.

Definition text_types : list string :=
  [ "textMessage"; "extendedTextMessage"; "reactionMessage"; "quotedMessage" ].

(** The media branch of [payload_to_msg]. *)
Definition media_branch (payload mdata : json) (msg : Message)
    (cls : MessageType.t * FileType.t) : M Message :=
  let '(mty, fcls) := cls in
  fm <- lift (getitem mdata "fileMessageData") ;;
  fname0 <- lift (get fm "fileName") ;;
  fname1 <- (if truthy fname0 then ret fname0
             else
               du <- lift (get_default fm "downloadUrl" (JStr empty_str)) ;;
               base <- lift (url_file_name du) ;;
               ret (py_or (JStr base) (JStr (py_str rt (wa_message_id msg))))) ;;
  dot <- lift (has_dot fname1) ;;
  mt <- lift (get fm "mimeType") ;;
  fname <- (if negb dot && truthy mt then
              mt' <- lift (getitem fm "mimeType") ;;
              m <- lift (str_method mt') ;;
              ret (JStr (py_str rt fname1 +:+ "." +:+ split_last "/" m))
            else ret fname1) ;;
  fcaption <- lift (get fm "caption") ;;
  dl_url0 <- lift (get fm "downloadUrl") ;;
  inst <- lift (getitem payload "instanceData") ;;
  api_id <- lift (getitem inst "idInstance") ;;
  lift (get_client N api_id) ;;;
  dl_url <- (if truthy dl_url0 then ret dl_url0
             else
               u <- lift (cl_download_file N (chat_id msg) (wa_message_id msg)) ;;
               ret (py_or u (JStr empty_str))) ;;
  downloaded <- download_safe dl_url fname ;;
  match downloaded with
  | None =>
      fn <- lift (get fm "fileName") ;;
      if truthy fcaption then
        ret (with_content msg MessageType.text
               (JStr (py_str rt fcaption +:+ LF +:+ "<Не удалось скачать файл (" +:+ py_str rt (py_or fn (JStr "--")) +:+ ")>"))
               (files msg))
      else
        ret (with_content msg MessageType.text
               (JStr ("<Не удалось скачать файл (" +:+ py_str rt (py_or fn (JStr "no-name")) +:+ ")>"))
               (files msg))
  | Some (fpath, fsize) =>
      nm <- lift (join_item fname) ;;
      mime <- lift (getitem fm "mimeType") ;;
      furl <- lift (_public_url fpath) ;;
      let file_rec := mkFile fcls nm mime fpath furl fsize in
      cap <- lift (get fm "caption") ;;
      ret (with_content msg mty cap (files msg ++ [file_rec]))
  end.

(** The branch by message type at the end of [payload_to_msg]. *)
Definition message_content (payload mdata mtype : json) (msg : Message)
  : M (option Message) :=
  is_text <- lift (in_str_set mtype text_types) ;;
  if is_text then
    let field := if is_str mtype "textMessage" then "textMessageData"
                 else "extendedTextMessageData" in
    section <- lift (getitem mdata field) ;;
    txt <- lift (getitem section (if is_str mtype "textMessage" then "textMessage" else "text")) ;;
    ret (Some (with_content msg MessageType.text txt (files msg)))
  else
    match ext_class mtype with
    | Some cls => m <- media_branch payload mdata msg cls ;; ret (Some m)
    | None =>
        if is_str mtype "locationMessage" then
          t <- lift (_location_to_text mdata) ;;
          ret (Some (with_content msg MessageType.text (JStr t) (files msg)))
        else if is_str mtype "contactMessage" then
          c <- lift (getitem mdata "contactMessageData") ;;
          t <- lift (_contact_to_text c) ;;
          ret (Some (with_content msg MessageType.text (JStr t) (files msg)))
        else if is_str mtype "contactsArrayMessage" then
          md <- lift (getitem mdata "messageData") ;;
          arr <- lift (getitem md "contacts") ;;
          items <- lift (py_iter arr) ;;
          ts <- lift (map_outcome _contact_to_text items) ;;
          ret (Some (with_content msg MessageType.text (JStr (join LF ts)) (files msg)))
        else if is_str mtype "groupInviteMessage" then
          g <- lift (getitem mdata "groupInviteMessageData") ;;
          gn <- lift (getitem g "groupName") ;;
          gj <- lift (getitem g "groupJid") ;;
          ret (Some (with_content msg MessageType.text
                       (JStr ("<приглашение в группу>" +:+ LF +:+ py_str rt gn +:+ " ("
                              +:+ py_str rt gj +:+ ")")) (files msg)))
        else if is_str mtype "pollMessage" then
          p <- lift (getitem mdata "pollMessageData") ;;
          os <- lift (getitem p "options") ;;
          items <- lift (py_iter os) ;;
          lines <- lift (map_outcome
                           (fun o => n ← getitem o "optionName"; Ok ("- " +:+ py_str rt n))
                           items) ;;
          pn <- lift (getitem p "name") ;;
          ret (Some (with_content msg MessageType.text
                       (JStr ("<опрос>" +:+ LF +:+ py_str rt pn +:+ LF +:+ join LF lines))
                       (files msg)))
        else if is_str mtype "interactiveButtons" then
          b <- lift (getitem mdata "interactiveButtons") ;;
          bs <- lift (getitem b "buttons") ;;
          items <- lift (py_iter bs) ;;
          labels <- lift (map_outcome (fun btn => getitem btn "buttonText") items) ;;
          strs <- lift (map_outcome join_item labels) ;;
          title <- lift (get_default b "titleText" (JStr empty_str)) ;;
          content <- lift (getitem b "contentText") ;;
          ret (Some (with_content msg MessageType.text
                       (JStr (py_str rt title +:+ LF +:+ py_str rt content +:+ LF +:+ "-------"
                              +:+ LF +:+ join " | " strs)) (files msg)))
        else
          ret (Some (with_content msg MessageType.text
                       (JStr ("<Сообщение непредусмотренного типа: " +:+ py_str rt mtype +:+ ">"))
                       (files msg)))
    end.

(** [payload_to_msg]: processes a GreenAPI payload into an ORM [Message]. *)
Definition payload_to_msg (payload : json) (db_instance_id : Z) (incoming archived : bool)
  : M (option Message) :=
  mdata <- lift (getitem payload "messageData") ;;
  mtype <- lift (getitem mdata "typeMessage") ;;
  ignored <- lift (in_str_set mtype _IGNORE_MTYPE) ;;
  if ignored then ret None
  else
    sender <- lift (getitem payload "senderData") ;;
    cid <- lift (getitem sender "chatId") ;;
    parts <- lift (rsplit_at cid) ;;
    let '(chat_id, phone, gtype) := parts in
    sname <- lift (get sender "senderName") ;;
    let chat_name := py_or sname (JStr phone) in
    conv <- with_db (fun d => get_or_create_conversation d db_instance_id chat_id phone
                                                         chat_name) ;;
    wa <- lift (getitem payload "idMessage") ;;
    ts <- lift (getitem payload "timestamp") ;;
    created <- lift (utcfromtimestamp ts) ;;
    let msg :=
      mkMessage db_instance_id (Some (c_id conv)) wa chat_id chat_name created false
                (if incoming then MessageDirection.inc else MessageDirection.out)
                MessageStatus.incoming MessageType.notification JNull archived [] in
    message_content payload mdata mtype msg.

End Mapping.

End GreenMsg.

(** ** The history adapter ([app/utils/history_downloader.py]) *)

Module History.
Import Json.

Definition _OUTGOING_BY_API : string := "outgoingAPIMessageReceived".
Definition _OUTGOING_BY_PHONE : string := "outgoingMessageReceived".
Definition _INCOMING : string := "incomingMessageReceived".

Definition _FILE_MTYPES : list string :=
  [ "imageMessage"; "videoMessage"; "audioMessage"; "documentMessage"; "stickerMessage" ].

Definition get (x : json) (k : string) : outcome json := get_default x k JNull.

(** [k in entry] for a dict. *)
Definition has_key (x : json) (k : string) : outcome bool :=
  match x with
  | JDict d => Ok (bool_decide (is_Some (assoc k d)))
  | JList l => Ok (existsb (fun y => is_str y k) l)
  | JStr s => Ok (contains k s)
  | _ => Raise TypeError
  end.

(** [_mk_sender]: the [senderData] section. *)
Definition _mk_sender (entry : json) : outcome json :=
  chat ← getitem entry "chatId";
  chat' ← getitem entry "chatId";
  sender ← get_default entry "senderId" chat';
  cname ← get_default entry "senderName" (JStr empty_str);
  sname ← get_default entry "senderName" (JStr empty_str);
  contact ← get_default entry "senderContactName" (JStr empty_str);
  Ok (JDict [ ("chatId", chat); ("sender", sender); ("chatName", cname);
              ("senderName", sname); ("senderContactName", contact) ]).

(** [_file_section]: the [fileMessageData] section. *)
Definition _file_section (entry : json) : outcome json :=
  url ← get entry "downloadUrl";
  caption ← get entry "caption";
  fname ← get entry "fileName";
  thumb ← get entry "jpegThumbnail";
  mime ← get entry "mimeType";
  anim ← get_default entry "isAnimated" (JBool false);
  Ok (JDict [ ("downloadUrl", url);
              ("caption", py_or caption (JStr empty_str));
              ("fileName", py_or fname (JStr empty_str));
              ("jpegThumbnail", py_or thumb (JStr empty_str));
              ("mimeType", py_or mime (JStr empty_str));
              ("isAnimated", anim) ]).

(** The type-specific keys [history_entry_to_payload] adds to [mdata]. *)
Definition section_of (entry mtype : json) : outcome (list (string * json)) :=
  if is_str mtype "textMessage" then
    t ← getitem entry "textMessage";
    Ok [ ("textMessageData", JDict [ ("textMessage", t) ]) ]
  else if is_str mtype "extendedTextMessage" then
    t ← get entry "textMessage";
    txt ← (if truthy t then Ok t
           else e ← getitem entry "extendedTextMessage"; getitem e "text");
    Ok [ ("extendedTextMessageData", JDict [ ("text", txt) ]) ]
  else if is_str mtype "reactionMessage" then
    e ← getitem entry "extendedTextMessageData";
    q ← has_key entry "quotedMessage";
    if (q : bool) then
      qm ← getitem entry "quotedMessage";
      Ok [ ("extendedTextMessageData", e); ("quotedMessage", qm) ]
    else Ok [ ("extendedTextMessageData", e) ]
  else if is_str mtype "quotedMessage" then
    e ← getitem entry "extendedTextMessage";
    qm ← getitem entry "quotedMessage";
    Ok [ ("extendedTextMessageData", e); ("quotedMessage", qm) ]
  else
    is_file ← in_str_set mtype _FILE_MTYPES;
    if (is_file : bool) then
      f ← _file_section entry;
      Ok [ ("fileMessageData", f) ]
    else if is_str mtype "locationMessage" then
      l ← getitem entry "location";
      Ok [ ("locationMessageData", l) ]
    else if is_str mtype "contactMessage" then
      c ← getitem entry "contact";
      Ok [ ("contactMessageData", c) ]
    else if is_str mtype "contactsArrayMessage" then
      cs ← getitem entry "contacts";
      Ok [ ("messageData", JDict [ ("contacts", cs) ]) ]
    else
      is_poll ← in_str_set mtype [ "pollMessage"; "pollUpdateMessage" ];
      if (is_poll : bool) then
        p ← getitem entry "pollMessageData";
        Ok [ ("pollMessageData", p) ]
      else if is_str mtype "interactiveButtons" then
        b ← getitem entry "interactiveButtons";
        Ok [ ("interactiveButtons", b) ]
      else Ok [].

(** [history_entry_to_payload]: a [getChatHistory] entry in the shape of a
    webhook payload. *)
Definition history_entry_to_payload (entry : json) (api_id : Z) : outcome json :=
  ty ← getitem entry "type";
  type_webhook ← (if is_str ty "incoming" then Ok _INCOMING
                  else
                    by_api ← get entry "sendByApi";
                    Ok (if truthy by_api then _OUTGOING_BY_API else _OUTGOING_BY_PHONE));
  idm ← getitem entry "idMessage";
  ts ← getitem entry "timestamp";
  sender ← _mk_sender entry;
  mtype ← getitem entry "typeMessage";
  sec ← section_of entry mtype;
  let mdata := JDict (("typeMessage", mtype) :: sec) in
  let payload := [ ("typeWebhook", JStr type_webhook); ("idMessage", idm);
                   ("timestamp", ts);
                   ("instanceData", JDict [ ("idInstance", JInt api_id) ]);
                   ("senderData", sender);
                   ("messageData", mdata) ] in
  st ← has_key entry "statusMessage";
  if (st : bool) then
    s ← getitem entry "statusMessage";
    Ok (JDict (assoc_set "status" s payload))
  else Ok (JDict payload).

(** The types for which [history_entry_to_payload] fills a section. *)
Definition handled_types : list string :=
  [ "textMessage"; "extendedTextMessage"; "reactionMessage"; "quotedMessage";
    "imageMessage"; "videoMessage"; "audioMessage"; "documentMessage"; "stickerMessage";
    "locationMessage"; "contactMessage"; "contactsArrayMessage";
    "pollMessage"; "pollUpdateMessage"; "interactiveButtons" ].

End History.

(** ** The backfill lock ([app/routes/admin_qr.py], [app/green_api/manager.py]) *)

Module Backfill.
Import Json.

(** An [asyncio.Lock] is its [locked()] flag; [acquire] on a held lock
    would park the caller, which [None] stands for. *)
Definition lock_acquire (locked : bool) : option bool :=
  if locked then None else Some true.

(** The module-level [history_lock] dict and the tasks handed to the loop
    (account id and [wait_authorized]). *)
Record state : Type := mkState {
  history_lock : gmap Z bool;
  tasks : list (Z * bool)
}.

(** The parts of the request [admin_history] reads. *)
Record request : Type := mkRequest {
  api_id : Z;
  q_wait : option string;
  can_read_body : bool;
  body : outcome json
}.

Inductive response : Type :=
  | json_response (data : list (string * string)) (status : Z).

Definition lower_ascii (c : ascii) : ascii :=
  let n := nat_of_ascii c in
  if ((65 <=? n) && (n <=? 90))%nat then ascii_of_nat (n + 32) else c.

Fixpoint lower (s : string) : string :=
  match s with
  | EmptyString => EmptyString
  | String c r => String (lower_ascii c) (lower r)
  end.

(** The [wait_authorized] flag: the query string first, else the JSON body;
    any failure to read the body is a bad request. *)
Definition wait_flag (req : request) : outcome bool :=
  let q := match q_wait req with Some s => s | None => "None" end in
  let wait := existsb (String.eqb (lower q)) [ "1"; "true"; "yes" ] in
  if negb wait && can_read_body req then
    match (b ← body req; v ← get_default b "wait_authorized" (JBool false); Ok (truthy v)) with
    | Ok w => Ok w
    | Raise _ => Raise (HTTPBadRequest "invalid json")
    end
  else Ok wait.

(** [history_lock.setdefault(api_id, asyncio.Lock())]. *)
Definition setdefault (k : Z) (locks : gmap Z bool) : bool * gmap Z bool :=
  match locks !! k with
  | Some l => (l, locks)
  | None => (false, <[k := false]> locks)
  end.

(** [admin_history]: [None] would mean the handler is parked on a lock. *)
Definition admin_history (req : request) (st : state)
  : option (outcome response * state) :=
  match wait_flag req with
  | Raise e => Some (Raise e, st)
  | Ok wait =>
      let '(locked, locks) := setdefault (api_id req) (history_lock st) in
      if locked then
        Some (Ok (json_response [ ("error", "already_running") ] 409),
              mkState locks (tasks st))
      else
        held ← lock_acquire locked;
        Some (Ok (json_response [ ("status", "scheduled") ] 201),
              mkState (<[api_id req := held]> locks) (tasks st ++ [ (api_id req, wait) ]))
  end.

(** The end of the scheduled [_task]: [lock.release()] in its [finally]. *)
Definition task_done (k : Z) (st : state) : state :=
  mkState (<[k := false]> (history_lock st))
          (List.filter (fun t => negb (fst t =? k)%Z) (tasks st)).

(** [ClientManager.history_lock(api_id)], up to its [yield]: the lock map
    is the manager's [_history_lock]. *)
Definition history_lock_enter (k : Z) (locks : gmap Z bool)
  : option (outcome unit * gmap Z bool) :=
  let '(locked, locks1) := setdefault k locks in
  if locked then
    Some (Raise (RuntimeError "history task already running for this instance"), locks1)
  else
    held ← lock_acquire locked;
    Some (Ok tt, <[k := held]> locks1).

(** ... and after the [yield]. *)
Definition history_lock_exit (k : Z) (locks : gmap Z bool) : gmap Z bool :=
  <[k := false]> locks.

(** The lock of account [k] is held. *)
Definition held (k : Z) (locks : gmap Z bool) : Prop := locks !! k = Some true.

End Backfill.

(** ** The webhook handlers ([app/green_api/webhook.py]) *)

Module Webhook.
Import Json Models Store Eff GreenMsg.
Local Open Scope eff_scope.

Definition _STATUS2ENUM : list (string * MessageStatus.t) :=
  [ ("sent", MessageStatus.sent);
    ("delivered", MessageStatus.delivered);
    ("read", MessageStatus.read);
    ("failed", MessageStatus.error_api);
    ("noAccount", MessageStatus.error_api);
    ("notInGroup", MessageStatus.error_api) ].

Definition _CALL_STATUS_HUMAN : list (string * string) :=
  [ ("offer", "входящий звонок");
    ("pickUp", "принятый звонок");
    ("hangUp", "сброшенный звонок");
    ("missed", "пропущенный звонок (отменён звонившим)");
    ("declined", "пропущенный звонок") ].

(** [shared/locale.py]. *)
Definition ERR_PREFIX : string := "❗️ Не удалось отправить сообщение: ".

(** [table.get(key)] for a table keyed by strings: the key is hashed. *)
Definition table_get {A} (table : list (string * A)) (key : json) : outcome (option A) :=
  match key with
  | JList _ | JDict _ => Raise TypeError
  | JStr s => Ok (snd <$> List.find (fun kv => String.eqb (fst kv) s) table)
  | _ => Ok None
  end.

Definition is_integrity (e : exn) : bool :=
  match e with IntegrityError => true | _ => false end.

Definition any_exception (e : exn) : bool := true.

(** [app/utils/messages.py]: a system notification Message with the error
    text; the [msg_in] trigger carries it to the Telegram relay. *)
Definition notify_send_error (orig : Row) (reason : string) : M unit :=
  let sys_msg :=
    mkMessage (r_instance_id orig) (r_conversation_id orig) JNull (r_chat_id orig)
              (JStr (r_chat_name orig)) JNull true MessageDirection.sys
              MessageStatus.incoming MessageType.notification
              (JStr (ERR_PREFIX +:+ LF +:+ "```" +:+ reason +:+ "```")) false [] in
  commit (insert_message sys_msg).

Section Handlers.

Variable MEDIA_ROOT : string.
Variable N : Net.
Variable rt : Runtime.

(** [bot.send_message], which may fail. *)
Variable bot_send_message : Z -> string -> outcome unit.

Definition instance_of (payload : json) : outcome json :=
  inst ← getitem payload "instanceData";
  getitem inst "idInstance".

Definition resolve (inst_id : json) : M (option Z) :=
  query (resolve_internal_id inst_id).

Definition select_wa (inst : Z) (wa : json) : M (option Row) :=
  query (select_by_wa inst wa).

(** [gtype.strip() == "g.us"]. *)
Fixpoint lstrip_go (s : string) (skip : nat) : string :=
  match s with
  | EmptyString => EmptyString
  | String _ r =>
      match skip with
      | S k => lstrip_go r k
      | O =>
          match token_at whitespace_tokens s with
          | Some n => lstrip_go r (n - 1)
          | None => s
          end
      end
  end.

Definition strips_to (lit s : string) : bool :=
  let t := lstrip_go s 0 in
  is_prefix lit t && is_blank (drop_str (String.length lit) t).

(** [_handle_call]: one record on the offer stage, then the final status. *)
Definition _handle_call (payload : json) : M unit :=
  inst_id <- lift (instance_of payload) ;;
  wa_id <- lift (getitem payload "idMessage") ;;
  from <- lift (getitem payload "from") ;;
  status <- lift (getitem payload "status") ;;
  parts <- lift (rsplit_at from) ;;
  let '(chat_id, phone, gtype) := parts in
  let chat_name := if strips_to "g.us" gtype then phone +:+ " (group)" else phone in
  known <- lift (table_get _CALL_STATUS_HUMAN status) ;;
  let human := match known with Some h => JStr h | None => status end in
  inst_db_id <- resolve inst_id ;;
  match inst_db_id with
  | None => emit (Log warning "Webhook for unknown instance %s – ignore")
  | Some inst =>
      row <- select_wa inst wa_id ;;
      conv <- with_db (fun d => get_or_create_conversation d inst chat_id
                                  (split_first "@" chat_id)
                                  (JStr (split_first "@" chat_id))) ;;
      let txt := "📞 " +:+ py_str rt human in
      try_except
        (match row with
         | None =>
             commit (insert_message
                       (mkMessage inst (Some (c_id conv)) wa_id chat_id (JStr chat_name)
                                  JNull false MessageDirection.inc MessageStatus.incoming
                                  MessageType.call (JStr txt) false []))
         | Some r => commit (fun d => Ok (commit_text (r_id r) txt d))
         end)
        is_integrity
        (fun _ => emit Rollback)
  end.

(** [_handle_outgoing]: the echo of a message sent from the phone or the API. *)
Definition _handle_outgoing (payload : json) : M unit :=
  inst_id <- lift (instance_of payload) ;;
  wa_id <- lift (getitem payload "idMessage") ;;
  inst_db_id <- resolve inst_id ;;
  match inst_db_id with
  | None => emit (Log warning "Webhook for unknown instance %s – ignore")
  | Some inst =>
      found <- select_wa inst wa_id ;;
      if match found with Some r => negb (r_id r =? 0)%Z | None => false end then
        emit (Log debug "Dup OUT msg %s – skip download/parse")
      else
        msg <- payload_to_msg MEDIA_ROOT N rt payload inst false false ;;
        match msg with
        | None => ret tt
        | Some m =>
            try_except
              (commit (insert_message (with_direction m MessageDirection.out false)) ;;;
               emit (Log info "Saved OUT msg %s / %s"))
              is_integrity
              (fun _ => emit (Log debug "Race dup on %s – unique constraint won"))
        end
  end.

(** The reason [_handle_status] reports for a failed message:
    [payload.get("description") or payload["status"] or <unknown error>]. *)
Definition error_reason (payload : json) : outcome string :=
  description ← get payload "description";
  desc ← (if truthy description then Ok description
          else s ← getitem payload "status"; Ok (py_or s (JStr "неизвестная ошибка")));
  Ok ("ошибка API (" +:+ py_str rt desc +:+ ")").

(** [_handle_status]: the status of a message sent earlier. *)
Definition _handle_status (payload : json) : M unit :=
  inst_id <- lift (instance_of payload) ;;
  wa_id <- lift (getitem payload "idMessage") ;;
  st <- lift (get payload "status") ;;
  new_st <- lift (table_get _STATUS2ENUM st) ;;
  match new_st with
  | None => emit (Log debug "Unknown status %s; skip")
  | Some new_st =>
      inst_db_id <- resolve inst_id ;;
      match inst_db_id with
      | None => emit (Log warning "Webhook for unknown instance %s – ignore")
      | Some inst =>
          found <- select_wa inst wa_id ;;
          match found with
          | None => emit (Log debug "Status for unknown msg %s – ignore")
          | Some msg =>
              if MessageStatus.eqb (r_status msg) new_st then ret tt
              else
                commit (fun d => Ok (commit_status (r_id msg) new_st d)) ;;;
                (if MessageStatus.eqb new_st MessageStatus.error_api then
                   reason <- lift (error_reason payload) ;;
                   notify_send_error (row_with_status msg new_st) reason
                 else ret tt) ;;;
                emit (Log info "Msg %s → %s")
          end
      end
  end.

(** [InstanceState(raw)]. *)
Definition instance_state_of (raw : json) : option InstanceState.t :=
  if is_str raw "unknown" then Some InstanceState.unknown
  else if is_str raw "authorized" then Some InstanceState.authorized
  else if is_str raw "notAuthorized" then Some InstanceState.not_authorized
  else if is_str raw "blocked" then Some InstanceState.blocked
  else if is_str raw "starting" then Some InstanceState.starting
  else if is_str raw "yellowCard" then Some InstanceState.yellow_card
  else None.

Definition state_value (s : InstanceState.t) : string :=
  match s with
  | InstanceState.unknown => "unknown"
  | InstanceState.authorized => "authorized"
  | InstanceState.not_authorized => "notAuthorized"
  | InstanceState.blocked => "blocked"
  | InstanceState.starting => "starting"
  | InstanceState.yellow_card => "yellowCard"
  end.

Definition state_eqb (a b : InstanceState.t) : bool :=
  String.eqb (state_value a) (state_value b).

Definition set_instance_state (iid : Z) (s : InstanceState.t) (d : DB) : DB :=
  mkDB (map (fun i => if (i_id i =? iid)%Z
                      then mkInstance (i_id i) (i_api_id i) s (i_telegram_id i) else i)
            (instances d))
       (conversations d) (messages d) (next_id d) (next_conv_id d) (notified d).

(** [_handle_state]: the instance changed its state. *)
Definition _handle_state (payload : json) : M unit :=
  inst_id <- lift (instance_of payload) ;;
  raw <- lift (get payload "stateInstance") ;;
  match instance_state_of raw with
  | None => emit (Log warning "Unknown instance state %s (id %s)")
  | Some new_state =>
      found <- query (fun d =>
                        match inst_id with
                        | JInt z => Ok (List.find (fun i => (i_api_id i =? z)%Z) (instances d))
                        | JNull => Ok None
                        | _ => Raise DBAPIError
                        end) ;;
      match found with
      | None => emit (Log error "Instance %s not found in DB")
      | Some inst =>
          if state_eqb (i_state inst) new_state then ret tt
          else
            commit (fun d => Ok (set_instance_state (i_id inst) new_state d)) ;;;
            emit (Log info "Instance %s: %s → %s") ;;;
            let text := "Статус инстанса " +:+ py_str rt inst_id +:+ ": "
                        +:+ state_value (i_state inst) +:+ " → " +:+ state_value new_state in
            try_except
              (lift (bot_send_message (i_telegram_id inst) text) ;;;
               emit (Telegram (i_telegram_id inst) text))
              any_exception
              (fun _ => emit (Log error "Telegram notify failed: %s"))
      end
  end.

(** [_handle_incoming]. When [payload_to_msg] returns [None] the log call
    evaluates [msg.wa_message_id] on it. *)
Definition _handle_incoming (payload : json) : M unit :=
  inst_id <- lift (instance_of payload) ;;
  inst_db_id <- resolve inst_id ;;
  match inst_db_id with
  | None => emit (Log warning "Webhook for unknown instance %s – ignore")
  | Some inst =>
      msg <- payload_to_msg MEDIA_ROOT N rt payload inst true false ;;
      match msg with
      | None =>
          wa <- (raise AttributeError : M json) ;;
          emit (Log info "Ignored msg %s of type: %s")
      | Some m =>
          try_except
            (commit (insert_message m) ;;;
             emit (Log info "Saved msg %s / %s"))
            is_integrity
            (fun _ =>
               emit Rollback ;;;
               emit (Log warning "Dup webhook skipped (%s, %s)"))
      end
  end.

(** *** Deliveries of [incomingMessageReceived] under cooperative scheduling

    [_handle_incoming] suspends between the mapping and the insert: another
    delivery may run in between. The mapping, which neither reads nor writes
    message rows, is taken as one step and the insert as another. *)

Inductive delivery : Type :=
  | Received (payload : json)
  | Mapped (msg : option Message)
  | Returned (o : outcome unit).

(** [_handle_incoming] up to the return of [payload_to_msg]. *)
Definition incoming_map (payload : json) : M delivery :=
  inst_id <- lift (instance_of payload) ;;
  inst_db_id <- resolve inst_id ;;
  match inst_db_id with
  | None =>
      emit (Log warning "Webhook for unknown instance %s – ignore") ;;;
      ret (Returned (Ok tt))
  | Some inst =>
      msg <- payload_to_msg MEDIA_ROOT N rt payload inst true false ;;
      ret (Mapped msg)
  end.

(** [_handle_incoming] from there on. *)
Definition incoming_save (msg : option Message) : M unit :=
  match msg with
  | None =>
      wa <- (raise AttributeError : M json) ;;
      emit (Log info "Ignored msg %s of type: %s")
  | Some m =>
      try_except
        (commit (insert_message m) ;;;
         emit (Log info "Saved msg %s / %s"))
        is_integrity
        (fun _ =>
           emit Rollback ;;;
           emit (Log warning "Dup webhook skipped (%s, %s)"))
  end.

(** One scheduling step of a delivery. *)
Definition step (d : delivery) (w : world) : delivery * world * list event :=
  match d with
  | Received payload =>
      match incoming_map payload w with
      | (Ok d', w', t) => (d', w', t)
      | (Raise e, w', t) => (Returned (Raise e), w', t)
      end
  | Mapped msg =>
      let '(o, w', t) := incoming_save msg w in (Returned o, w', t)
  | Returned _ => (d, w, [])
  end.

(** Two deliveries in flight; the schedule says which one runs next
    ([true]: the first). *)
Fixpoint run (schedule : list bool) (a b : delivery) (w : world)
  : delivery * delivery * world :=
  match schedule with
  | [] => (a, b, w)
  | true :: rest => let '(a', w', _) := step a w in run rest a' b w'
  | false :: rest => let '(b', w', _) := step b w in run rest a b' w'
  end.

(** The dispatch table [_HANDLERS], built by the [@handler] decorators. *)
Definition _HANDLERS : list (string * (json -> M unit)) :=
  [ ("incomingCall", _handle_call);
    ("outgoingMessageReceived", _handle_outgoing);
    ("outgoingAPIMessageReceived", _handle_outgoing);
    ("outgoingMessageStatus", _handle_status);
    ("stateInstanceChanged", _handle_state);
    ("incomingMessageReceived", _handle_incoming) ].

(** [green_webhook]: the route; an exception that escapes it is the
    framework's error response, a return is the empty 200 response. *)
Definition green_webhook (payload : json) : M unit :=
  kind <- lift (get payload "typeWebhook") ;;
  fn <- lift (table_get _HANDLERS kind) ;;
  match fn with
  | Some fn => fn payload
  | None => emit (Log warning "Unhandled webhook %s")
  end.

End Handlers.

End Webhook.

(** ** The outbound dispatcher ([app/listeners/msg_out_listener.py]) *)

Module Outbox.
Import Json Models Store Eff GreenMsg Webhook.
Local Open Scope eff_scope.

(** The provider and the bot, as the dispatcher meets them. *)
Record Gateway : Type := {
  client_for : Z -> outcome unit;
  send_message_reply : outcome json;
  send_file_reply : nat -> outcome json;
  set_message_reaction : outcome unit
}.

Section Dispatch.

Variable G : Gateway.

(** [app/green_api/exceptions.py] is not part of the sources: whether the
    throttle error is a [GreenAPIError] is a parameter. *)
Variable throttle_is_api_error : bool.

Definition is_green_api_error (e : exn) : bool :=
  match e with
  | GreenAPIError _ => true
  | GreenAPIThrottleError _ => throttle_is_api_error
  | _ => false
  end.

Definition exn_message (e : exn) : string :=
  match e with
  | GreenAPIError m | GreenAPIThrottleError m => m
  | _ => empty_str
  end.

Definition text_or_empty (t : option string) : string :=
  match t with
  | Some s => s
  | None => empty_str
  end.

(** The loop of [_send_files]: [k] counts the uploads made so far. *)
Fixpoint send_files_loop (chat_id : string) (files : list FileRow) (k : nat)
    (caption : string) (resp : json) : M json :=
  match files with
  | [] => ret resp
  | file_rec :: rest =>
      data <- read_file (f_path file_rec) ;;
      emit (SendFile chat_id data (f_name file_rec) (f_mime file_rec) caption) ;;;
      resp' <- lift (send_file_reply G k) ;;
      send_files_loop chat_id rest (S k) empty_str resp'
  end.

(** [_send_files]: one-by-one file transfer, the first file has the caption. *)
Definition _send_files (chat_id : string) (msg : Row) : M json :=
  send_files_loop chat_id (r_files msg) 0 (text_or_empty (r_text msg)) JNull.

(** [_mark_status]: the status, then the reaction in the channel. *)
Definition _mark_status (msg : Row) (st : MessageStatus.t) (ok : bool) : M unit :=
  commit (fun d => Ok (commit_status (r_id msg) st d)) ;;;
  match r_tg_message_id msg with
  | None => ret tt
  | Some tg =>
      let emoji := if ok then "👍" else "😡" in
      try_except
        (lift (set_message_reaction G) ;;; emit (Reaction tg emoji))
        any_exception
        (fun _ => emit (Log warning "cannot set reaction: %s"))
  end.

(** [_mark_wa_id]: the first writer of the provider id wins. *)
Definition _mark_wa_id (msg : Row) (resp : json) : M bool :=
  wa_id <- lift (get (if truthy resp then resp else JDict []) "idMessage") ;;
  if negb (truthy wa_id) then
    emit (Log error "send failed: %s") ;;;
    ret false
  else
    match r_wa_message_id msg with
    | Some old =>
        if negb (String.eqb old empty_str) then ret (is_str wa_id old)
        else
          w <- lift (as_text_not_null wa_id) ;;
          commit (commit_wa_id (r_id msg) (r_instance_id msg) w) ;;;
          ret true
    | None =>
        w <- lift (as_text_not_null wa_id) ;;
        commit (commit_wa_id (r_id msg) (r_instance_id msg) w) ;;;
        ret true
    end.

(** The callback [handle] of [msg_outbox], from the decoded envelope. *)
Definition handle (envelope : json) : M unit :=
  msg_id <- lift (getitem envelope "msg_id") ;;
  found <- query (fun d =>
                    match msg_id with
                    | JInt z =>
                        Ok ((fun msg => (msg, List.find (fun i => (i_id i =? r_instance_id msg)%Z)
                                                        (instances d)))
                              <$> select_by_id z d)
                    | JNull => Ok None
                    | _ => Raise DBAPIError
                    end) ;;
  match found with
  | None => emit (Log error "msg_out: message %s not found")
  | Some (msg, instance) =>
      if r_is_archived msg || negb (r_from_app msg) then ret tt
      else
        match instance with
        | None => raise AttributeError
        | Some inst =>
            let chat_id := r_chat_id msg in
            try_except
              (lift (client_for G (i_api_id inst)) ;;;
               resp <- (match r_files msg with
                        | [] =>
                            emit (SendMessage chat_id (text_or_empty (r_text msg))) ;;;
                            lift (send_message_reply G)
                        | _ => _send_files chat_id msg
                        end) ;;
               ok <- _mark_wa_id msg resp ;;
               _mark_status msg MessageStatus.sent ok)
              any_exception
              (fun e =>
                 if is_green_api_error e then
                   _mark_status msg MessageStatus.error_api false ;;;
                   notify_send_error msg ("ошибка API (" +:+ exn_message e +:+ ")") ;;;
                   emit (Log error "API error while sending: %s")
                 else
                   _mark_status msg MessageStatus.error_int false ;;;
                   notify_send_error msg "внутренняя ошибка" ;;;
                   emit (Log error "Internal error while sending msg"))
        end
  end.

(** The upload calls among the events of a run. *)
Definition uploads (trace : list event) : list event :=
  List.filter (fun ev => match ev with SendFile _ _ _ _ _ => true | _ => false end) trace.

End Dispatch.

End Outbox.

(** ** The admin upload path ([admin/utils/files.py]) *)

Module AdminFiles.
Import Json.

(** [Path(fname).stem] and [Path(fname).suffix]: the name is cut at its
    last dot, unless that dot leads or ends the name. *)
Definition stem_suffix (fname : string) : string * string :=
  match rsplit1 "." fname with
  | [ stem; ext ] =>
      if String.eqb stem empty_str || String.eqb ext empty_str then (fname, empty_str)
      else (stem, "." +:+ ext)
  | _ => (fname, empty_str)
  end.

(** The loop of [_build_media_path]: [n] is the next suffix to try. *)
Fixpoint free_name (fuel : nat) (dst stem suf : string) (disk : gmap string string)
    (candidate : string) (n : nat) : option string :=
  match fuel with
  | O => None
  | S fuel' =>
      match disk !! candidate with
      | None => Some candidate
      | Some _ =>
          free_name fuel' dst stem suf disk
                    (dst +:+ "/" +:+ stem +:+ "_" +:+ pretty n +:+ suf) (S n)
      end
  end.

(** [_build_media_path]: the first of [fname], [stem_1.suf], [stem_2.suf],
    ... that does not exist in the month directory [dst]. *)
Definition _build_media_path (fuel : nat) (dst fname : string) (disk : gmap string string)
  : option string :=
  let '(stem, suf) := stem_suffix fname in
  free_name fuel dst stem suf disk (dst +:+ "/" +:+ fname) 1.

End AdminFiles.

(** ** The chat id of the admin panel ([admin/routes/chat.py]) *)

Module AdminChat.
Import Json Store.

(** [s[:n]]. *)
Fixpoint take_str (n : nat) (s : string) : string :=
  match n, s with
  | S n', String c r => String c (take_str n' r)
  | _, _ => EmptyString
  end.

(** [_mk_chat_id]: [79951112233] is a person, [79951112233-g] a group. *)
Definition _mk_chat_id (phone : string) : string :=
  if ends_with "-g" phone then take_str (String.length phone - 2) phone +:+ "@g.us"
  else phone +:+ "@c.us".

End AdminChat.

(** ** Texts for Telegram ([app/utils/history_downloader.py])

    [len] and slices count characters: a text is a list of characters, of
    which the code singles out the newline and the space. *)

Module Notify.

Section Split.
Context {char : Type} `{EqDecision char}.
Variables (newline space : char).

(** [part.rfind(c)]: the last position of [c]; [None] stands for -1. *)
Fixpoint rfind (c : char) (part : list char) : option nat :=
  match part with
  | [] => None
  | x :: rest =>
      match rfind c rest with
      | Some i => Some (S i)
      | None => if decide (x = c) then Some 0 else None
      end
  end.

(** The loop [while msg:] of [_split_message]; [None] only when the fuel
    runs out. *)
Fixpoint split_loop (fuel : nat) (with_photo : bool) (parts : list (list char))
    (msg : list char) : option (list (list char)) :=
  match fuel with
  | O => None
  | S fuel' =>
      match msg with
      | [] => Some parts
      | _ :: _ =>
          let max_msg_length :=
            match parts with
            | _ :: _ => 4096
            | [] => if with_photo then 1024 else 4096
            end in
          if length msg <=? max_msg_length then Some (parts ++ [ msg ])
          else
            let part := take max_msg_length msg in
            match rfind newline part with
            | Some first_ln =>
                split_loop fuel' with_photo (parts ++ [ take first_ln part ])
                           (drop (S first_ln) msg)
            | None =>
                match rfind space part with
                | Some first_space =>
                    split_loop fuel' with_photo (parts ++ [ take first_space part ])
                               (drop (S first_space) msg)
                | None =>
                    split_loop fuel' with_photo (parts ++ [ part ])
                               (drop max_msg_length msg)
                end
            end
      end
  end.

(** [_split_message]: split the text into parts considering Telegram limits. *)
Definition _split_message (fuel : nat) (msg : list char) (with_photo : bool)
  : option (list (list char)) :=
  split_loop fuel with_photo [] msg.

(** What a split drops between two parts: nothing, a newline or a space. *)
Definition separator (s : list char) : Prop := s = [] \/ s = [ newline ] \/ s = [ space ].

(** The parts and what was dropped after each, put together again. *)
Definition rejoin (parts seps : list (list char)) : list char :=
  concat (zip_with app parts seps).

End Split.

End Notify.

(** ** The refresh cooldown ([app/routes/admin_qr.py]) *)

Module Refresh.
Import Limiter.

Definition TTL : Q := 60.

(** The module-level [_COOLDOWN] dict and the jobs handed to the loop. *)
Record state : Type := mkState {
  _COOLDOWN : gmap Z Q;
  jobs : list Z
}.

Inductive response : Type :=
  | json_response (data : list (string * string)) (status : Z).

(** [rpc_refresh] at the instant [now] ([time.time()]). *)
Definition rpc_refresh (api_id : Z) (now : Q) (st : state) : response * state :=
  let last := default 0%Q (_COOLDOWN st !! api_id) in
  if Qltb (now - last) TTL then (json_response [ ("error", "cooldown") ] 429, st)
  else (json_response [ ("status", "scheduled") ] 202,
        mkState (<[api_id := now]> (_COOLDOWN st)) (jobs st ++ [ api_id ])).

End Refresh.

(** ** The QR code of an instance ([GreenAPIClient.get_qr]) *)

Module Qr.
Import Json Limiter Client.

(** One run of [get_qr]: the reply, the client and its [_qr_cache] entry
    afterwards, and whether the provider was asked. *)
Record qr_run : Type := mkQr {
  reply : outcome json;
  client_after_qr : GreenAPIClient;
  cache_after : option (json * Q);
  asked : bool
}.

(** The payload [get_qr] builds from the provider's answer. *)
Definition qr_payload (rt : Runtime) (raw : json) : outcome json :=
  resp_type ← get_default raw "type" JNull;
  if is_str resp_type "qrCode" then
    m ← getitem raw "message";
    Ok (JDict [ ("status", JStr "qr");
                ("image", JStr ("data:image/png;base64," +:+ py_str rt m)) ])
  else if is_str resp_type "alreadyLogged" then Ok (JDict [ ("status", JStr "already_logged") ])
  else if is_str resp_type "timeout" then Ok (JDict [ ("status", JStr "timeout") ])
  else
    m ← get_default raw "message" (JStr "unknown");
    Ok (JDict [ ("status", JStr "error"); ("message", m) ]).

Section Limits.

Variable _METHOD_RPS : gmap string Q.
Variable DEFAULT_RPS : Q.
Variable rt : Runtime.

(** [get_qr] for a single caller at the instant [now] of the loop's clock:
    the second look at the cache, under [_qr_lock], sees what the first saw. *)
Definition get_qr (fuel : nat) (c : GreenAPIClient) (cache : option (json * Q))
    (net : exchange) (now : Q) : option qr_run :=
  let '(cached, ts) := default (JNull, 0%Q) cache in
  if Qltb (now - ts) 1 then Some (mkQr (Ok cached) c cache false)
  else
    run ← _json _METHOD_RPS DEFAULT_RPS fuel c "qr" false net now;
    let c1 := client_after run in
    match result run with
    | Raise (GreenAPIThrottleError _) =>
        match _limiters c1 !! "qr" with
        | Some l =>
            Some (mkQr (Ok (JDict [ ("status", JStr "error");
                                    ("message", JStr "too many requests (429)") ]))
                       (set_limiters c1 (<["qr" := block l (done_at run)]> (_limiters c1)))
                       cache true)
        | None => Some (mkQr (Raise (KeyError "qr")) c1 cache true)
        end
    | Raise (GreenAPIError m) =>
        Some (mkQr (Ok (JDict [ ("status", JStr "error"); ("message", JStr m) ])) c1 cache true)
    | Raise e => Some (mkQr (Raise e) c1 cache true)
    | Ok raw =>
        match qr_payload rt raw with
        | Ok payload => Some (mkQr (Ok payload) c1 (Some (payload, now)) true)
        | Raise e => Some (mkQr (Raise e) c1 cache true)
        end
    end.

End Limits.

End Qr.

(** * What is said about runs *)

Module Runs.
Import Json Models Store Eff.

(** The world a run leaves, what it returns, and the events it made. *)
Definition world_after {A} (r : outcome A * world * list event) : world := snd (fst r).
Definition outcome_of {A} (r : outcome A * world * list event) : outcome A := fst (fst r).
Definition trace_of {A} (r : outcome A * world * list event) : list event := snd r.

(** [keeps I m]: every run of [m] from a world in [I] ends in [I], whether
    it returns or raises. *)
Definition keeps {A} (I : world -> Prop) (m : M A) : Prop :=
  forall w, I w -> I (world_after (m w)).

(** An invariant that only reads the store. *)
Definition on_store (P : DB -> Prop) : world -> Prop := fun w => P (db w).

(** [returns m Q]: whatever [m] returns satisfies [Q]. *)
Definition returns {A} (m : M A) (Q : A -> Prop) : Prop :=
  forall w a w' t, m w = (Ok a, w', t) -> Q a.

(** The rows of the store have pairwise different keys. *)
Definition unique_keys : world -> Prop := on_store (fun d => uq_msg_wa (messages d)).

(** Two messages with the same key. *)
Definition same_key (m m' : Message) : Prop :=
  instance_id m' = instance_id m /\ wa_message_id m' = wa_message_id m.

(** The GET requests among the events of a run. *)
Definition attempts (trace : list event) : nat :=
  length (List.filter (fun ev => match ev with HttpGet _ => true | _ => false end) trace).

(** Two runs that leave the same world and the same events, and either
    return results related by [R] or raise the same exception. *)
Definition agree_runs {A B} (R : A -> B -> Prop)
    (r1 : outcome A * world * list event) (r2 : outcome B * world * list event) : Prop :=
  world_after r1 = world_after r2 /\ trace_of r1 = trace_of r2 /\
  match outcome_of r1, outcome_of r2 with
  | Ok a, Ok b => R a b
  | Raise e1, Raise e2 => e1 = e2
  | _, _ => False
  end.

(** [alike R m1 m2]: from every world the runs of [m1] and [m2] agree. *)
Definition alike {A B} (R : A -> B -> Prop) (m1 : M A) (m2 : M B) : Prop :=
  forall w, agree_runs R (m1 w) (m2 w).

(** What the specification compares of a message: its type, its text and
    the number of its attachments. *)
Definition digest (m : Message) : MessageType.t * json * nat :=
  (message_type m, text m, length (files m)).

Definition same_digest (a b : option Message) : Prop := digest <$> a = digest <$> b.

(** [m'] is [m] with another type, text or list of files: the fields the
    branch by type never writes are the same. *)
Definition same_envelope (m m' : Message) : Prop :=
  instance_id m' = instance_id m /\ conversation_id m' = conversation_id m /\
  wa_message_id m' = wa_message_id m /\ chat_id m' = chat_id m /\
  chat_name m' = chat_name m /\ created_at m' = created_at m /\
  from_app m' = from_app m /\ direction m' = direction m /\
  status m' = status m /\ is_archived m' = is_archived m /\
  length (files m') <= S (length (files m)).

(** [silent m]: no run of [m] makes an upload call. *)
Definition silent {A} (m : M A) : Prop :=
  forall w, Outbox.uploads (trace_of (m w)) = [].

End Runs.

(** * What the specification expects *)

Module Expected.
Import Json Limiter Client Models Store Eff GreenMsg Webhook Outbox Runs.

(** Every limiter the client holds is well formed at [now]. *)
Definition limiters_wf (c : GreenAPIClient) (now : Q) : Prop :=
  forall k l, _limiters c !! k = Some l -> limiter_wf l now.

(** *** A journal entry and the live webhook of the same message

    [x.get(k)] on a dict, nothing on anything else. *)
Definition field (x : json) (k : string) : option json :=
  match x with
  | JDict d => assoc k d
  | _ => None
  end.

(** A string field of the webhook that the journal carries as well, or
    leaves out (or null) when it is empty. *)
Definition same_or_missing (e : option json) (s : string) : Prop :=
  e = Some (JStr s) \/ (s = empty_str /\ (e = None \/ e = Some JNull)).

(** The sender name a message shows: an empty one counts as none. *)
Definition shown_name (o : option json) : option json :=
  match o with
  | Some v => if truthy v then Some v else None
  | None => None
  end.

(** The type-specific part: [entry] is the journal entry, [mdata] the
    [messageData] of the webhook. *)
Definition same_content (mtype : string) (entry mdata : json) : Prop :=
  if String.eqb mtype "textMessage" then
    exists t sec,
      field entry "textMessage" = Some t /\
      field mdata "textMessageData" = Some sec /\ field sec "textMessage" = Some t
  else if String.eqb mtype "extendedTextMessage" then
    exists t e sec,
      field entry "extendedTextMessage" = Some e /\ field e "text" = Some t /\
      match field entry "textMessage" with
      | Some v => truthy v = false \/ v = t
      | None => True
      end /\
      field mdata "extendedTextMessageData" = Some sec /\ field sec "text" = Some t
  else if String.eqb mtype "reactionMessage" then
    exists sec,
      field entry "extendedTextMessageData" = Some sec /\
      field mdata "extendedTextMessageData" = Some sec
  else if String.eqb mtype "quotedMessage" then
    exists sec q,
      field entry "extendedTextMessage" = Some sec /\ field entry "quotedMessage" = Some q /\
      field mdata "extendedTextMessageData" = Some sec
  else if existsb (String.eqb mtype) History._FILE_MTYPES then
    exists fm caption fname mime,
      field mdata "fileMessageData" = Some fm /\
      field fm "caption" = Some (JStr caption) /\
      same_or_missing (field entry "caption") caption /\
      field fm "fileName" = Some (JStr fname) /\
      same_or_missing (field entry "fileName") fname /\
      field fm "mimeType" = Some (JStr mime) /\
      same_or_missing (field entry "mimeType") mime /\
      default JNull (field fm "downloadUrl") = default JNull (field entry "downloadUrl")
  else if String.eqb mtype "locationMessage" then
    exists loc,
      field entry "location" = Some loc /\ field mdata "locationMessageData" = Some loc
  else if String.eqb mtype "contactMessage" then
    exists c,
      field entry "contact" = Some c /\ field mdata "contactMessageData" = Some c
  else if String.eqb mtype "contactsArrayMessage" then
    exists cs sec,
      field entry "contacts" = Some cs /\
      field mdata "messageData" = Some sec /\ field sec "contacts" = Some cs
  else if String.eqb mtype "pollMessage" then
    exists p,
      field entry "pollMessageData" = Some p /\ field mdata "pollMessageData" = Some p
  else if String.eqb mtype "pollUpdateMessage" then
    exists p, field entry "pollMessageData" = Some p
  else if String.eqb mtype "interactiveButtons" then
    exists b,
      field entry "interactiveButtons" = Some b /\ field mdata "interactiveButtons" = Some b
  else False.

(** [native] is the webhook the provider sends for the message that
    [entry] records in the journal of account [api_id]: the same id, time,
    chat and sender name, the same type, and the same content. *)
Definition live_equivalent (api_id : Z) (entry native : json) : Prop :=
  exists ty wa ts chat mtype inst sender mdata,
    field entry "type" = Some ty /\
    field entry "idMessage" = Some wa /\ field native "idMessage" = Some wa /\
    field entry "timestamp" = Some ts /\ field native "timestamp" = Some ts /\
    field entry "chatId" = Some chat /\
    field native "senderData" = Some sender /\ field sender "chatId" = Some chat /\
    shown_name (field entry "senderName") = shown_name (field sender "senderName") /\
    field native "instanceData" = Some inst /\ field inst "idInstance" = Some (JInt api_id) /\
    field entry "typeMessage" = Some (JStr mtype) /\
    field native "messageData" = Some mdata /\
    field mdata "typeMessage" = Some (JStr mtype) /\
    same_content mtype entry mdata.

(** What the handlers leave in the log when they swallow a duplicate. *)
Definition dup_log : list event :=
  [ Rollback; Log warning "Dup webhook skipped (%s, %s)" ].

(** A delivery of [payload] on its way. *)
Definition on_its_way (payload : json) (iid : Z) (wid : string) (d : delivery) : Prop :=
  match d with
  | Received p => p = payload
  | Mapped (Some m) => instance_id m = iid /\ wa_message_id m = JStr wid
  | _ => True
  end.

Definition has_key (iid : Z) (wid : string) (r : Row) : Prop :=
  r_instance_id r = iid /\ r_wa_message_id r = Some wid.

(** The store while the deliveries run: at most one row was added, it has
    the webhook's key, and the keys stay unique. *)
Definition raced (iid : Z) (wid : string) (w0 : world) (d : DB) : Prop :=
  (exists l, messages d = messages (db w0) ++ l /\ length l <= 1 /\ Forall (has_key iid wid) l) /\
  instances d = instances (db w0) /\
  uq_msg_wa (messages d).

(** The diagnostic [notify_send_error] stores for [orig]. *)
Definition diagnostic (orig : Row) (reason : string) : Message :=
  mkMessage (r_instance_id orig) (r_conversation_id orig) JNull (r_chat_id orig)
            (JStr (r_chat_name orig)) JNull true MessageDirection.sys
            MessageStatus.incoming MessageType.notification
            (JStr (ERR_PREFIX +:+ LF +:+ "```" +:+ reason +:+ "```")) false [].

Definition diagnostic_row (d : DB) (orig : Row) (reason : string) : Row :=
  mkRow (next_id d) (r_instance_id orig) (r_conversation_id orig) None None
        (r_chat_id orig) (r_chat_name orig) JNull true MessageDirection.sys
        MessageStatus.incoming MessageType.notification
        (Some (ERR_PREFIX +:+ LF +:+ "```" +:+ reason +:+ "```")) false [].

Definition with_diagnostic (d : DB) (orig : Row) (reason : string) : DB :=
  mkDB (instances d) (conversations d) (messages d ++ [diagnostic_row d orig reason])
       (next_id d + 1)%Z (next_conv_id d) (notified d ++ [ (msg_in, next_id d) ]).

(** The world after the status of [msg] was set. *)
Definition updated (msg : Row) (new_st : MessageStatus.t) (w : world) : DB := commit_status (r_id msg) new_st (db w).

(** The upload calls the specification asks for: one per attachment, in
    order, the caption on the first only. *)
Definition expected_uploads (chat_id caption : string) (files : list FileRow)
    (disk : gmap string string) : list event :=
  imap (fun k f =>
          SendFile chat_id (default empty_str (disk !! f_path f)) (f_name f) (f_mime f)
                   (if decide (k = 0) then caption else empty_str))
       files.

(** An attempt that [download_safe] counts as failed: a caught exception,
    before or after the file was opened, or a zero-byte body. *)
Definition failing (r : fetch_result) : Prop :=
  match r with
  | Fetched data => data = empty_str
  | Refused e => caught e = true
  | Broken _ e => caught e = true
  end.

(** The sleep after the [k]-th failed attempt. *)
Definition backoff_sleep (N : Net) (k : nat) : Q :=
  ((3 # 2) ^ Z.of_nat k * ((1 # 2) + random N (k - 1) / 2))%Q.

Definition warn : event := Log warning "Download failed (try %s/%s) url=%s err=%s".
Definition gave_up : event := Log error "All retries exhausted; give up downloading %s".

(** What a download that fails every time does. *)
Definition give_up_trace (N : Net) (url local : string) : list event :=
  [ HttpGet url; warn; Unlink local; Sleep (backoff_sleep N 1);
    HttpGet url; warn; Unlink local; Sleep (backoff_sleep N 2);
    HttpGet url; warn; Unlink local; Sleep (backoff_sleep N 3);
    HttpGet url; warn; Unlink local; gave_up ].

Definition without_file (local : string) (w : world) : world :=
  mkWorld (db w) (delete local (fs w)).

(** A media webhook as the provider sends it. *)
Definition file_fields (url fname mime : string) (caption : option string)
  : list (string * json) :=
  [ ("downloadUrl", JStr url); ("fileName", JStr fname); ("mimeType", JStr mime) ]
  ++ match caption with
     | Some c => [ ("caption", JStr c) ]
     | None => []
     end.

Definition file_message (api_id : Z) (id_message chat_id : string) (timestamp : Z)
    (mtype : string) (fm : list (string * json)) : json :=
  JDict [ ("typeWebhook", JStr "incomingMessageReceived");
          ("instanceData", JDict [ ("idInstance", JInt api_id) ]);
          ("idMessage", JStr id_message);
          ("timestamp", JInt timestamp);
          ("senderData", JDict [ ("chatId", JStr chat_id) ]);
          ("messageData", JDict [ ("typeMessage", JStr mtype);
                                  ("fileMessageData", JDict fm) ]) ].

Definition media_types : list string :=
  [ "imageMessage"; "stickerMessage"; "videoMessage"; "audioMessage"; "documentMessage" ].

(** The text of a message whose file could not be downloaded. *)
Definition could_not_download (caption : option string) (fname : string) : string :=
  match caption with
  | Some c =>
      if String.eqb c empty_str
      then "<Не удалось скачать файл (" +:+ (if String.eqb fname empty_str then "no-name" else fname) +:+ ")>"
      else c +:+ LF +:+ "<Не удалось скачать файл ("
             +:+ (if String.eqb fname empty_str then "--" else fname) +:+ ")>"
  | None =>
      "<Не удалось скачать файл (" +:+ (if String.eqb fname empty_str then "no-name" else fname) +:+ ")>"
  end.

(** An [incomingCall] webhook. *)
Definition call_webhook (api_id : Z) (id_message from status : string) : json :=
  JDict [ ("typeWebhook", JStr "incomingCall");
          ("instanceData", JDict [ ("idInstance", JInt api_id) ]);
          ("idMessage", JStr id_message);
          ("from", JStr from);
          ("status", JStr status) ].

(** The text of the record of a call in the given stage. *)
Definition call_text (status : string) : string :=
  "📞 " +:+ match List.find (fun kv => String.eqb (fst kv) status) _CALL_STATUS_HUMAN with
            | Some kv => snd kv
            | None => status
            end.

(** A text message webhook of the given kind. *)
Definition text_webhook (kind : string) (api_id : Z) (id_message chat_id : string)
    (timestamp : Z) (body : string) : json :=
  JDict [ ("typeWebhook", JStr kind);
          ("instanceData", JDict [ ("idInstance", JInt api_id) ]);
          ("idMessage", JStr id_message);
          ("timestamp", JInt timestamp);
          ("senderData", JDict [ ("chatId", JStr chat_id) ]);
          ("messageData", JDict [ ("typeMessage", JStr "textMessage");
                                  ("textMessageData",
                                   JDict [ ("textMessage", JStr body) ]) ]) ].

(** A [stateInstanceChanged] webhook. *)
Definition state_webhook (api_id : Z) (state : string) : json :=
  JDict [ ("typeWebhook", JStr "stateInstanceChanged");
          ("instanceData", JDict [ ("idInstance", JInt api_id) ]);
          ("stateInstance", JStr state) ].

(** Two versions of a row that differ at most in status and text. *)
Definition same_row (r r' : Row) : Prop :=
  row_with_text (row_with_status r' (r_status r)) (r_text r) = r.

(** The message table some time later: the rows it had, each in its place
    and changed at most in status and text, and then the new rows. *)
Definition grown (old rows : list Row) : Prop :=
  exists kept added, rows = kept ++ added /\ Forall2 same_row old kept.

(** What [_mark_status] emits: the reaction under the channel post the
    message came from, if it came from one. *)
Definition reaction_trace (G : Gateway) (msg : Row) (ok : bool) : list event :=
  match r_tg_message_id msg with
  | None => []
  | Some tg =>
      match set_message_reaction G with
      | Ok _ => [ Reaction tg (if ok then "👍" else "😡") ]
      | Raise _ => [ Log warning "cannot set reaction: %s" ]
      end
  end.

(** The status and the reason the dispatcher records for a failed send. *)
Definition failure_status (api_error : bool) : MessageStatus.t :=
  if api_error then MessageStatus.error_api else MessageStatus.error_int.

Definition failure_reason (api_error : bool) (e : exn) : string :=
  if api_error then "ошибка API (" +:+ exn_message e +:+ ")" else "внутренняя ошибка".

Definition failure_log (api_error : bool) : event :=
  if api_error then Log error "API error while sending: %s"
  else Log error "Internal error while sending msg".

(** The one warning of a handler that does not know the instance. *)
Definition unknown_instance : list event :=
  [ Log warning "Webhook for unknown instance %s – ignore" ].

End Expected.

(** * Inputs the statements are tried on *)

Module Examples.
Import Json Limiter Client Models Store Eff GreenMsg Backfill Webhook Outbox.

Definition ex_rt : Runtime :=
  {| py_repr := fun _ => "<object>"; url_basename := split_last "/" |}.

Definition ex_db : DB :=
  mkDB [ mkInstance 1 1101 InstanceState.authorized (-1001) ] [] [] 1 1 [].

Definition ex_world : world := mkWorld ex_db ∅.

(** A network on which every download succeeds. *)
Definition ex_net_up : Net :=
  {| get_client := fun _ => Ok tt;
     cl_download_file := fun _ _ => Ok JNull;
     fetch := fun url _ =>
       if String.eqb url "https://media.example/1" then Fetched "first image"
       else Fetched "second image";
     random := fun _ => 0%Q;
     utc_month := "2025/06" |}.

(** A network on which every download is refused. *)
Definition ex_net_down : Net :=
  {| get_client := fun _ => Ok tt;
     cl_download_file := fun _ _ => Ok JNull;
     fetch := fun _ _ => Refused ClientError;
     random := fun _ => 0%Q;
     utc_month := "2025/06" |}.

(** A network on which a download fails in every way [download_safe]
    provides for: an empty body, a refused request, a broken transfer. *)
Definition ex_net_flaky : Net :=
  {| get_client := fun _ => Ok tt;
     cl_download_file := fun _ _ => Ok JNull;
     fetch := fun _ attempt =>
       match attempt with
       | 1 => Refused ClientError
       | 2 => Broken "par" TimeoutError
       | _ => Fetched empty_str
       end;
     random := fun _ => (1 # 4)%Q;
     utc_month := "2025/06" |}.

Definition ex_client : GreenAPIClient :=
  mkClient "https://api.green-api.com" "https://media.green-api.com" 1101000001 "token" ∅.

Definition ex_429 : Client.response := Client.mkResponse 429 "Too Many Requests" (Raise ContentTypeError).
Definition ex_200 : Client.response := Client.mkResponse 200 "{}" (Ok (JDict [])).

(** A vote in a poll, one of the ignored message types. *)
Definition poll_vote : json :=
  JDict [ ("typeWebhook", JStr "incomingMessageReceived");
          ("instanceData", JDict [ ("idInstance", JInt 1101) ]);
          ("idMessage", JStr "P1");
          ("timestamp", JInt 1750000000);
          ("senderData", JDict [ ("chatId", JStr "79001234567@c.us");
                                 ("senderName", JStr "Ann") ]);
          ("messageData", JDict [ ("typeMessage", JStr "pollUpdateMessage") ]) ].

(** An outbound message of the admin panel with two attachments. *)
Definition ex_attachments : list FileRow :=
  [ mkFileRow FileType.image "a.jpg" "image/jpeg" "/app/media/2025/06/a.jpg"
              "/media/2025/06/a.jpg" 5;
    mkFileRow FileType.other "b.pdf" "application/pdf" "/app/media/2025/06/b.pdf"
              "/media/2025/06/b.pdf" 6 ].

Definition ex_outbound : Row :=
  mkRow 7 1 (Some 1%Z) None None "79001234567@c.us" "Ann" JNull true MessageDirection.out
        MessageStatus.pending MessageType.file_image (Some "two files") false
        ex_attachments.

Definition ex_outbox_world : world :=
  mkWorld (mkDB [ mkInstance 1 1101 InstanceState.authorized (-1001) ] [] [ ex_outbound ]
                8 2 [])
          {[ "/app/media/2025/06/a.jpg" := "jpeg!"; "/app/media/2025/06/b.pdf" := "pdf..." ]}.

(** A provider that accepts every call. *)
Definition ex_gateway : Gateway :=
  {| client_for := fun _ => Ok tt;
     send_message_reply := Ok (JDict [ ("idMessage", JStr "S1") ]);
     send_file_reply := fun _ => Ok (JDict [ ("idMessage", JStr "S1") ]);
     set_message_reaction := Ok tt |}.

(** An incoming text message. *)
Definition text_message : json :=
  JDict [ ("typeWebhook", JStr "incomingMessageReceived");
          ("instanceData", JDict [ ("idInstance", JInt 1101) ]);
          ("idMessage", JStr "T1");
          ("timestamp", JInt 1750000000);
          ("senderData", JDict [ ("chatId", JStr "79001234567@c.us");
                                 ("senderName", JStr "Ann") ]);
          ("messageData", JDict [ ("typeMessage", JStr "textMessage");
                                  ("textMessageData",
                                   JDict [ ("textMessage", JStr "hello") ]) ]) ].

(** The journal entry of an image message; [image_message] with the same
    id, url and caption is its live webhook. *)
Definition image_entry (wa url caption : string) : json :=
  JDict [ ("type", JStr "incoming");
          ("idMessage", JStr wa);
          ("timestamp", JInt 1750000000);
          ("typeMessage", JStr "imageMessage");
          ("chatId", JStr "79001234567@c.us");
          ("senderId", JStr "79001234567@c.us");
          ("senderName", JStr "Ann");
          ("downloadUrl", JStr url);
          ("caption", JStr caption);
          ("fileName", JStr "photo.jpg");
          ("mimeType", JStr "image/jpeg") ].

(** An image entry and an image webhook that both lack the caption key. *)
Definition bare_image_entry : json :=
  JDict [ ("type", JStr "incoming");
          ("idMessage", JStr "A1");
          ("timestamp", JInt 1750000000);
          ("typeMessage", JStr "imageMessage");
          ("chatId", JStr "79001234567@c.us");
          ("downloadUrl", JStr "https://media.example/1");
          ("fileName", JStr "photo.jpg");
          ("mimeType", JStr "image/jpeg") ].

Definition bare_image_message : json :=
  JDict [ ("typeWebhook", JStr "incomingMessageReceived");
          ("instanceData", JDict [ ("idInstance", JInt 1101) ]);
          ("idMessage", JStr "A1");
          ("timestamp", JInt 1750000000);
          ("senderData", JDict [ ("chatId", JStr "79001234567@c.us") ]);
          ("messageData",
           JDict [ ("typeMessage", JStr "imageMessage");
                   ("fileMessageData",
                    JDict [ ("downloadUrl", JStr "https://media.example/1");
                            ("fileName", JStr "photo.jpg");
                            ("mimeType", JStr "image/jpeg") ]) ]) ].

(** A message that was sent, and the provider's word on it. *)
Definition ex_sent : Row :=
  mkRow 7 1 (Some 1%Z) (Some "S1") None "79001234567@c.us" "Ann" JNull true
        MessageDirection.out MessageStatus.sent MessageType.text (Some "hello") false [].

Definition ex_sent_world : world :=
  mkWorld (mkDB [ mkInstance 1 1101 InstanceState.authorized (-1001) ] [] [ ex_sent ]
                8 2 [])
          ∅.

Definition status_webhook (st : string) : json :=
  JDict [ ("typeWebhook", JStr "outgoingMessageStatus");
          ("instanceData", JDict [ ("idInstance", JInt 1101) ]);
          ("idMessage", JStr "S1");
          ("status", JStr st) ].

Definition image_message (wa url caption : string) : json :=
  JDict [ ("typeWebhook", JStr "incomingMessageReceived");
          ("instanceData", JDict [ ("idInstance", JInt 1101) ]);
          ("idMessage", JStr wa);
          ("timestamp", JInt 1750000000);
          ("senderData", JDict [ ("chatId", JStr "79001234567@c.us");
                                 ("senderName", JStr "Ann") ]);
          ("messageData",
           JDict [ ("typeMessage", JStr "imageMessage");
                   ("fileMessageData",
                    JDict [ ("downloadUrl", JStr url); ("caption", JStr caption);
                            ("fileName", JStr "photo.jpg");
                            ("mimeType", JStr "image/jpeg") ]) ]) ].

Definition ex_request : request := mkRequest 1101 (Some "true") false (Raise ContentTypeError).
Definition ex_running : state := mkState {[ 1101%Z := true ]} [ (1101%Z, false) ].

(** A text written in the channel (post 55), waiting to be sent. *)
Definition ex_pending : Row :=
  mkRow 7 1 (Some 1%Z) None (Some 55%Z) "79001234567@c.us" "Ann" JNull true
        MessageDirection.out MessageStatus.pending MessageType.text (Some "hello") false [].

Definition ex_pending_world : world :=
  mkWorld (mkDB [ mkInstance 1 1101 InstanceState.authorized (-1001) ] [] [ ex_pending ]
                8 2 [])
          ∅.

(** A provider that refuses every message. *)
Definition ex_gateway_down : Gateway :=
  {| client_for := fun _ => Ok tt;
     send_message_reply := Raise (GreenAPIError "sendMessage: 466");
     send_file_reply := fun _ => Raise (GreenAPIError "sendFileByUpload: 466");
     set_message_reaction := Ok tt |}.

(** A provider whose replies carry no message id. *)
Definition ex_gateway_mute : Gateway :=
  {| client_for := fun _ => Ok tt;
     send_message_reply := Ok (JDict []);
     send_file_reply := fun _ => Ok (JDict []);
     set_message_reaction := Ok tt |}.

(** The outbound message with two attachments when the second file is gone. *)
Definition ex_half_world : world :=
  mkWorld (db ex_outbox_world) {[ "/app/media/2025/06/a.jpg" := "jpeg!" ]}.

(** A network on which the third attempt of a download brings the body. *)
Definition ex_net_slow : Net :=
  {| get_client := fun _ => Ok tt;
     cl_download_file := fun _ _ => Ok JNull;
     fetch := fun _ attempt =>
       match attempt with
       | 0 => Fetched empty_str
       | 1 => Refused ClientError
       | _ => Fetched "third time"
       end;
     random := fun _ => (1 # 4)%Q;
     utc_month := "2025/06" |}.

(** A network whose transfers break with an error the downloader does not
    expect. *)
Definition ex_net_cut : Net :=
  {| get_client := fun _ => Ok tt;
     cl_download_file := fun _ _ => Ok JNull;
     fetch := fun _ _ => Broken "par" (RuntimeError "closed");
     random := fun _ => (1 # 4)%Q;
     utc_month := "2025/06" |}.

End Examples.

(** * Proofs *)

Module EffFacts.
Import Json Models Store Eff Runs.

Lemma bind_ok {A B} (m : M A) (f : A -> M B) w a w1 t1 :
  m w = (Ok a, w1, t1) ->
  bind m f w = (let '(r, w2, t2) := f a w1 in (r, w2, t1 ++ t2)).
Proof. unfold bind. intros ->. reflexivity. Qed.

Lemma bind_raise {A B} (m : M A) (f : A -> M B) w e w1 t1 :
  m w = (Raise e, w1, t1) -> bind m f w = (Raise e, w1, t1).
Proof. unfold bind. intros ->. reflexivity. Qed.

Lemma bind_lift_ok {A B} (o : outcome A) (f : A -> M B) w a :
  o = Ok a -> bind (lift o) f w = f a w.
Proof.
  intros ->. unfold bind, lift. destruct (f a w) as [[r w2] t2]. reflexivity.
Qed.

Lemma bind_lift_raise {A B} (o : outcome A) (f : A -> M B) w e :
  o = Raise e -> bind (lift o) f w = (Raise e, w, []).
Proof. intros ->. reflexivity. Qed.

Lemma bind_query_ok {A B} (q : DB -> outcome A) (f : A -> M B) w a :
  q (db w) = Ok a -> bind (query q) f w = f a w.
Proof.
  intros H. unfold bind, query. rewrite H. destruct (f a w) as [[r w2] t2]. reflexivity.
Qed.

Lemma bind_ret {A B} (a : A) (f : A -> M B) w : bind (ret a) f w = f a w.
Proof. unfold bind, ret. destruct (f a w) as [[r w2] t2]. reflexivity. Qed.

Lemma bind_emit {B} (ev : event) (f : unit -> M B) w :
  bind (emit ev) f w = (let '(r, w2, t2) := f tt w in (r, w2, ev :: t2)).
Proof. reflexivity. Qed.

Lemma bind_assoc {A B C} (m : M A) (f : A -> M B) (g : B -> M C) w :
  bind (bind m f) g w = bind m (fun a => bind (f a) g) w.
Proof.
  unfold bind. destruct (m w) as [[[a|e] w1] t1]; [|reflexivity].
  destruct (f a w1) as [[[b|e] w2] t2]; [|reflexivity].
  destruct (g b w2) as [[r w3] t3]. rewrite app_assoc. reflexivity.
Qed.


Section Keeps.
Context (I : world -> Prop).

Lemma keeps_ret {A} (a : A) : keeps I (ret a).
Proof. intros w H. exact H. Qed.

Lemma keeps_lift {A} (o : outcome A) : keeps I (lift o).
Proof. intros w H. exact H. Qed.

Lemma keeps_raise {A} (e : exn) : keeps I (raise e : M A).
Proof. intros w H. exact H. Qed.

Lemma keeps_emit ev : keeps I (emit ev).
Proof. intros w H. exact H. Qed.

Lemma keeps_query {A} (q : DB -> outcome A) : keeps I (query q).
Proof. intros w H. exact H. Qed.

Lemma keeps_read_file p : keeps I (read_file p).
Proof. intros w H. unfold read_file, world_after. destruct (fs w !! p); exact H. Qed.

Lemma keeps_bind {A B} (m : M A) (f : A -> M B) :
  keeps I m -> (forall a, keeps I (f a)) -> keeps I (bind m f).
Proof.
  intros Hm Hf w H. unfold bind, world_after. specialize (Hm w H). unfold world_after in Hm.
  destruct (m w) as [[[a|e] w1] t1]; cbn in *; [|exact Hm].
  specialize (Hf a w1 Hm). unfold world_after in Hf.
  destruct (f a w1) as [[r w2] t2]. exact Hf.
Qed.

Lemma keeps_try {A} (body : M A) handles (handler : exn -> M A) :
  keeps I body -> (forall e, keeps I (handler e)) -> keeps I (try_except body handles handler).
Proof.
  intros Hb Hh w H. unfold try_except, world_after. specialize (Hb w H). unfold world_after in Hb.
  destruct (body w) as [[[a|e] w1] t1]; cbn in *; [exact Hb|].
  destruct (handles e); [|exact Hb].
  specialize (Hh e w1 Hb). unfold world_after in Hh.
  destruct (handler e w1) as [[r w2] t2]. exact Hh.
Qed.

Lemma keeps_with_db {A} (f : DB -> outcome (A * DB)) :
  (forall w a d, I w -> f (db w) = Ok (a, d) -> I (mkWorld d (fs w))) ->
  keeps I (with_db f).
Proof.
  intros Hf w H. unfold with_db, world_after.
  destruct (f (db w)) as [[a d]|e] eqn:E; cbn; [|exact H]. eapply Hf; eauto.
Qed.

Lemma keeps_commit (f : DB -> outcome DB) :
  (forall w d, I w -> f (db w) = Ok d -> I (mkWorld d (fs w))) ->
  keeps I (commit f).
Proof.
  intros Hf w H. unfold commit, world_after.
  destruct (f (db w)) as [d|e] eqn:E; cbn; [|exact H]. eapply Hf; eauto.
Qed.

End Keeps.


Lemma keeps_write_file P p data : keeps (on_store P) (write_file p data).
Proof. intros w H. exact H. Qed.

Lemma keeps_remove_file P p : keeps (on_store P) (remove_file p).
Proof. intros w H. exact H. Qed.


Lemma returns_any {A} (m : M A) : returns m (fun _ => True).
Proof. intros w a w' t _. exact Logic.I. Qed.

Lemma returns_ret {A} (a : A) (Q : A -> Prop) : Q a -> returns (ret a) Q.
Proof. intros H w b w' t E. inversion E; subst. exact H. Qed.

Lemma returns_lift {A} (o : outcome A) : returns (lift o) (fun a => o = Ok a).
Proof. intros w a w' t E. inversion E; subst. reflexivity. Qed.

Lemma returns_bind {A B} (m : M A) (f : A -> M B) (P : A -> Prop) (Q : B -> Prop) :
  returns m P -> (forall a, P a -> returns (f a) Q) -> returns (bind m f) Q.
Proof.
  intros Hm Hf w b w' t E. unfold bind in E.
  destruct (m w) as [[[a|e] w1] t1] eqn:Em; [|discriminate].
  destruct (f a w1) as [[r w2] t2] eqn:Ef. inversion E; subst.
  eapply Hf; [eapply Hm; eauto|eauto].
Qed.

Lemma returns_weaken {A} (m : M A) (P Q : A -> Prop) :
  returns m P -> (forall a, P a -> Q a) -> returns m Q.
Proof. intros Hm HPQ w a w' t E. eauto. Qed.

Lemma returns_raise {A} (e : exn) (Q : A -> Prop) : returns (raise e) Q.
Proof. intros w a w' t E. discriminate E. Qed.

Lemma returns_lift_raise {A} (e : exn) (Q : A -> Prop) : returns (lift (Raise e)) Q.
Proof. intros w a w' t E. discriminate E. Qed.

End EffFacts.

Module MappingFacts.
Import Json Models Store Eff GreenMsg Runs EffFacts.

(** Walks a monadic term, one construct at a time. *)
Ltac keeps_step :=
  lazymatch goal with
  | |- keeps _ (bind _ _) => apply keeps_bind; [|intros ?]
  | |- keeps _ (lift _) => apply keeps_lift
  | |- keeps _ (ret _) => apply keeps_ret
  | |- keeps _ (raise _) => apply keeps_raise
  | |- keeps _ (emit _) => apply keeps_emit
  | |- keeps _ (query _) => apply keeps_query
  | |- keeps _ (read_file _) => apply keeps_read_file
  | |- keeps _ (write_file _ _) => apply keeps_write_file
  | |- keeps _ (remove_file _) => apply keeps_remove_file
  | |- keeps _ (try_except _ _ _) => apply keeps_try; [|intros ?]
  | |- keeps _ (match ?x with _ => _ end) => destruct x
  end.

Section Mapping.
Variable MEDIA_ROOT : string.
Variable N : Net.
Variable rt : Runtime.

Variable P : DB -> Prop.

(** [P] does not depend on the conversations table or its sequence. *)
Hypothesis conv_stable :
  forall d iid chat phone name c d',
    P d -> get_or_create_conversation d iid chat phone name = Ok (c, d') -> P d'.

Lemma download_loop_keeps rounds retries backoff url local attempt :
  keeps (on_store P) (download_loop N rounds retries backoff url local attempt).
Proof.
  revert attempt. induction rounds as [|n IH]; intros attempt; cbn [download_loop].
  - apply keeps_ret.
  - repeat keeps_step. apply IH.
Qed.

Lemma download_safe_keeps url fname :
  keeps (on_store P) (download_safe MEDIA_ROOT N url fname).
Proof.
  unfold download_safe. repeat keeps_step. apply download_loop_keeps.
Qed.

Lemma media_branch_keeps payload mdata msg cls :
  keeps (on_store P) (media_branch MEDIA_ROOT N rt payload mdata msg cls).
Proof.
  unfold media_branch. destruct cls.
  repeat first [apply download_safe_keeps | keeps_step].
Qed.

Lemma message_content_keeps payload mdata mtype msg :
  keeps (on_store P) (message_content MEDIA_ROOT N rt payload mdata mtype msg).
Proof.
  unfold message_content.
  repeat first [apply media_branch_keeps | keeps_step].
Qed.

Lemma payload_to_msg_keeps payload iid incoming archived :
  keeps (on_store P) (payload_to_msg MEDIA_ROOT N rt payload iid incoming archived).
Proof.
  unfold payload_to_msg.
  repeat first [apply message_content_keeps
               | apply keeps_with_db; intros ? ? ? ? ?; eapply conv_stable; eauto
               | keeps_step].
Qed.

End Mapping.

Ltac returns_step :=
  lazymatch goal with
  | |- returns (bind (lift _) _) _ => eapply returns_bind; [apply returns_lift|intros ? ?]
  | |- returns (bind _ _) _ => eapply returns_bind; [apply returns_any|intros ? _]
  | |- returns (raise _) _ => apply returns_raise
  | |- returns (match ?x with _ => _ end) _ => destruct x eqn:?
  end.

Section Key.
Variable MEDIA_ROOT : string.
Variable N : Net.
Variable rt : Runtime.


Lemma media_branch_key payload mdata msg cls :
  returns (media_branch MEDIA_ROOT N rt payload mdata msg cls) (same_key msg).
Proof.
  unfold media_branch. destruct cls.
  repeat first [returns_step | apply returns_ret; split; reflexivity].
Qed.

(** The message [payload_to_msg] builds belongs to the given instance and
    carries the payload's [idMessage]. *)
Lemma payload_to_msg_key payload iid incoming archived :
  returns (payload_to_msg MEDIA_ROOT N rt payload iid incoming archived)
    (fun r => forall m, r = Some m ->
       instance_id m = iid /\ getitem payload "idMessage" = Ok (wa_message_id m)).
Proof.
  unfold payload_to_msg, message_content.
  do 3 returns_step. returns_step; [apply returns_ret; discriminate|].
  do 3 returns_step. returns_step. returns_step.
  do 5 returns_step.
  repeat first
    [ eapply returns_bind; [apply media_branch_key|intros ? [? ?]]
    | returns_step
    | apply returns_ret; intros ? [= <-]; cbn in *; split; congruence ].
Qed.

End Key.
End MappingFacts.

Module StoreFacts.
Import Json Models Store Eff Runs EffFacts.

Lemma wa_matches_iff inst w r :
  wa_matches inst (Some w) r = true <->
  r_instance_id r = inst /\ r_wa_message_id r = Some w.
Proof.
  unfold wa_matches. rewrite andb_true_iff, Z.eqb_eq.
  destruct (r_wa_message_id r) as [w'|].
  - rewrite String.eqb_eq. split; intros [? ?]; split; congruence.
  - split; intros [? ?]; discriminate.
Qed.

Lemma conflicts_false inst w rows :
  conflicts inst (Some w) rows = false ->
  forall r, r ∈ rows -> ~ (r_instance_id r = inst /\ r_wa_message_id r = Some w).
Proof.
  cbn [conflicts]. intros H r Hin Hkey.
  apply not_true_iff_false in H. apply H. apply existsb_exists.
  exists r. split; [by apply list_elem_of_In|by apply wa_matches_iff].
Qed.

Lemma conflicts_true inst w rows r :
  r ∈ rows -> r_instance_id r = inst -> r_wa_message_id r = Some w ->
  conflicts inst (Some w) rows = true.
Proof.
  intros Hin Hi Hw. cbn [conflicts]. apply existsb_exists.
  exists r. split; [by apply list_elem_of_In|by apply wa_matches_iff].
Qed.

Lemma uq_snoc rows row :
  uq_msg_wa rows ->
  conflicts (r_instance_id row) (r_wa_message_id row) rows = false ->
  uq_msg_wa (rows ++ [row]).
Proof.
  intros Huq Hc i j r1 r2 w H1 H2 Hinst Hw1 Hw2.
  destruct (decide (i < length rows)) as [Hi|Hi];
    destruct (decide (j < length rows)) as [Hj|Hj].
  - rewrite lookup_app_l in H1, H2 by assumption. eapply Huq; eauto.
  - rewrite lookup_app_l in H1 by assumption.
    rewrite lookup_app_r in H2 by lia.
    destruct (j - length rows) eqn:E; [|destruct n; discriminate].
    cbn in H2. injection H2 as <-. exfalso. rewrite Hw2 in Hc.
    eapply (conflicts_false _ _ _ Hc r1); [by eapply list_elem_of_lookup_2|].
    split; congruence.
  - rewrite lookup_app_l in H2 by assumption.
    rewrite lookup_app_r in H1 by lia.
    destruct (i - length rows) eqn:E; [|destruct n; discriminate].
    cbn in H1. injection H1 as <-. exfalso. rewrite Hw1 in Hc.
    eapply (conflicts_false _ _ _ Hc r2); [by eapply list_elem_of_lookup_2|].
    split; congruence.
  - rewrite lookup_app_r in H1, H2 by lia.
    destruct (i - length rows) eqn:E1; [|destruct n; discriminate].
    destruct (j - length rows) eqn:E2; [|destruct n; discriminate]. lia.
Qed.

(** What a successful insert did. *)
Lemma insert_message_ok m d d' :
  insert_message m d = Ok d' ->
  exists row,
    messages d' = messages d ++ [row] /\
    instances d' = instances d /\
    conversations d' = conversations d /\
    r_instance_id row = instance_id m /\
    as_text (wa_message_id m) = Ok (r_wa_message_id row) /\
    r_direction row = direction m /\
    r_status row = status m /\
    r_id row = next_id d /\
    notified d' = notified d ++ triggers row /\
    conflicts (instance_id m) (r_wa_message_id row) (messages d) = false.
Proof.
  unfold insert_message. intros H.
  destruct (as_text (wa_message_id m)) as [wa|] eqn:Ewa; [|discriminate].
  destruct (as_text (chat_name m)) as [nm|] eqn:Enm; [|discriminate].
  destruct (as_text (text m)) as [tx|] eqn:Etx; [|discriminate].
  cbn in H. destruct nm as [nm|]; [|discriminate].
  destruct (conflicts (instance_id m) wa (messages d)) eqn:Ec; [discriminate|].
  destruct (file_rows (files m)) as [frs|] eqn:Ef; [|discriminate]. cbn in H.
  injection H as <-. eexists. cbn [messages instances conversations notified r_instance_id
                                    r_wa_message_id r_direction r_status r_id].
  repeat split; try reflexivity; exact Ec.
Qed.

Lemma insert_message_uq m d d' :
  uq_msg_wa (messages d) -> insert_message m d = Ok d' -> uq_msg_wa (messages d').
Proof.
  intros Huq H. destruct (insert_message_ok _ _ _ H) as (row & -> & _ & _ & Hi & _ & _ & _ & _ & _ & Hc).
  apply uq_snoc; [exact Huq|]. rewrite Hi. exact Hc.
Qed.

(** A second insert of a key that is already stored does not go through. *)
Lemma insert_message_dup m d w r :
  wa_message_id m = JStr w ->
  r ∈ messages d -> r_instance_id r = instance_id m -> r_wa_message_id r = Some w ->
  forall d', insert_message m d <> Ok d'.
Proof.
  intros Hw Hin Hi Hr d' H.
  destruct (insert_message_ok _ _ _ H) as (row & _ & _ & _ & _ & Hwa & _ & _ & _ & _ & Hc).
  rewrite Hw in Hwa. cbn in Hwa. injection Hwa as Hwa. rewrite <- Hwa in Hc.
  erewrite conflicts_true in Hc; eauto. discriminate.
Qed.

Lemma update_row_lookup mid f rows i :
  update_row mid f rows !! i =
  (fun r => if (r_id r =? mid)%Z then f r else r) <$> rows !! i.
Proof. unfold update_row. apply list_lookup_fmap. Qed.

Lemma update_row_uq mid f rows :
  (forall r, r_instance_id (f r) = r_instance_id r /\ r_wa_message_id (f r) = r_wa_message_id r) ->
  uq_msg_wa rows -> uq_msg_wa (update_row mid f rows).
Proof.
  intros Hf Huq i j r1 r2 w H1 H2 Hinst Hw1 Hw2.
  rewrite update_row_lookup in H1, H2.
  destruct (rows !! i) as [q1|] eqn:E1; [|discriminate].
  destruct (rows !! j) as [q2|] eqn:E2; [|discriminate].
  cbn in H1, H2. injection H1 as <-. injection H2 as <-.
  apply (Huq i j q1 q2 w E1 E2).
  - destruct (r_id q1 =? mid)%Z, (r_id q2 =? mid)%Z; rewrite ?(proj1 (Hf _)) in Hinst; congruence.
  - destruct (r_id q1 =? mid)%Z; rewrite ?(proj2 (Hf _)) in Hw1; congruence.
  - destruct (r_id q2 =? mid)%Z; rewrite ?(proj2 (Hf _)) in Hw2; congruence.
Qed.

Lemma get_or_create_messages d iid chat phone name c d' :
  get_or_create_conversation d iid chat phone name = Ok (c, d') ->
  messages d' = messages d /\ instances d' = instances d /\ next_id d' = next_id d
  /\ notified d' = notified d.
Proof.
  unfold get_or_create_conversation. intros H.
  destruct (List.find _ _).
  - injection H as <- <-. auto.
  - destruct (as_text_not_null _); [|discriminate]. cbn in H. injection H as <- <-. auto.
Qed.

End StoreFacts.

Module LimiterProofs.
Import Json Limiter Client Expected.

Section LimiterFacts.

Lemma Qltb_true (a b : Q) : Qltb a b = true <-> (a < b)%Q.
Proof.
  unfold Qltb. rewrite negb_true_iff. split.
  - intros H. apply Qnot_le_lt. intros Hle. apply Qle_bool_iff in Hle. congruence.
  - intros H. destruct (Qle_bool b a) eqn:E; [|reflexivity].
    apply Qle_bool_iff in E. apply Qlt_not_le in H. contradiction.
Qed.

Lemma Qltb_false (a b : Q) : Qltb a b = false <-> (b <= a)%Q.
Proof.
  unfold Qltb. rewrite negb_false_iff. apply Qle_bool_iff.
Qed.

Lemma Qle_bool_false (a b : Q) : Qle_bool a b = false -> (b < a)%Q.
Proof.
  intros H. apply Qnot_le_lt. intros Hle. apply Qle_bool_iff in Hle. congruence.
Qed.

Lemma py_max_bounds (x : Q) : (0 <= py_max x 0)%Q /\ (x <= py_max x 0)%Q /\
  (forall b, (0 <= b)%Q -> (x <= b)%Q -> (py_max x 0 <= b)%Q).
Proof.
  unfold py_max. destruct (Qltb x 0) eqn:E.
  - apply Qltb_true in E. repeat split; intros; lra.
  - apply Qltb_false in E. repeat split; intros; lra.
Qed.

Lemma rate_pos l now : limiter_wf l now -> (0 < _rate_per_sec l)%Q.
Proof.
  intros [H1 H2 _ _ _ _]. unfold _rate_per_sec.
  apply Qlt_shift_div_l; lra.
Qed.

Lemma leak_level l now :
  limiter_wf l now ->
  (0 <= _level (_leak l now))%Q /\ (_level (_leak l now) <= _level l)%Q.
Proof.
  intros Hwf. pose proof (rate_pos _ _ Hwf) as Hr. destruct Hwf as [H1 H2 H3 H4 H5 H6].
  unfold _leak. cbn [set_bucket _level].
  destruct (is_zero (_level l)) eqn:E; [lra|].
  set (x := (_level l - (now - _last_check l) * _rate_per_sec l)%Q).
  destruct (py_max_bounds x) as (Ha & Hb & Hc).
  split; [exact Ha|]. apply Hc; [lra|]. subst x.
  assert (0 <= (now - _last_check l) * _rate_per_sec l)%Q by (apply Qmult_le_0_compat; lra).
  lra.
Qed.

Lemma leak_fields l now :
  max_rate (_leak l now) = max_rate l /\ time_period (_leak l now) = time_period l /\
  _last_check (_leak l now) = now /\ period (_leak l now) = period l /\
  _blocked_until (_leak l now) = _blocked_until l.
Proof. unfold _leak, set_bucket. cbn. auto. Qed.

Lemma acquire_loop_total l now :
  limiter_wf l now ->
  exists l' t, acquire_loop 2 l now = Some (l', t) /\ limiter_wf l' t /\ (now <= t)%Q /\
    (t <= now + period l)%Q /\
    period l' = period l /\ _blocked_until l' = _blocked_until l.
Proof.
  intros Hwf. pose proof (rate_pos _ _ Hwf) as Hr.
  pose proof (leak_level _ _ Hwf) as [Hl0 Hl1].
  destruct (leak_fields l now) as (F1 & F2 & F3 & F4 & F5).
  destruct Hwf as [H1 H2 H3 H4 H5 H6].
  assert (Hper : (0 < period l)%Q).
  { rewrite <- H6. assert (1 / _rate_per_sec l == / _rate_per_sec l)%Q as -> by (field; lra).
    apply Qinv_lt_0_compat. exact Hr. }
  cbn [acquire_loop has_capacity].
  remember (_leak l now) as l1 eqn:El1.
  destruct (Qle_bool (_level l1 + 1) (max_rate l1)) eqn:E.
  - apply Qle_bool_iff in E. eexists _, _. split; [reflexivity|].
    split; [|split; [lra|split; [lra|split; cbn; congruence]]].
    constructor; cbn [set_bucket max_rate time_period _level _last_check period];
      try rewrite F1 in *; try rewrite F2; try rewrite F3; try lra.
    unfold _rate_per_sec. cbn [set_bucket max_rate time_period]. rewrite F1, F2, F4. exact H6.
  - apply Qle_bool_false in E.
    assert (Hr1 : _rate_per_sec l1 = _rate_per_sec l) by (unfold _rate_per_sec; rewrite F1, F2; reflexivity).
    remember (now + 1 / _rate_per_sec l1 * 1)%Q as now2 eqn:En2.
    assert (Hnow2 : ((now2 - now) * _rate_per_sec l1 == 1)%Q).
    { subst now2. rewrite Hr1. field. lra. }
    assert (Hlt : (now < now2)%Q).
    { subst now2. rewrite Hr1.
      assert (0 < 1 / _rate_per_sec l * 1)%Q; [|lra].
      assert (1 / _rate_per_sec l * 1 == / _rate_per_sec l)%Q as -> by (field; lra).
      apply Qinv_lt_0_compat. exact Hr. }
    assert (Hl2 : (0 <= _level (_leak l1 now2))%Q /\
                  (_level (_leak l1 now2) + 1 <= max_rate l)%Q).
    { unfold _leak. cbn [set_bucket _level max_rate].
      destruct (is_zero (_level l1)) eqn:Z.
      - apply Qeq_bool_iff in Z. rewrite F1 in *. lra.
      - rewrite F3.
        set (x := (_level l1 - (now2 - now) * _rate_per_sec l1)%Q).
        destruct (py_max_bounds x) as (Ha & Hb & Hc).
        split; [exact Ha|].
        assert (py_max x 0 <= max_rate l - 1)%Q; [|lra].
        apply Hc; [lra|]. subst x. lra. }
    destruct Hl2 as [Hl2a Hl2b].
    destruct (leak_fields l1 now2) as (G1 & G2 & G3 & G4 & G5).
    remember (_leak l1 now2) as l2 eqn:El2.
    assert (E2 : Qle_bool (_level l2 + 1) (max_rate l2) = true).
    { apply Qle_bool_iff. rewrite G1, F1. exact Hl2b. }
    rewrite E2. eexists _, _. split; [reflexivity|].
    assert (Hn2 : (now2 == now + period l)%Q).
    { subst now2. rewrite Hr1, <- H6. field. lra. }
    split; [|split; [lra|split; [lra|split; cbn; congruence]]].
    constructor; cbn [set_bucket max_rate time_period _level _last_check period];
      try rewrite G1; try rewrite G2; try rewrite G3; try rewrite F1; try rewrite F2; try lra.
    unfold _rate_per_sec. cbn [set_bucket max_rate time_period]. rewrite G1, G2, G4, F1, F2, F4. exact H6.
Qed.

Lemma py_round_ge_floor x : (Qfloor x <= py_round x)%Z.
Proof.
  unfold py_round. destruct (_ ?= _)%Q; try lia. destruct (Z.even _); lia.
Qed.

Lemma init_wf rps now :
  (0 < rps)%Q -> (0 <= now)%Q ->
  exists l, SmartLimiter_init rps = Ok l /\ limiter_wf l now /\ _blocked_until l = None.
Proof.
  intros Hpos Hnow. unfold SmartLimiter_init.
  destruct (Qle_bool 1 rps) eqn:E.
  - apply Qle_bool_iff in E. eexists. split; [reflexivity|]. split; [|reflexivity].
    constructor; cbn [max_rate time_period _level _last_check period]; try lra.
    unfold _rate_per_sec. cbn [max_rate time_period]. field. lra.
  - apply Qle_bool_false in E.
    destruct (is_zero rps) eqn:Z; [apply Qeq_bool_iff in Z; lra|].
    assert (H1 : (1 <= py_round (1 / rps))%Z).
    { etransitivity; [|apply py_round_ge_floor].
      change 1%Z with (Qfloor 1) at 1. apply Qfloor_resp_le.
      apply Qle_shift_div_l; lra. }
    assert (H2 : (1 <= inject_Z (py_round (1 / rps)))%Q).
    { change 1%Q with (inject_Z 1). rewrite <- Zle_Qle. exact H1. }
    destruct (is_zero (inject_Z (py_round (1 / rps)))) eqn:Z2; [apply Qeq_bool_iff in Z2; lra|].
    eexists. split; [reflexivity|]. split; [|reflexivity].
    constructor; cbn [max_rate time_period _level _last_check period]; try lra.
    unfold _rate_per_sec. cbn [max_rate time_period]. field. lra.
Qed.

End LimiterFacts.

Section ClientFacts.

Variable METHOD_RPS : gmap string Q.
Variable DEFAULT_RPS : Q.
Hypothesis default_pos : (0 < DEFAULT_RPS)%Q.
Hypothesis method_pos : forall k v, METHOD_RPS !! k = Some v -> (0 < v)%Q.


Lemma get_limiter_ok c method now :
  limiters_wf c now -> (0 <= now)%Q ->
  exists l c1, _get_limiter METHOD_RPS DEFAULT_RPS c method = Ok (l, c1) /\ limiter_wf l now.
Proof.
  intros Hwf Hnow. unfold _get_limiter.
  destruct (_limiters c !! split_first "/" method) as [l|] eqn:E.
  - eauto.
  - assert (Hpos : (0 < default DEFAULT_RPS (METHOD_RPS !! split_first "/" method))%Q).
    { destruct (METHOD_RPS !! split_first "/" method) eqn:E2; cbn; eauto. }
    destruct (init_wf _ now Hpos Hnow) as (l & -> & Hl & _). cbn. eauto.
Qed.

Lemma split_first_idem sep s : split_first sep (split_first sep s) = split_first sep s.
Proof.
  induction s as [|c s IH]; cbn; [reflexivity|].
  destruct (Ascii.eqb c sep) eqn:E; cbn; [reflexivity|]. rewrite E, IH. reflexivity.
Qed.


Lemma wf_mono l now now' : limiter_wf l now -> (now <= now')%Q -> limiter_wf l now'.
Proof. intros [? ? ? ? ? ?] Hle. constructor; try assumption. lra. Qed.

Lemma wf_block l now t : limiter_wf l now -> limiter_wf (block l t) now.
Proof. intros [? ? ? ? ? ?]. constructor; assumption. Qed.

Lemma wf_period_pos l now : limiter_wf l now -> (0 < period l)%Q.
Proof.
  intros Hwf. pose proof (rate_pos _ _ Hwf) as Hr. destruct Hwf as [_ _ _ _ _ H6].
  rewrite <- H6. assert (1 / _rate_per_sec l == / _rate_per_sec l)%Q as -> by (field; lra).
  apply Qinv_lt_0_compat. exact Hr.
Qed.

(** [wait_slot] sleeps out an outstanding block before it draws a token. *)
Lemma wait_slot_waits l now b :
  limiter_wf l now -> _blocked_until l = Some b ->
  exists l' t, wait_slot 2 l now = Some (Ok (l', t)) /\ (b <= t)%Q.
Proof.
  intros Hwf Hb. unfold wait_slot. rewrite Hb.
  pose proof Hwf as [Hrate _ _ _ _ _]. apply Qle_bool_iff in Hrate.
  destruct (Qltb 0 (b - now)) eqn:E.
  - apply Qltb_true in E.
    assert (Hwf' : limiter_wf l (now + (b - now))) by (eapply wf_mono; [exact Hwf|lra]).
    destruct (acquire_loop_total l _ Hwf') as (l' & t & Hacq & _ & Hle & _).
    unfold acquire. rewrite Hrate, Hacq. exists l', t. split; [reflexivity|lra].
  - apply Qltb_false in E.
    destruct (acquire_loop_total l _ Hwf) as (l' & t & Hacq & _ & Hle & _).
    unfold acquire. rewrite Hrate, Hacq. exists l', t. split; [reflexivity|lra].
Qed.

(** C2. After a 429 the limiter of the endpoint is blocked until
    [done_at + 1.5 * period], and [wait_slot] on it would wait until then;
    yet the next [_json] on the same endpoint, issued at once, is granted
    its slot strictly before that instant: [async with limiter] enters
    through [acquire], which never reads [_blocked_until]. *)
Theorem json_slot_precedes_block_end (op : operation) (c : GreenAPIClient)
    (r1 r2 : response) (took1 took2 now : Q) :
  (0 <= now)%Q -> (0 <= took1)%Q ->
  limiters_wf c now ->
  status r1 = 429%Z ->
  exists run1 l run2 t2,
    _json METHOD_RPS DEFAULT_RPS 2 c (endpoint_of op) (media_of op) (Responded r1 took1) now
      = Some run1 /\
    _limiters (client_after run1) !! split_first "/" (endpoint_of op) = Some l /\
    _blocked_until l = Some (done_at run1 + period l * (3 # 2))%Q /\
    (exists l3 t3, wait_slot 2 l (done_at run1) = Some (Ok (l3, t3)) /\
                   (done_at run1 + period l * (3 # 2) <= t3)%Q) /\
    _json METHOD_RPS DEFAULT_RPS 2 (client_after run1) (endpoint_of op) (media_of op)
          (Responded r2 took2) (done_at run1) = Some run2 /\
    slot_at run2 = Some t2 /\
    (t2 < done_at run1 + period l * (3 # 2))%Q.
Proof.
  intros Hnow Htook Hwf H429.
  destruct (get_limiter_ok c (split_first "/" (endpoint_of op)) now Hwf Hnow)
    as (l0 & c1 & Hget & Hl0).
  destruct (acquire_loop_total l0 now Hl0) as (l1 & t & Hacq & Hl1 & Hle & Hub & Hper & Hblk).
  pose proof Hl0 as [Hrate _ _ _ _ _]. apply Qle_bool_iff in Hrate.
  apply Z.eqb_eq in H429.
  set (t' := (t + took1)%Q).
  set (lb := block l1 t').
  assert (Hlb : limiter_wf lb t').
  { apply wf_block. eapply wf_mono; [exact Hl1|]. subst t'. lra. }
  destruct (acquire_loop_total lb t' Hlb) as (l2 & t2 & Hacq2 & Hl2 & Hle2 & Hub2 & _ & _).
  pose proof (wf_period_pos _ _ Hlb) as Hpp.
  pose proof Hlb as [Hrate2 _ _ _ _ _]. apply Qle_bool_iff in Hrate2.
  assert (Hgoal : (t2 < t' + period lb * (3 # 2))%Q) by lra.
  destruct (status r2 =? 429)%Z eqn:E1; [|destruct (400 <=? status r2)%Z eqn:E2].
  all: unfold _json at 1; rewrite Hget; unfold acquire at 1; rewrite Hrate, Hacq.
  all: cbn [fmap option_fmap option_map mbind option_bind]; rewrite H429.
  all: eexists _, lb, _, t2; (split; [reflexivity|]).
  all: cbn [client_after done_at set_limiters _limiters].
  all: split; [apply lookup_insert_eq|]; (split; [reflexivity|]).
  all: (split; [exact (wait_slot_waits lb t' _ Hlb eq_refl)|]).
  all: unfold _json, _get_limiter; cbn [_limiters set_limiters].
  all: rewrite split_first_idem, lookup_insert_eq.
  all: unfold acquire; fold t'; fold lb; rewrite Hrate2, Hacq2.
  all: cbn [fmap option_fmap option_map mbind option_bind]; rewrite ?E1, ?E2.
  all: (split; [reflexivity|]); cbn [slot_at]; (split; [reflexivity|]); exact Hgoal.
Qed.

End ClientFacts.


Lemma json_slot_precedes_block_end_witness :
  exists run1 l run2 t2,
    _json ∅ 1 2 Examples.ex_client (endpoint_of send_message) (media_of send_message)
          (Responded Examples.ex_429 (1 # 10)) 0 = Some run1 /\
    _limiters (client_after run1) !! split_first "/" (endpoint_of send_message) = Some l /\
    _blocked_until l = Some (done_at run1 + period l * (3 # 2))%Q /\
    (exists l3 t3, wait_slot 2 l (done_at run1) = Some (Ok (l3, t3)) /\
                   (done_at run1 + period l * (3 # 2) <= t3)%Q) /\
    _json ∅ 1 2 (client_after run1) (endpoint_of send_message) (media_of send_message)
          (Responded Examples.ex_200 (1 # 10)) (done_at run1) = Some run2 /\
    slot_at run2 = Some t2 /\
    (t2 < done_at run1 + period l * (3 # 2))%Q.
Proof.
  apply (json_slot_precedes_block_end ∅ 1).
  - reflexivity.
  - intros k v H. rewrite lookup_empty in H. discriminate H.
  - discriminate.
  - discriminate.
  - intros k l H. simpl in H. rewrite lookup_empty in H. discriminate H.
  - reflexivity.
Defined.

End LimiterProofs.

Module BackfillProofs.
Import Json Backfill Examples.

Lemma setdefault_held k locks : held k locks -> setdefault k locks = (true, locks).
Proof. unfold held, setdefault. intros ->. reflexivity. Qed.

Lemma setdefault_free k locks :
  ~ held k locks ->
  exists locks', setdefault k locks = (false, locks') /\
    forall j, j <> k -> locks' !! j = locks !! j.
Proof.
  unfold held, setdefault. intros Hfree.
  destruct (locks !! k) as [[|]|] eqn:E.
  - congruence.
  - eauto.
  - eexists. split; [reflexivity|]. intros j Hj. by rewrite lookup_insert_ne.
Qed.

(** C3. A backfill request for an account whose lock is held is answered at
    once with the conflict (409, [already_running]) and the state is left as
    it was; a request for an account whose lock is free takes the lock,
    schedules the task and is answered 201. In neither case is the handler
    parked on the lock. The same holds for the guard
    [ClientManager.history_lock]: entering it while held raises at once and
    changes nothing, entering it while free takes the lock. *)
Theorem backfill_lock_rejects_or_acquires (req : request) (st : state) (wait : bool)
    (k : Z) (locks : gmap Z bool) :
  wait_flag req = Ok wait ->
  (held (api_id req) (history_lock st) ->
     admin_history req st
       = Some (Ok (json_response [ ("error", "already_running") ] 409), st)) /\
  (~ held (api_id req) (history_lock st) ->
     exists st',
       admin_history req st = Some (Ok (json_response [ ("status", "scheduled") ] 201), st') /\
       held (api_id req) (history_lock st') /\
       tasks st' = tasks st ++ [ (api_id req, wait) ] /\
       forall j, j <> api_id req -> history_lock st' !! j = history_lock st !! j) /\
  (held k locks ->
     history_lock_enter k locks
       = Some (Raise (RuntimeError "history task already running for this instance"), locks)) /\
  (~ held k locks ->
     exists locks',
       history_lock_enter k locks = Some (Ok tt, locks') /\
       held k locks' /\
       forall j, j <> k -> locks' !! j = locks !! j).
Proof.
  intros Hflag. repeat split.
  - intros Hheld. unfold admin_history. rewrite Hflag, (setdefault_held _ _ Hheld).
    destruct st; reflexivity.
  - intros Hfree. unfold admin_history. rewrite Hflag.
    destruct (setdefault_free _ _ Hfree) as (locks' & -> & Hother).
    eexists. split; [reflexivity|]. cbn [history_lock tasks]. split; [|split; [reflexivity|]].
    + unfold held. apply lookup_insert_eq.
    + intros j Hj. rewrite lookup_insert_ne by congruence. by apply Hother.
  - intros Hheld. unfold history_lock_enter. by rewrite (setdefault_held _ _ Hheld).
  - intros Hfree. unfold history_lock_enter.
    destruct (setdefault_free _ _ Hfree) as (locks' & -> & Hother).
    eexists. split; [reflexivity|]. split.
    + unfold held. apply lookup_insert_eq.
    + intros j Hj. rewrite lookup_insert_ne by congruence. by apply Hother.
Qed.


Lemma backfill_lock_rejects_or_acquires_witness :
  wait_flag ex_request = Ok true /\
  held (api_id ex_request) (history_lock ex_running) /\
  admin_history ex_request ex_running
    = Some (Ok (json_response [ ("error", "already_running") ] 409), ex_running).
Proof.
  split; [reflexivity|]. split; [reflexivity|].
  apply (backfill_lock_rejects_or_acquires ex_request ex_running true 7 ∅ eq_refl).
  reflexivity.
Defined.

End BackfillProofs.

Module WebhookProofs.
Import Json Models Store Eff GreenMsg Webhook Runs EffFacts.

(** C10. An [incomingMessageReceived] webhook for a known instance whose
    [typeMessage] is in the ignore set: [payload_to_msg] returns [None]
    without touching the world, [_handle_incoming] then raises
    [AttributeError] (the log call reads [msg.wa_message_id] on [None]), the
    exception escapes the route, nothing is logged and no row is written. *)
Theorem ignored_type_raises_attribute_error
    (MEDIA_ROOT : string) (N : Net) (rt : Runtime)
    (bot_send_message : Z -> string -> outcome unit)
    (payload inst mdata : json) (api iid : Z) (mtype : string) (w : world) :
  get payload "typeWebhook" = Ok (JStr "incomingMessageReceived") ->
  getitem payload "instanceData" = Ok inst ->
  getitem inst "idInstance" = Ok (JInt api) ->
  resolve_internal_id (JInt api) (db w) = Ok (Some iid) ->
  getitem payload "messageData" = Ok mdata ->
  getitem mdata "typeMessage" = Ok (JStr mtype) ->
  In mtype _IGNORE_MTYPE ->
  payload_to_msg MEDIA_ROOT N rt payload iid true false w = (Ok None, w, []) /\
  _handle_incoming MEDIA_ROOT N rt payload w = (Raise AttributeError, w, []) /\
  green_webhook MEDIA_ROOT N rt bot_send_message payload w = (Raise AttributeError, w, []).
Proof.
  intros Hkind Hinst Hid Hres Hmd Hty Hign.
  assert (Hmap : payload_to_msg MEDIA_ROOT N rt payload iid true false w = (Ok None, w, [])).
  { unfold payload_to_msg.
    rewrite (bind_lift_ok _ _ _ _ Hmd), (bind_lift_ok _ _ _ _ Hty).
    assert (Hin : in_str_set (JStr mtype) _IGNORE_MTYPE = Ok true).
    { cbn [in_str_set]. f_equal. apply existsb_exists. exists mtype.
      split; [exact Hign|apply String.eqb_refl]. }
    rewrite (bind_lift_ok _ _ _ _ Hin). reflexivity. }
  assert (Hh : _handle_incoming MEDIA_ROOT N rt payload w = (Raise AttributeError, w, [])).
  { unfold _handle_incoming.
    assert (Hio : instance_of payload = Ok (JInt api)).
    { unfold instance_of. rewrite Hinst. exact Hid. }
    rewrite (bind_lift_ok _ _ _ _ Hio).
    unfold resolve. rewrite (bind_query_ok _ _ _ _ Hres).
    rewrite (bind_ok _ _ _ _ _ _ Hmap). reflexivity. }
  split; [exact Hmap|]. split; [exact Hh|].
  unfold green_webhook. rewrite (bind_lift_ok _ _ _ _ Hkind).
  erewrite bind_lift_ok; [|reflexivity]. exact Hh.
Qed.

Lemma ignored_type_raises_attribute_error_witness :
  payload_to_msg "/app/media" Examples.ex_net_up Examples.ex_rt Examples.poll_vote 1 true
    false Examples.ex_world = (Ok None, Examples.ex_world, []) /\
  _handle_incoming "/app/media" Examples.ex_net_up Examples.ex_rt Examples.poll_vote
    Examples.ex_world = (Raise AttributeError, Examples.ex_world, []) /\
  green_webhook "/app/media" Examples.ex_net_up Examples.ex_rt (fun _ _ => Ok tt)
    Examples.poll_vote Examples.ex_world = (Raise AttributeError, Examples.ex_world, []).
Proof.
  apply (ignored_type_raises_attribute_error "/app/media" Examples.ex_net_up Examples.ex_rt
           (fun _ _ => Ok tt) Examples.poll_vote
           (JDict [ ("idInstance", JInt 1101) ])
           (JDict [ ("typeMessage", JStr "pollUpdateMessage") ])
           1101 1 "pollUpdateMessage" Examples.ex_world).
  - reflexivity.
  - reflexivity.
  - reflexivity.
  - reflexivity.
  - reflexivity.
  - reflexivity.
  - simpl. tauto.
Defined.

End WebhookProofs.

Module DedupProofs.
Import Json Models Store Eff GreenMsg Webhook Runs Expected EffFacts MappingFacts StoreFacts.

Section Dedup.
Variable MEDIA_ROOT : string.
Variable N : Net.
Variable rt : Runtime.
Variable bot_send_message : Z -> string -> outcome unit.


Lemma unique_conv_stable d iid chat phone name c d' :
  uq_msg_wa (messages d) -> get_or_create_conversation d iid chat phone name = Ok (c, d') ->
  uq_msg_wa (messages d').
Proof.
  intros H E. destruct (get_or_create_messages _ _ _ _ _ _ _ E) as (-> & _). exact H.
Qed.

Lemma insert_keeps_unique m : keeps unique_keys (commit (insert_message m)).
Proof.
  apply keeps_commit. intros w d H E. unfold unique_keys, on_store in *. cbn.
  eapply insert_message_uq; eauto.
Qed.

Lemma notify_keeps_unique orig reason : keeps unique_keys (notify_send_error orig reason).
Proof. unfold notify_send_error. apply insert_keeps_unique. Qed.

Ltac unique_step :=
  first
    [ apply (payload_to_msg_keeps MEDIA_ROOT N rt _ unique_conv_stable)
    | apply insert_keeps_unique
    | apply notify_keeps_unique
    | apply keeps_with_db; intros ? ? ? ? ?; eapply unique_conv_stable; eauto
    | apply keeps_commit; intros ? ? ? [= <-]; unfold unique_keys, on_store in *; cbn;
      first [assumption | apply update_row_uq; [intros ?; split; reflexivity|assumption]]
    | keeps_step ].

Lemma incoming_keeps_unique payload :
  keeps unique_keys (_handle_incoming MEDIA_ROOT N rt payload).
Proof. unfold _handle_incoming, resolve. repeat unique_step. Qed.

Lemma outgoing_keeps_unique payload :
  keeps unique_keys (_handle_outgoing MEDIA_ROOT N rt payload).
Proof. unfold _handle_outgoing, resolve, select_wa. repeat unique_step. Qed.

Lemma call_keeps_unique payload : keeps unique_keys (_handle_call rt payload).
Proof. unfold _handle_call, resolve, select_wa. repeat unique_step. Qed.

Lemma status_keeps_unique payload : keeps unique_keys (_handle_status rt payload).
Proof. unfold _handle_status, resolve, select_wa. repeat unique_step. Qed.

Lemma state_keeps_unique payload :
  keeps unique_keys (_handle_state rt bot_send_message payload).
Proof. unfold _handle_state. repeat unique_step. Qed.

Lemma handlers_keep_unique kind fn :
  table_get (_HANDLERS MEDIA_ROOT N rt bot_send_message) kind = Ok (Some fn) ->
  forall payload, keeps unique_keys (fn payload).
Proof.
  unfold table_get, _HANDLERS. destruct kind as [| | | |s| |]; try discriminate.
  cbn [List.find fst snd].
  repeat match goal with
         | |- context [String.eqb ?a ?b] => destruct (String.eqb a b)
         end;
    cbn; intros [= <-] payload;
    auto using incoming_keeps_unique, outgoing_keeps_unique, call_keeps_unique,
               status_keeps_unique, state_keeps_unique.
Qed.

Lemma webhook_keeps_unique payload :
  keeps unique_keys (green_webhook MEDIA_ROOT N rt bot_send_message payload).
Proof.
  unfold green_webhook. apply keeps_bind; [apply keeps_lift|intros kind].
  intros w Hw. cbn beta.
  destruct (table_get (_HANDLERS MEDIA_ROOT N rt bot_send_message) kind) as [[fn|]|e] eqn:E.
  - erewrite bind_lift_ok by reflexivity. eapply handlers_keep_unique; eauto.
  - erewrite bind_lift_ok by reflexivity. exact Hw.
  - erewrite bind_lift_raise by reflexivity. exact Hw.
Qed.


Lemma save_swallows m w :
  insert_message m (db w) = Raise IntegrityError ->
  incoming_save (Some m) w = (Ok tt, w, dup_log).
Proof.
  intros H. unfold incoming_save, try_except, bind, commit. rewrite H. reflexivity.
Qed.

Lemma save_inserts m w d :
  insert_message m (db w) = Ok d ->
  incoming_save (Some m) w = (Ok tt, mkWorld d (fs w), [ Log info "Saved msg %s / %s" ]).
Proof.
  intros H. unfold incoming_save, try_except, bind, commit. rewrite H. reflexivity.
Qed.

Lemma save_never_surfaces msg w :
  outcome_of (incoming_save msg w) <> Raise IntegrityError.
Proof.
  destruct msg as [m|]; [|discriminate].
  unfold incoming_save, try_except, bind, commit.
  destruct (insert_message m (db w)) as [d|e]; [discriminate|].
  destruct e; cbn; discriminate.
Qed.

Lemma save_world msg w :
  world_after (incoming_save msg w) = w \/
  exists m d, msg = Some m /\ insert_message m (db w) = Ok d /\
              world_after (incoming_save msg w) = mkWorld d (fs w).
Proof.
  destruct msg as [m|]; [|left; reflexivity].
  destruct (insert_message m (db w)) as [d|e] eqn:E.
  - right. exists m, d. rewrite (save_inserts _ _ _ E). auto.
  - left. unfold incoming_save, try_except, bind, commit. rewrite E.
    destruct (is_integrity e); reflexivity.
Qed.

Lemma handle_incoming_phases payload w :
  _handle_incoming MEDIA_ROOT N rt payload w =
  match incoming_map MEDIA_ROOT N rt payload w with
  | (Ok (Mapped msg), w1, t1) =>
      let '(o, w2, t2) := incoming_save msg w1 in (o, w2, t1 ++ t2)
  | (Ok (Returned o), w1, t1) => (o, w1, t1)
  | (Ok (Received _), w1, t1) => (Ok tt, w1, t1)
  | (Raise e, w1, t1) => (Raise e, w1, t1)
  end.
Proof.
  unfold _handle_incoming, incoming_map, resolve.
  destruct (instance_of payload) as [api|e] eqn:E1;
    [|rewrite !(bind_lift_raise _ _ _ _ eq_refl); reflexivity].
  rewrite !(bind_lift_ok _ _ _ _ eq_refl).
  destruct (resolve_internal_id api (db w)) as [[iid|]|e] eqn:E2.
  - rewrite !(bind_query_ok _ _ _ _ E2).
    destruct (payload_to_msg MEDIA_ROOT N rt payload iid true false w) as [[[msg|e] w3] t3] eqn:E3.
    + rewrite !(bind_ok _ _ _ _ _ _ E3). unfold ret. rewrite app_nil_r.
      destruct msg as [m|]; reflexivity.
    + rewrite !(bind_raise _ _ _ _ _ _ E3). reflexivity.
  - rewrite !(bind_query_ok _ _ _ _ E2). reflexivity.
  - unfold bind, query. rewrite E2. reflexivity.
Qed.

Section Race.
Variables (payload api : json) (iid : Z) (wid : string) (w0 : world).
Hypothesis Hinst : instance_of payload = Ok api.
Hypothesis Hres : resolve_internal_id api (db w0) = Ok (Some iid).
Hypothesis Hwid : getitem payload "idMessage" = Ok (JStr wid).
Hypothesis Huq : uq_msg_wa (messages (db w0)).

Local Abbreviation on_its_way := (Expected.on_its_way payload iid wid).
Local Abbreviation has_key := (Expected.has_key iid wid).
Local Abbreviation raced := (Expected.raced iid wid w0).



Lemma raced_conv_stable d i chat phone name c d' :
  raced d -> get_or_create_conversation d i chat phone name = Ok (c, d') -> raced d'.
Proof.
  intros H E. destruct (get_or_create_messages _ _ _ _ _ _ _ E) as (Hm & Hi & _).
  unfold raced. rewrite Hm, Hi. exact H.
Qed.

Lemma resolve_same d :
  instances d = instances (db w0) -> resolve_internal_id api d = Ok (Some iid).
Proof.
  intros H. rewrite <- Hres. unfold resolve_internal_id. destruct api; try reflexivity.
  rewrite H. reflexivity.
Qed.

Lemma step_raced d w :
  on_its_way d -> raced (db w) ->
  on_its_way (fst (fst (step MEDIA_ROOT N rt d w))) /\
  raced (db (snd (fst (step MEDIA_ROOT N rt d w)))).
Proof.
  intros Hd Hw. destruct d as [p|msg|o]; cbn [step].
  - cbn in Hd. subst p. unfold incoming_map, resolve.
    rewrite (bind_lift_ok _ _ _ _ Hinst).
    rewrite (bind_query_ok _ _ _ _ (resolve_same _ (proj1 (proj2 Hw)))).
    pose proof (payload_to_msg_keeps MEDIA_ROOT N rt raced raced_conv_stable
                  payload iid true false w Hw) as Hk.
    pose proof (payload_to_msg_key MEDIA_ROOT N rt payload iid true false w) as Hr.
    unfold world_after, on_store in Hk.
    destruct (payload_to_msg MEDIA_ROOT N rt payload iid true false w)
      as [[[msg|e] w1] t1] eqn:E.
    + rewrite (bind_ok _ _ _ _ _ _ E). cbn. split; [|exact Hk].
      destruct msg as [m|]; [|exact Logic.I].
      destruct (Hr _ _ _ eq_refl m eq_refl) as [Hi Hw']. split; [exact Hi|].
      rewrite Hwid in Hw'. congruence.
    + rewrite (bind_raise _ _ _ _ _ _ E). cbn. split; [exact Logic.I|exact Hk].
  - destruct (incoming_save msg w) as [[o w1] t1] eqn:E. cbn. split; [exact Logic.I|].
    destruct (save_world msg w) as [Hsame|(m & d & -> & Hins & Hnew)];
      rewrite E in *; unfold world_after in *; cbn in *; [subst w1; exact Hw|].
    subst w1. cbn. destruct Hd as [Hi Hwa].
    destruct (insert_message_ok _ _ _ Hins)
      as (row & Hm & Hin & _ & Hri & Hrw & _ & _ & _ & _ & Hc).
    rewrite Hwa in Hrw. cbn in Hrw. injection Hrw as Hrw.
    destruct Hw as ((l & Hl & Hlen & Hkeys) & Hinsts & Huq').
    assert (l = []) as ->.
    { destruct l as [|r0 l']; [reflexivity|]. exfalso.
      apply Forall_cons in Hkeys as [[Hk1 Hk2] _].
      rewrite <- Hrw, Hi in Hc.
      erewrite (conflicts_true iid wid (messages (db w)) r0) in Hc; [discriminate| |assumption..].
      rewrite Hl. set_solver. }
    rewrite app_nil_r in Hl. split; [|split].
    + exists [row]. rewrite Hm, Hl. split; [reflexivity|]. split; [cbn; lia|].
      apply Forall_singleton. split; congruence.
    + congruence.
    + eapply insert_message_uq; eauto.
  - cbn. auto.
Qed.

Lemma run_raced schedule : forall a b w,
  on_its_way a -> on_its_way b -> raced (db w) ->
  raced (db (snd (run MEDIA_ROOT N rt schedule a b w))).
Proof.
  induction schedule as [|[|] rest IH]; intros a b w Ha Hb Hw; cbn [run].
  - exact Hw.
  - pose proof (step_raced a w Ha Hw) as [Ha' Hw'].
    destruct (step MEDIA_ROOT N rt a w) as [[a' w'] t]. apply IH; assumption.
  - pose proof (step_raced b w Hb Hw) as [Hb' Hw'].
    destruct (step MEDIA_ROOT N rt b w) as [[b' w'] t]. apply IH; assumption.
Qed.

Lemma run_on_its_way schedule : forall a b w,
  on_its_way a -> on_its_way b -> raced (db w) ->
  on_its_way (fst (fst (run MEDIA_ROOT N rt schedule a b w))) /\
  on_its_way (snd (fst (run MEDIA_ROOT N rt schedule a b w))).
Proof.
  induction schedule as [|[|] rest IH]; intros a b w Ha Hb Hw; cbn [run].
  - split; assumption.
  - pose proof (step_raced a w Ha Hw) as [Ha' Hw'].
    destruct (step MEDIA_ROOT N rt a w) as [[a' w'] t]. apply IH; assumption.
  - pose proof (step_raced b w Hb Hw) as [Hb' Hw'].
    destruct (step MEDIA_ROOT N rt b w) as [[b' w'] t]. apply IH; assumption.
Qed.

Lemma raced_start : raced (db w0).
Proof.
  split; [|split; [reflexivity|exact Huq]].
  exists []. rewrite app_nil_r. split; [reflexivity|]. split; [cbn; lia|constructor].
Qed.

End Race.

(** Two rows with the key of the webhook cannot follow one another in a
    store whose keys are unique. *)
Lemma one_row_per_key iid wid rows r l :
  uq_msg_wa (rows ++ [r] ++ l) ->
  has_key iid wid r -> Forall (has_key iid wid) l -> l = [].
Proof.
  intros Huq [Hi Hw] Hl. destruct l as [|r' l']; [reflexivity|]. exfalso.
  apply Forall_cons in Hl as [[Hi' Hw'] _].
  assert (length rows = S (length rows)); [|lia].
  apply (Huq (length rows) (S (length rows)) r r' wid).
  - rewrite lookup_app_r by lia. rewrite Nat.sub_diag. reflexivity.
  - rewrite lookup_app_r by lia. replace (S (length rows) - length rows) with 1 by lia.
    reflexivity.
  - congruence.
  - exact Hw.
  - exact Hw'.
Qed.

(** Once a delivery has inserted its row, nothing the two deliveries do
    afterwards adds another. *)
Lemma first_row_stays payload api iid wid w0 schedule a b w r :
  instance_of payload = Ok api ->
  resolve_internal_id api (db w0) = Ok (Some iid) ->
  getitem payload "idMessage" = Ok (JStr wid) ->
  Expected.on_its_way payload iid wid a -> Expected.on_its_way payload iid wid b ->
  Expected.raced iid wid w0 (db w) ->
  messages (db w) = messages (db w0) ++ [r] ->
  messages (db (snd (run MEDIA_ROOT N rt schedule a b w))) = messages (db w0) ++ [r].
Proof.
  intros Hinst Hres Hwid Ha Hb Hw Hr.
  destruct Hw as ((l & Hl & Hlen & Hkeys) & Hinsts & Huq).
  assert (l = [r]) as -> by (rewrite Hl in Hr; eapply app_inv_head; exact Hr).
  apply Forall_inv in Hkeys.
  assert (Hres' : resolve_internal_id api (db w) = Ok (Some iid))
    by (eapply resolve_same; eauto).
  pose proof (run_raced payload api iid wid w Hinst Hres' Hwid Huq schedule a b w Ha Hb
                (raced_start iid wid w Huq)) as ((l' & Hl' & _ & Hkeys') & _ & Huq').
  rewrite Hl', Hr in Huq'. rewrite <- app_assoc in Huq'.
  rewrite (one_row_per_key _ _ _ _ _ Huq' Hkeys Hkeys') in Hl'.
  rewrite Hl', app_nil_r. exact Hr.
Qed.

End Dedup.



(** The race played out: both deliveries map the webhook, the first
    inserts, the second meets the constraint; one row is left and both
    return normally. *)
Lemma duplicate_delivery_example :
  exists w r,
    run "/app/media" Examples.ex_net_up Examples.ex_rt [ true; false; true; false ]
        (Received Examples.text_message) (Received Examples.text_message)
        Examples.ex_world = (Returned (Ok tt), Returned (Ok tt), w) /\
    messages (db w) = [ r ] /\
    r_wa_message_id r = Some "T1" /\ r_text r = Some "hello".
Proof.
  eexists _, _. split; [vm_compute; reflexivity|].
  split; [vm_compute; reflexivity|]. split; reflexivity.
Qed.

End DedupProofs.

Module StatusProofs.
Import Json Models Store Eff GreenMsg Webhook Runs Expected EffFacts MappingFacts StoreFacts.

Lemma status_eqb_eq a b : MessageStatus.eqb a b = true <-> a = b.
Proof. destruct a, b; cbn; split; intros; congruence. Qed.

Lemma status_eqb_neq a b : MessageStatus.eqb a b = false <-> a <> b.
Proof. destruct a, b; cbn; split; intros; congruence. Qed.


Lemma notify_run orig reason w :
  notify_send_error orig reason w
  = (Ok tt, mkWorld (with_diagnostic (db w) orig reason) (fs w), []).
Proof. reflexivity. Qed.

Section Status.
Variable rt : Runtime.

Variables (payload api wa st : json) (iid : Z) (new_st : MessageStatus.t) (msg : Row)
          (w : world).
Hypothesis Hinst : instance_of payload = Ok api.
Hypothesis Hwa : getitem payload "idMessage" = Ok wa.
Hypothesis Hst : get payload "status" = Ok st.
Hypothesis Hnew : table_get _STATUS2ENUM st = Ok (Some new_st).
Hypothesis Hres : resolve_internal_id api (db w) = Ok (Some iid).
Hypothesis Hsel : select_by_wa iid wa (db w) = Ok (Some msg).

Lemma status_run :
  _handle_status rt payload w =
  (if MessageStatus.eqb (r_status msg) new_st then ret tt
   else
     (commit (fun d => Ok (commit_status (r_id msg) new_st d)) ;;;
      (if MessageStatus.eqb new_st MessageStatus.error_api then
         reason <- lift (error_reason rt payload) ;;
         notify_send_error (row_with_status msg new_st) reason
       else ret tt) ;;;
      emit (Log info "Msg %s → %s"))%eff) w.
Proof.
  unfold _handle_status.
  rewrite (bind_lift_ok _ _ _ _ Hinst), (bind_lift_ok _ _ _ _ Hwa),
    (bind_lift_ok _ _ _ _ Hst), (bind_lift_ok _ _ _ _ Hnew).
  unfold resolve, select_wa.
  rewrite (bind_query_ok _ _ _ _ Hres), (bind_query_ok _ _ _ _ Hsel). reflexivity.
Qed.

Lemma reason_defined : exists reason, error_reason rt payload = Ok reason.
Proof.
  unfold error_reason, get, get_default in *.
  destruct payload as [| | | | | |items]; try discriminate.
  cbn. destruct (truthy _); [eauto|].
  injection Hst as Hst'. unfold getitem.
  destruct (assoc "status" items) as [v|]; cbn; [eauto|].
  subst st. discriminate.
Qed.


Local Abbreviation updated := (Expected.updated msg new_st w).

Lemma status_unchanged :
  r_status msg = new_st -> _handle_status rt payload w = (Ok tt, w, []).
Proof.
  intros H. rewrite status_run. apply status_eqb_eq in H. rewrite H. reflexivity.
Qed.

Lemma status_changed :
  r_status msg <> new_st -> new_st <> MessageStatus.error_api ->
  _handle_status rt payload w
  = (Ok tt, mkWorld updated (fs w), [ Log info "Msg %s → %s" ]).
Proof.
  intros H1 H2. rewrite status_run.
  apply status_eqb_neq in H1, H2. rewrite H1, H2. reflexivity.
Qed.

Lemma status_failed :
  r_status msg <> new_st -> new_st = MessageStatus.error_api ->
  exists reason,
    error_reason rt payload = Ok reason /\
    _handle_status rt payload w
    = (Ok tt,
       mkWorld (with_diagnostic updated (row_with_status msg new_st) reason) (fs w),
       [ Log info "Msg %s → %s" ]).
Proof.
  intros H1 H2. destruct reason_defined as [reason Hr]. exists reason. split; [exact Hr|].
  rewrite status_run. apply status_eqb_neq in H1. rewrite H1.
  apply status_eqb_eq in H2. rewrite H2.
  unfold bind, lift, emit. cbn [commit]. rewrite Hr. rewrite notify_run. reflexivity.
Qed.

End Status.

Lemma find_map_stable {A} (p : A -> bool) (g : A -> A) (l : list A) :
  (forall a, p (g a) = p a) -> List.find p (map g l) = g <$> List.find p l.
Proof.
  intros H. induction l as [|a l IH]; [reflexivity|]. cbn. rewrite H.
  destruct (p a); [reflexivity|exact IH].
Qed.

Lemma find_app_some {A} (p : A -> bool) (l l' : list A) a :
  List.find p l = Some a -> List.find p (l ++ l') = Some a.
Proof.
  induction l as [|b l IH]; [discriminate|]. cbn. destruct (p b); [auto|exact IH].
Qed.

Lemma select_after_status iid wa d msg st :
  select_by_wa iid wa d = Ok (Some msg) ->
  select_by_wa iid wa (commit_status (r_id msg) st d) = Ok (Some (row_with_status msg st)).
Proof.
  unfold select_by_wa. destruct (as_text wa) as [k|]; [|discriminate]. cbn.
  intros [= H]. f_equal. unfold update_row. rewrite find_map_stable.
  - rewrite H. cbn. rewrite Z.eqb_refl. reflexivity.
  - intros r. destruct (r_id r =? r_id msg)%Z; reflexivity.
Qed.

Lemma select_after_diagnostic iid wa d msg orig reason :
  select_by_wa iid wa d = Ok (Some msg) ->
  select_by_wa iid wa (with_diagnostic d orig reason) = Ok (Some msg).
Proof.
  unfold select_by_wa. destruct (as_text wa) as [k|]; [|discriminate]. cbn.
  intros [= H]. f_equal. by apply find_app_some.
Qed.

Lemma resolve_instances api d d' :
  instances d' = instances d -> resolve_internal_id api d' = resolve_internal_id api d.
Proof. intros H. unfold resolve_internal_id. rewrite H. reflexivity. Qed.

Section Twice.
Variable rt : Runtime.

Variables (payload api wa st : json) (iid : Z) (new_st : MessageStatus.t) (msg : Row)
          (w : world).
Hypothesis Hinst : instance_of payload = Ok api.
Hypothesis Hwa : getitem payload "idMessage" = Ok wa.
Hypothesis Hst : get payload "status" = Ok st.
Hypothesis Hnew : table_get _STATUS2ENUM st = Ok (Some new_st).
Hypothesis Hres : resolve_internal_id api (db w) = Ok (Some iid).
Hypothesis Hsel : select_by_wa iid wa (db w) = Ok (Some msg).

Lemma status_twice :
  _handle_status rt payload (world_after (_handle_status rt payload w))
  = (Ok tt, world_after (_handle_status rt payload w), []).
Proof.
  destruct (MessageStatus.eqb (r_status msg) new_st) eqn:E1;
    [apply status_eqb_eq in E1; rename E1 into Heq
    |apply status_eqb_neq in E1; rename E1 into Hne].
  - rewrite (status_unchanged rt _ _ _ _ _ _ _ _ Hinst Hwa Hst Hnew Hres Hsel Heq).
    cbn [world_after fst snd].
    apply (status_unchanged rt _ _ _ _ _ _ _ _ Hinst Hwa Hst Hnew Hres Hsel Heq).
  - destruct (MessageStatus.eqb new_st MessageStatus.error_api) eqn:E2;
      [apply status_eqb_eq in E2; rename E2 into Herr
      |apply status_eqb_neq in E2; rename E2 into Hok].
    + destruct (status_failed rt _ _ _ _ _ _ _ _ Hinst Hwa Hst Hnew Hres Hsel Hne Herr)
        as (reason & _ & ->).
      cbn [world_after fst snd].
      eapply (status_unchanged rt payload api wa st iid new_st (row_with_status msg new_st));
        try eassumption; try reflexivity.
      apply select_after_diagnostic, select_after_status. exact Hsel.
    + rewrite (status_changed rt _ _ _ _ _ _ _ _ Hinst Hwa Hst Hnew Hres Hsel Hne Hok).
      cbn [world_after fst snd].
      eapply (status_unchanged rt payload api wa st iid new_st (row_with_status msg new_st));
        try eassumption; try reflexivity.
      apply select_after_status. exact Hsel.
Qed.

End Twice.

(** C5. An [outgoingMessageStatus] webhook for a stored message, with a
    status the table knows. If the mapped status is the one the row has,
    the handler does nothing: same world, no event. If it differs and is
    not the error status, the row gets the new status and nothing is
    notified. If it is the error status, a system diagnostic row is stored
    as well, whose insert notifies the channel listener. In each case a
    second delivery of the same webhook changes nothing and emits nothing. *)
Theorem status_webhook_effects (rt : Runtime) (payload api wa st : json) (iid : Z)
    (new_st : MessageStatus.t) (msg : Row) (w : world) :
  instance_of payload = Ok api ->
  getitem payload "idMessage" = Ok wa ->
  get payload "status" = Ok st ->
  table_get _STATUS2ENUM st = Ok (Some new_st) ->
  resolve_internal_id api (db w) = Ok (Some iid) ->
  select_by_wa iid wa (db w) = Ok (Some msg) ->
  (r_status msg = new_st -> _handle_status rt payload w = (Ok tt, w, [])) /\
  (r_status msg <> new_st -> new_st <> MessageStatus.error_api ->
     _handle_status rt payload w
     = (Ok tt, mkWorld (updated msg new_st w) (fs w), [ Log info "Msg %s → %s" ]) /\
     select_by_wa iid wa (updated msg new_st w) = Ok (Some (row_with_status msg new_st)) /\
     length (messages (updated msg new_st w)) = length (messages (db w)) /\
     notified (updated msg new_st w) = notified (db w)) /\
  (r_status msg <> new_st -> new_st = MessageStatus.error_api ->
     exists reason,
       error_reason rt payload = Ok reason /\
       _handle_status rt payload w
       = (Ok tt,
          mkWorld (with_diagnostic (updated msg new_st w) (row_with_status msg new_st) reason)
                  (fs w),
          [ Log info "Msg %s → %s" ]) /\
       select_by_wa iid wa
         (with_diagnostic (updated msg new_st w) (row_with_status msg new_st) reason)
       = Ok (Some (row_with_status msg new_st)) /\
       insert_message (diagnostic (row_with_status msg new_st) reason) (updated msg new_st w)
       = Ok (with_diagnostic (updated msg new_st w) (row_with_status msg new_st) reason) /\
       notified (with_diagnostic (updated msg new_st w) (row_with_status msg new_st) reason)
       = notified (db w) ++ [ (msg_in, next_id (db w)) ]) /\
  _handle_status rt payload (world_after (_handle_status rt payload w))
  = (Ok tt, world_after (_handle_status rt payload w), []).
Proof.
  intros Hinst Hwa Hst Hnew Hres Hsel.
  split; [apply (status_unchanged rt _ _ _ _ _ _ _ _ Hinst Hwa Hst Hnew Hres Hsel)|].
  split.
  { intros H1 H2. split;
      [apply (status_changed rt _ _ _ _ _ _ _ _ Hinst Hwa Hst Hnew Hres Hsel H1 H2)|].
    split; [apply select_after_status; exact Hsel|].
    split; [unfold updated, commit_status, update_row; cbn; apply length_map|reflexivity]. }
  split.
  { intros H1 H2.
    destruct (status_failed rt _ _ _ _ _ _ _ _ Hinst Hwa Hst Hnew Hres Hsel H1 H2)
      as (reason & Hr & Hrun).
    exists reason. split; [exact Hr|]. split; [exact Hrun|].
    split; [apply select_after_diagnostic, select_after_status; exact Hsel|].
    split; reflexivity. }
  apply (status_twice rt _ _ _ _ _ _ _ _ Hinst Hwa Hst Hnew Hres Hsel).
Qed.

Lemma status_webhook_effects_witness :
  (exists reason,
     error_reason Examples.ex_rt (Examples.status_webhook "failed") = Ok reason /\
     _handle_status Examples.ex_rt (Examples.status_webhook "failed") Examples.ex_sent_world
     = (Ok tt,
        mkWorld (with_diagnostic
                   (updated Examples.ex_sent MessageStatus.error_api Examples.ex_sent_world)
                   (row_with_status Examples.ex_sent MessageStatus.error_api) reason)
                (fs Examples.ex_sent_world),
        [ Log info "Msg %s → %s" ]) /\
     notified (with_diagnostic
                 (updated Examples.ex_sent MessageStatus.error_api Examples.ex_sent_world)
                 (row_with_status Examples.ex_sent MessageStatus.error_api) reason)
     = notified (db Examples.ex_sent_world) ++ [ (msg_in, next_id (db Examples.ex_sent_world)) ]) /\
  _handle_status Examples.ex_rt (Examples.status_webhook "failed")
    (world_after (_handle_status Examples.ex_rt (Examples.status_webhook "failed")
                    Examples.ex_sent_world))
  = (Ok tt,
     world_after (_handle_status Examples.ex_rt (Examples.status_webhook "failed")
                    Examples.ex_sent_world),
     []).
Proof.
  destruct (status_webhook_effects Examples.ex_rt (Examples.status_webhook "failed")
              (JInt 1101) (JStr "S1") (JStr "failed") 1 MessageStatus.error_api
              Examples.ex_sent Examples.ex_sent_world
              eq_refl eq_refl eq_refl eq_refl eq_refl eq_refl) as (_ & _ & Hfailed & Htwice).
  split; [|exact Htwice].
  destruct Hfailed as (reason & Hreason & Hrun & _ & _ & Hnotified);
    [discriminate|reflexivity|].
  exists reason. split; [exact Hreason|]. split; [exact Hrun|exact Hnotified].
Defined.

End StatusProofs.

Module OutboxProofs.
Import Json Models Store Eff GreenMsg Webhook Outbox Runs Expected EffFacts MappingFacts StoreFacts.


Lemma uploads_app t1 t2 : uploads (t1 ++ t2) = uploads t1 ++ uploads t2.
Proof. unfold uploads. apply List.filter_app. Qed.

Lemma silent_bind {A B} (m : M A) (f : A -> M B) :
  silent m -> (forall a, silent (f a)) -> silent (bind m f).
Proof.
  intros Hm Hf w. unfold bind, trace_of. specialize (Hm w). unfold trace_of in Hm.
  destruct (m w) as [[[a|e] w1] t1]; cbn [snd] in *; [|exact Hm].
  specialize (Hf a w1). unfold trace_of in Hf.
  destruct (f a w1) as [[r w2] t2]. cbn [snd] in *. rewrite uploads_app, Hm, Hf. reflexivity.
Qed.

Lemma silent_try {A} (body : M A) handles (handler : exn -> M A) :
  silent body -> (forall e, silent (handler e)) -> silent (try_except body handles handler).
Proof.
  intros Hb Hh w. unfold try_except, trace_of. specialize (Hb w). unfold trace_of in Hb.
  destruct (body w) as [[[a|e] w1] t1]; cbn [snd] in *; [exact Hb|].
  destruct (handles e); [|exact Hb].
  specialize (Hh e w1). unfold trace_of in Hh.
  destruct (handler e w1) as [[r w2] t2]. cbn [snd] in *. rewrite uploads_app, Hb, Hh. reflexivity.
Qed.

Lemma silent_ret {A} (a : A) : silent (ret a).
Proof. intros w. reflexivity. Qed.

Lemma silent_lift {A} (o : outcome A) : silent (lift o).
Proof. intros w. reflexivity. Qed.

Lemma silent_commit f : silent (commit f).
Proof. intros w. unfold commit, trace_of. destruct (f (db w)); reflexivity. Qed.

Lemma silent_log lv what : silent (emit (Log lv what)).
Proof. intros w. reflexivity. Qed.

Lemma silent_reaction tg emoji : silent (emit (Reaction tg emoji)).
Proof. intros w. reflexivity. Qed.

Ltac silent_step :=
  lazymatch goal with
  | |- silent (bind _ _) => apply silent_bind; [|intros ?]
  | |- silent (try_except _ _ _) => apply silent_try; [|intros ?]
  | |- silent (ret _) => apply silent_ret
  | |- silent (lift _) => apply silent_lift
  | |- silent (commit _) => apply silent_commit
  | |- silent (emit (Log _ _)) => apply silent_log
  | |- silent (emit (Reaction _ _)) => apply silent_reaction
  | |- silent (notify_send_error _ _) => apply silent_commit
  | |- silent (match ?x with _ => _ end) => destruct x
  end.

Section Dispatch.
Variable G : Gateway.
Variable throttle_is_api_error : bool.

Lemma mark_status_silent msg st ok : silent (_mark_status G msg st ok).
Proof. unfold _mark_status. repeat silent_step. Qed.

Lemma mark_wa_id_silent msg resp : silent (_mark_wa_id msg resp).
Proof. unfold _mark_wa_id. repeat silent_step. Qed.

Lemma send_files_loop_run chat_id disk (w : world) : forall atts k caption resp,
  fs w = disk ->
  (forall f, f ∈ atts -> is_Some (disk !! f_path f)) ->
  (forall i, i < length atts -> is_ok (send_file_reply G (k + i)) = true) ->
  exists resp' t,
    send_files_loop G chat_id atts k caption resp w = (Ok resp', w, t) /\
    uploads t =
    imap (fun i f =>
            SendFile chat_id (default empty_str (disk !! f_path f)) (f_name f) (f_mime f)
                     (if decide (i = 0) then caption else empty_str)) atts.
Proof.
  induction atts as [|f rest IH]; intros k caption resp Hfs Hread Hsend.
  - exists resp, []. split; reflexivity.
  - cbn [send_files_loop].
    destruct (Hread f) as [data Hdata]; [set_solver|].
    assert (Hrd : read_file (f_path f) w = (Ok data, w, [])).
    { unfold read_file. rewrite Hfs, Hdata. reflexivity. }
    rewrite (bind_ok _ _ _ _ _ _ Hrd). rewrite bind_emit.
    pose proof (Hsend 0 ltac:(cbn; lia)) as H0. rewrite Nat.add_0_r in H0.
    destruct (send_file_reply G k) as [r|e] eqn:Er; [|discriminate].
    erewrite bind_lift_ok by reflexivity.
    destruct (IH (S k) empty_str r Hfs) as (resp' & t & Hrun & Hup).
    { intros f' Hf'. apply Hread. set_solver. }
    { intros i Hi. replace (S k + i) with (k + S i) by lia. apply Hsend. cbn. lia. }
    rewrite Hrun. eexists _, _. split; [reflexivity|].
    cbn [app uploads List.filter]. fold (uploads t). rewrite Hup.
    cbn [imap]. rewrite Hdata. cbn. f_equal.
    apply imap_ext. intros i x _. cbn. destruct (decide (i = 0)); reflexivity.
Qed.


End Dispatch.


End OutboxProofs.

Module DownloadProofs.
Import Json Models Store Eff GreenMsg Runs Expected EffFacts MappingFacts StoreFacts.


Lemma attempts_app t1 t2 : attempts (t1 ++ t2) = attempts t1 + attempts t2.
Proof. unfold attempts. rewrite List.filter_app, length_app. reflexivity. Qed.

Section Download.
Variable MEDIA_ROOT : string.
Variable N : Net.
Variable rt : Runtime.

Lemma download_loop_attempts rounds retries backoff url local : forall attempt w,
  attempts (trace_of (download_loop N rounds retries backoff url local attempt w)) <= rounds.
Proof.
  induction rounds as [|n IH]; intros attempt w; [cbn; lia|].
  cbn [download_loop]. rewrite bind_emit.
  match goal with
  | |- context [bind ?m ?f w] => destruct (bind m f w) as [[r w2] t2] eqn:E
  end.
  cbn [trace_of snd]. change (HttpGet url :: t2) with ([HttpGet url] ++ t2).
  rewrite attempts_app. cbn [attempts List.filter length].
  enough (attempts t2 <= n) by (cbn; lia).
  revert E. unfold bind at 1.
  destruct (fetch N url attempt) as [data|e|partial e]; cbn.
  all: repeat match goal with
       | |- context [if ?b then _ else _] => destruct b eqn:?
       end; cbn.
  all: try (intros [= <- <- <-]; cbn; lia).
  all: unfold bind, emit, remove_file, ret; cbn.
  all: match goal with
       | |- context [download_loop _ _ _ _ _ _ (S _) ?w'] =>
           specialize (IH (S attempt) w');
           destruct (download_loop _ _ _ _ _ _ (S _) w')
             as [[r' w''] t']; cbn in *;
           intros [= <- <- <-]; cbn; unfold attempts in *; cbn; lia
       end.
Qed.

Lemma download_safe_attempts url fname w :
  attempts (trace_of (download_safe MEDIA_ROOT N url fname w)) <= 4.
Proof.
  unfold download_safe.
  destruct (negb (truthy url)); [cbn; lia|].
  destruct url; try (cbn; lia).
  destruct (is_blank s); [cbn; lia|].
  destruct fname; try (cbn; lia).
  apply download_loop_attempts.
Qed.

(** One failed round: the file is gone, then either the loop gives up or
    it sleeps and goes on. *)
Lemma failed_round n retries backoff url local attempt w :
  failing (fetch N url attempt) ->
  download_loop N (S n) retries backoff url local attempt w =
  if (retries <? S attempt)%nat then
    (Ok None, without_file local w, [ HttpGet url; warn; Unlink local; gave_up ])
  else
    let '(r, w', t) :=
      download_loop N n retries backoff url local (S attempt) (without_file local w) in
    (r, w', [ HttpGet url; warn; Unlink local;
              Sleep (backoff ^ Z.of_nat (S attempt) * ((1 # 2) + random N attempt / 2))%Q ]
            ++ t).
Proof.
  intros Hfail. cbn [download_loop]. unfold without_file.
  destruct (fetch N url attempt) as [data|e|partial e]; cbn in Hfail.
  - subst data.
    cbv beta iota zeta delta [bind emit write_file remove_file ret raise caught
      String.length empty_str Z.of_nat Z.eqb app db fs].
    rewrite delete_insert_eq.
    destruct (retries <? S attempt)%nat; [reflexivity|].
    destruct (download_loop _ _ _ _ _ _ _ _) as [[r w'] t]. reflexivity.
  - cbv beta iota zeta delta [bind emit write_file remove_file ret raise app db fs].
    rewrite Hfail.
    destruct (retries <? S attempt)%nat; [reflexivity|].
    destruct (download_loop _ _ _ _ _ _ _ _) as [[r w'] t]. reflexivity.
  - cbv beta iota zeta delta [bind emit write_file remove_file ret raise app db fs].
    rewrite Hfail, delete_insert_eq.
    destruct (retries <? S attempt)%nat; [reflexivity|].
    destruct (download_loop _ _ _ _ _ _ _ _) as [[r w'] t]. reflexivity.
Qed.

Lemma without_file_idem local w :
  without_file local (without_file local w) = without_file local w.
Proof.
  unfold without_file. cbn. f_equal. apply delete_id. apply lookup_delete_eq.
Qed.

(** A download whose every attempt fails makes four attempts, removes the
    file after each, sleeps in between and gives up. *)
Lemma download_loop_gives_up url local w :
  (forall k, failing (fetch N url k)) ->
  download_loop N 4 3 (3 # 2) url local 0 w
  = (Ok None, without_file local w, give_up_trace N url local).
Proof.
  intros Hfail.
  rewrite (failed_round _ _ _ _ _ _ _ (Hfail 0%nat)). cbn [Nat.ltb Nat.leb].
  rewrite (failed_round _ _ _ _ _ _ _ (Hfail 1%nat)). cbn [Nat.ltb Nat.leb].
  rewrite (failed_round _ _ _ _ _ _ _ (Hfail 2%nat)). cbn [Nat.ltb Nat.leb].
  rewrite (failed_round _ _ _ _ _ _ _ (Hfail 3%nat)). cbn [Nat.ltb Nat.leb].
  rewrite !without_file_idem. reflexivity.
Qed.

Lemma jitter_bounds k :
  (0 <= random N k)%Q -> (random N k < 1)%Q ->
  (1 # 2 <= (1 # 2) + random N k / 2)%Q /\ ((1 # 2) + random N k / 2 < 1)%Q.
Proof.
  intros H0 H1.
  assert (random N k / 2 == random N k * (1 # 2))%Q as -> by (field).
  split; lra.
Qed.


Lemma media_type_facts mtype :
  In mtype media_types ->
  in_str_set (JStr mtype) _IGNORE_MTYPE = Ok false /\
  in_str_set (JStr mtype) text_types = Ok false /\
  exists cls, ext_class (JStr mtype) = Some cls.
Proof.
  cbn. intros [<-|[<-|[<-|[<-|[<-|[]]]]]]; cbn; eauto.
Qed.

Lemma conversation_found d iid chat phone :
  exists c d', get_or_create_conversation d iid chat phone (JStr phone) = Ok (c, d') /\
               messages d' = messages d.
Proof.
  unfold get_or_create_conversation. destruct (List.find _ _); [eauto|].
  unfold py_or. destruct (truthy (JStr phone)); cbn; eauto.
Qed.

Ltac run_lift :=
  rewrite ?bind_assoc; erewrite bind_lift_ok by (first [eassumption | reflexivity]).

Lemma mapping_degrades_to_text (api : Z) (wa chat phone gtype : string) (ts : Z)
    (mtype url fname mime : string) (caption : option string)
    (iid : Z) (incoming archived : bool) (w : world) :
  In mtype media_types ->
  rsplit1 "@" chat = [ phone; gtype ] ->
  get_client N (JInt api) = Ok tt ->
  url <> empty_str -> is_blank url = false ->
  (forall k, failing (fetch N url k)) ->
  exists m local w1,
    payload_to_msg MEDIA_ROOT N rt
      (file_message api wa chat ts mtype (file_fields url fname mime caption))
      iid incoming archived w
    = (Ok (Some m), without_file local w1, give_up_trace N url local) /\
    messages (db w1) = messages (db w) /\ fs w1 = fs w /\
    message_type m = MessageType.text /\
    files m = [] /\
    text m = JStr (could_not_download caption fname).
Proof.
  intros Hty Hchat Hcl Hurl Hblank Hfail.
  destruct (media_type_facts _ Hty) as (Hign & Htext & cls & Hcls).
  destruct (conversation_found (db w) iid chat phone) as (conv & d' & Hconv & Hmsgs).
  unfold payload_to_msg, file_message.
  run_lift. run_lift. run_lift. cbn iota.
  run_lift. run_lift.
  erewrite bind_lift_ok by (unfold rsplit_at; cbn; rewrite Hchat; reflexivity).
  cbn iota beta. run_lift.
  unfold py_or at 1. cbn [assoc String.eqb Ascii.eqb Bool.eqb truthy].
  erewrite bind_ok by (unfold with_db; rewrite Hconv; reflexivity).
  cbn iota beta zeta.
  run_lift. run_lift. run_lift. unfold message_content. run_lift. cbn iota. rewrite Hcls.
  set (w1 := mkWorld d' (fs w)).
  set (msg := mkMessage _ _ _ _ _ _ _ _ _ _ _ _ _).
  assert (Hbranch : exists local,
    media_branch MEDIA_ROOT N rt
      (JDict [ ("typeWebhook", JStr "incomingMessageReceived");
               ("instanceData", JDict [ ("idInstance", JInt api) ]);
               ("idMessage", JStr wa); ("timestamp", JInt ts);
               ("senderData", JDict [ ("chatId", JStr chat) ]);
               ("messageData", JDict [ ("typeMessage", JStr mtype);
                                       ("fileMessageData",
                                        JDict (file_fields url fname mime caption)) ]) ])
      (JDict [ ("typeMessage", JStr mtype);
               ("fileMessageData", JDict (file_fields url fname mime caption)) ])
      msg cls w1
    = (Ok (with_content msg MessageType.text (JStr (could_not_download caption fname)) []),
       without_file local w1, give_up_trace N url local)).
  { unfold media_branch. destruct cls as [mty fcls].
    run_lift. run_lift.
    assert (Hstep : forall (k : json -> M Message) fname1,
      (forall f, exists local,
         k (JStr f) w1
         = (Ok (with_content msg MessageType.text (JStr (could_not_download caption fname)) []),
            without_file local w1, give_up_trace N url local)) ->
      exists local,
        (dot <- lift (has_dot (JStr fname1)) ;;
         mt <- lift (get (JDict (file_fields url fname mime caption)) "mimeType") ;;
         fname <- (if negb dot && truthy mt then
                     mt' <- lift (getitem (JDict (file_fields url fname mime caption)) "mimeType") ;;
                     m <- lift (str_method mt') ;;
                     ret (JStr (py_str rt (JStr fname1) +:+ "." +:+ split_last "/" m))
                   else ret (JStr fname1)) ;;
         k fname)%eff w1
        = (Ok (with_content msg MessageType.text (JStr (could_not_download caption fname)) []),
           without_file local w1, give_up_trace N url local)).
    { intros k fname1 Hk. run_lift. run_lift.
      cbn [file_fields app assoc String.eqb Ascii.eqb Bool.eqb].
      destruct (negb (contains "." fname1) && truthy (JStr mime)).
      - run_lift. run_lift. rewrite ?bind_assoc, bind_ret. apply Hk.
      - rewrite bind_ret. apply Hk. }
    assert (Hrest : forall f, exists local,
      (fcaption <- lift (get (JDict (file_fields url fname mime caption)) "caption") ;;
       dl_url0 <- lift (get (JDict (file_fields url fname mime caption)) "downloadUrl") ;;
       inst <- lift (getitem (JDict [ ("typeWebhook", JStr "incomingMessageReceived");
               ("instanceData", JDict [ ("idInstance", JInt api) ]);
               ("idMessage", JStr wa); ("timestamp", JInt ts);
               ("senderData", JDict [ ("chatId", JStr chat) ]);
               ("messageData", JDict [ ("typeMessage", JStr mtype);
                                       ("fileMessageData",
                                        JDict (file_fields url fname mime caption)) ]) ])
                 "instanceData") ;;
       api_id <- lift (getitem inst "idInstance") ;;
       lift (get_client N api_id) ;;;
       dl_url <- (if truthy dl_url0 then ret dl_url0
                  else
                    u <- lift (cl_download_file N (chat_id msg) (wa_message_id msg)) ;;
                    ret (py_or u (JStr empty_str))) ;;
       downloaded <- download_safe MEDIA_ROOT N dl_url (JStr f) ;;
       match downloaded with
       | None =>
           fn <- lift (get (JDict (file_fields url fname mime caption)) "fileName") ;;
           if truthy fcaption then
             ret (with_content msg MessageType.text
                    (JStr (py_str rt fcaption +:+ LF +:+ "<Не удалось скачать файл ("
                           +:+ py_str rt (py_or fn (JStr "--")) +:+ ")>"))
                    (files msg))
           else
             ret (with_content msg MessageType.text
                    (JStr ("<Не удалось скачать файл ("
                           +:+ py_str rt (py_or fn (JStr "no-name")) +:+ ")>"))
                    (files msg))
       | Some (fpath, fsize) =>
           nm <- lift (join_item (JStr f)) ;;
           mm <- lift (getitem (JDict (file_fields url fname mime caption)) "mimeType") ;;
           furl <- lift (_public_url MEDIA_ROOT fpath) ;;
           let file_rec := mkFile fcls nm mm fpath furl fsize in
           cap <- lift (get (JDict (file_fields url fname mime caption)) "caption") ;;
           ret (with_content msg mty cap (files msg ++ [file_rec]))
       end)%eff w1
      = (Ok (with_content msg MessageType.text (JStr (could_not_download caption fname)) []),
         without_file local w1, give_up_trace N url local)).
    { intros f. exists (path_join (MEDIA_ROOT +:+ "/" +:+ utc_month N) f).
      run_lift. run_lift. run_lift. run_lift.
      erewrite bind_lift_ok by exact Hcl.
      assert (Htruthy : truthy (JStr url) = true).
      { cbn. destruct (String.eqb url empty_str) eqn:E; [|reflexivity].
        apply String.eqb_eq in E. contradiction. }
      cbn [file_fields app get get_default assoc String.eqb Ascii.eqb Bool.eqb].
      rewrite Htruthy. rewrite bind_ret.
      erewrite (bind_ok (download_safe _ _ _ _)).
      2:{ unfold download_safe. rewrite Htruthy, Hblank. cbn [negb].
          apply download_loop_gives_up. exact Hfail. }
      cbn iota beta zeta. run_lift.
      unfold could_not_download, py_or, ret.
      destruct caption as [c|];
        cbn [app assoc String.eqb Ascii.eqb Bool.eqb truthy py_str negb files].
      - destruct (String.eqb c empty_str); destruct (String.eqb fname empty_str);
          cbn [negb py_str]; rewrite app_nil_r; reflexivity.
      - destruct (String.eqb fname empty_str); cbn [negb py_str]; rewrite app_nil_r;
          reflexivity. }
    cbn [file_fields app get get_default assoc String.eqb Ascii.eqb Bool.eqb] in *.
    destruct (truthy (JStr fname)).
    - rewrite bind_ret. apply Hstep. exact Hrest.
    - run_lift. run_lift. rewrite ?bind_assoc, bind_ret.
      unfold py_or. destruct (truthy (JStr _)); apply Hstep; exact Hrest. }
  destruct Hbranch as (local & Hbranch).
  rewrite (bind_ok _ _ _ _ _ _ Hbranch). cbn iota beta zeta.
  exists (with_content msg MessageType.text (JStr (could_not_download caption fname)) []),
    local, w1.
  unfold ret. rewrite !app_nil_r. cbn [app].
  split; [reflexivity|]. split; [exact Hmsgs|]. repeat split; reflexivity.
Qed.

End Download.




End DownloadProofs.

Module OverwriteProofs.
Import Json Models Store Eff GreenMsg AdminFiles Runs Expected EffFacts.

Lemma truthy_str s : s <> empty_str -> truthy (JStr s) = true.
Proof.
  intros H. cbn. destruct (String.eqb s empty_str) eqn:E; [|reflexivity].
  apply String.eqb_eq in E. contradiction.
Qed.

Lemma length_nonempty s : s <> empty_str -> (Z.of_nat (String.length s) =? 0)%Z = false.
Proof.
  intros H. destruct s as [|a s]; [contradiction|]. cbn [String.length].
  apply Z.eqb_neq. lia.
Qed.

(** A first attempt that brings a body: the file is written at
    [dst_dir / fname], whatever the disk holds there. *)
Lemma download_safe_first_try MEDIA_ROOT N url fname data w :
  url <> empty_str -> is_blank url = false ->
  fetch N url 0 = Fetched data -> data <> empty_str ->
  download_safe MEDIA_ROOT N (JStr url) (JStr fname) w
  = (Ok (Some (path_join (MEDIA_ROOT +:+ "/" +:+ utc_month N) fname,
               Z.of_nat (String.length data))),
     mkWorld (db w) (<[path_join (MEDIA_ROOT +:+ "/" +:+ utc_month N) fname := data]> (fs w)),
     [ HttpGet url ]).
Proof.
  intros Hurl Hblank Hfetch Hdata. unfold download_safe.
  rewrite (truthy_str _ Hurl), Hblank. cbn [negb download_loop].
  rewrite Hfetch.
  cbv beta iota zeta delta [bind emit write_file ret app db fs].
  rewrite (length_nonempty _ Hdata). reflexivity.
Qed.

(** C7. Two downloads with the same file name in the same month: both are
    stored at the same path [MEDIA_ROOT/<yyyy>/<mm>/<fname>], no suffix is
    added, and after the second the path holds the second body: the first
    file is overwritten. *)
Theorem download_overwrites_same_name (MEDIA_ROOT : string) (N : Net)
    (url1 url2 fname data1 data2 : string) (w : world) :
  url1 <> empty_str -> is_blank url1 = false ->
  url2 <> empty_str -> is_blank url2 = false ->
  fetch N url1 0 = Fetched data1 -> data1 <> empty_str ->
  fetch N url2 0 = Fetched data2 -> data2 <> empty_str ->
  exists w1 w2 t1 t2 n1 n2,
    download_safe MEDIA_ROOT N (JStr url1) (JStr fname) w
    = (Ok (Some (path_join (MEDIA_ROOT +:+ "/" +:+ utc_month N) fname, n1)), w1, t1) /\
    download_safe MEDIA_ROOT N (JStr url2) (JStr fname) w1
    = (Ok (Some (path_join (MEDIA_ROOT +:+ "/" +:+ utc_month N) fname, n2)), w2, t2) /\
    fs w1 !! path_join (MEDIA_ROOT +:+ "/" +:+ utc_month N) fname = Some data1 /\
    fs w2 !! path_join (MEDIA_ROOT +:+ "/" +:+ utc_month N) fname = Some data2.
Proof.
  intros Hu1 Hb1 Hu2 Hb2 Hf1 Hd1 Hf2 Hd2.
  do 6 eexists. split; [apply download_safe_first_try; eassumption|].
  split; [apply download_safe_first_try; eassumption|].
  split; cbn [fs]; apply lookup_insert_eq.
Qed.

Lemma download_overwrites_same_name_witness :
  exists w1 w2 t1 t2 n1 n2,
    download_safe "/app/media" Examples.ex_net_up (JStr "https://media.example/1")
      (JStr "photo.jpg") Examples.ex_world
    = (Ok (Some (path_join ("/app/media" +:+ "/" +:+ utc_month Examples.ex_net_up)
                   "photo.jpg", n1)), w1, t1) /\
    download_safe "/app/media" Examples.ex_net_up (JStr "https://media.example/2")
      (JStr "photo.jpg") w1
    = (Ok (Some (path_join ("/app/media" +:+ "/" +:+ utc_month Examples.ex_net_up)
                   "photo.jpg", n2)), w2, t2) /\
    fs w1 !! path_join ("/app/media" +:+ "/" +:+ utc_month Examples.ex_net_up) "photo.jpg"
    = Some "first image" /\
    fs w2 !! path_join ("/app/media" +:+ "/" +:+ utc_month Examples.ex_net_up) "photo.jpg"
    = Some "second image".
Proof.
  apply (download_overwrites_same_name "/app/media" Examples.ex_net_up
           "https://media.example/1" "https://media.example/2" "photo.jpg"
           "first image" "second image" Examples.ex_world).
  all: first [discriminate | reflexivity].
Defined.

(** The same through [payload_to_msg]: two image webhooks with the file
    name photo.jpg give two messages whose files have the same path. *)
Lemma same_name_images_share_a_path :
  exists m1 m2 f1 f2 w1 w2 t1 t2,
    payload_to_msg "/app/media" Examples.ex_net_up Examples.ex_rt
      (Examples.image_message "A1" "https://media.example/1" "one") 1 true false
      Examples.ex_world = (Ok (Some m1), w1, t1) /\
    payload_to_msg "/app/media" Examples.ex_net_up Examples.ex_rt
      (Examples.image_message "A2" "https://media.example/2" "two") 1 true false
      w1 = (Ok (Some m2), w2, t2) /\
    files m1 = [ f1 ] /\ files m2 = [ f2 ] /\
    file_path f1 = "/app/media/2025/06/photo.jpg" /\
    file_path f2 = "/app/media/2025/06/photo.jpg" /\
    fs w1 !! "/app/media/2025/06/photo.jpg" = Some "first image" /\
    fs w2 !! "/app/media/2025/06/photo.jpg" = Some "second image".
Proof.
  do 8 eexists.
  split; [vm_compute; reflexivity|].
  split; [vm_compute; reflexivity|].
  repeat split; vm_compute; reflexivity.
Qed.

(** The admin upload path does what the policy says: with photo.jpg on the
    disk, the next free name is photo_1.jpg. *)
Lemma admin_path_adds_suffix :
  _build_media_path 3 "/app/media/2025/06" "photo.jpg"
    {[ "/app/media/2025/06/photo.jpg" := "first image" ]}
  = Some "/app/media/2025/06/photo_1.jpg".
Proof. vm_compute. reflexivity. Qed.

End OverwriteProofs.

Module HistoryProofs.
Import Json Models Store Eff GreenMsg History Runs Expected EffFacts.
Local Open Scope eff_scope.

(** ** Runs that agree *)

Lemma alike_ret {A B} (R : A -> B -> Prop) a b : R a b -> alike R (ret a) (ret b).
Proof. intros H w. repeat split. exact H. Qed.

Lemma alike_refl {A} (m : M A) : alike eq m m.
Proof.
  intros w. unfold agree_runs. destruct (m w) as [[[a|e] w1] t1]; cbn; auto.
Qed.

Lemma alike_bind {A A' B B'} (R : A -> A' -> Prop) (S : B -> B' -> Prop)
    (m1 : M A) (m2 : M A') (f1 : A -> M B) (f2 : A' -> M B') :
  alike R m1 m2 -> (forall a b, R a b -> alike S (f1 a) (f2 b)) ->
  alike S (bind m1 f1) (bind m2 f2).
Proof.
  intros Hm Hf w. specialize (Hm w). unfold agree_runs, bind in *.
  destruct (m1 w) as [[[a|e1] w1] t1], (m2 w) as [[[b|e2] w2] t2];
    cbn in *; destruct Hm as (-> & -> & Hr); try contradiction.
  - specialize (Hf a b Hr w2). unfold agree_runs in Hf.
    destruct (f1 a w2) as [[o1 w3] t3], (f2 b w2) as [[o2 w4] t4]; cbn in *.
    destruct Hf as (-> & -> & Ho). auto.
  - auto.
Qed.

Lemma alike_same {A B B'} (S : B -> B' -> Prop) (m : M A) (f1 : A -> M B) (f2 : A -> M B') :
  (forall a, alike S (f1 a) (f2 a)) -> alike S (bind m f1) (bind m f2).
Proof.
  intros H. eapply alike_bind; [apply alike_refl|]. intros a b <-. apply H.
Qed.

Lemma alike_ext {A B} (R : A -> B -> Prop) (m1 m1' : M A) (m2 m2' : M B) :
  (forall w, m1 w = m1' w) -> (forall w, m2 w = m2' w) ->
  alike R m1' m2' -> alike R m1 m2.
Proof. intros H1 H2 H w. rewrite H1, H2. apply H. Qed.

Lemma alike_lift_l {A B B'} (S : B -> B' -> Prop) (a : A) (f : A -> M B) (m2 : M B') :
  alike S (f a) m2 -> alike S (bind (lift (Ok a)) f) m2.
Proof.
  apply alike_ext; [|reflexivity]. intros w. apply bind_lift_ok. reflexivity.
Qed.

Lemma alike_lift_r {A B B'} (S : B -> B' -> Prop) (a : A) (m1 : M B) (f : A -> M B') :
  alike S m1 (f a) -> alike S m1 (bind (lift (Ok a)) f).
Proof.
  apply alike_ext; [reflexivity|]. intros w. apply bind_lift_ok. reflexivity.
Qed.

Lemma alike_ret_l {A B B'} (S : B -> B' -> Prop) (a : A) (f : A -> M B) (m2 : M B') :
  alike S (f a) m2 -> alike S (bind (ret a) f) m2.
Proof. apply alike_lift_l. Qed.

Lemma alike_ret_r {A B B'} (S : B -> B' -> Prop) (a : A) (m1 : M B) (f : A -> M B') :
  alike S m1 (f a) -> alike S m1 (bind (ret a) f).
Proof. apply alike_lift_r. Qed.

Lemma alike_raise {A A' B B'} (S : B -> B' -> Prop) e (f1 : A -> M B) (f2 : A' -> M B') :
  alike S (bind (lift (Raise e)) f1) (bind (lift (Raise e)) f2).
Proof. intros w. repeat split. Qed.

Lemma alike_assoc_l {A B C C'} (S : C -> C' -> Prop) (m : M A) (f : A -> M B)
    (g : B -> M C) (m2 : M C') :
  alike S (bind m (fun a => bind (f a) g)) m2 -> alike S (bind (bind m f) g) m2.
Proof. apply alike_ext; [|reflexivity]. intros w. apply bind_assoc. Qed.

Lemma alike_assoc_r {A B C C'} (S : C' -> C -> Prop) (m : M A) (f : A -> M B)
    (g : B -> M C) (m1 : M C') :
  alike S m1 (bind m (fun a => bind (f a) g)) -> alike S m1 (bind (bind m f) g).
Proof. apply alike_ext; [reflexivity|]. intros w. apply bind_assoc. Qed.

(** ** Reading fields *)

Lemma field_getitem x k v : field x k = Some v -> getitem x k = Ok v.
Proof. destruct x; try discriminate. cbn. intros ->. reflexivity. Qed.

Lemma field_dict x k v : field x k = Some v -> exists d, x = JDict d.
Proof. destruct x; try discriminate. eauto. Qed.

Lemma dict_get_default x k dflt :
  (exists d, x = JDict d) -> get_default x k dflt = Ok (default dflt (field x k)).
Proof. intros [d ->]. cbn. destruct (assoc k d); reflexivity. Qed.

Lemma py_or_shown o x : py_or (default JNull o) x = default x (shown_name o).
Proof.
  unfold py_or, shown_name. destruct o as [v|]; cbn; [|reflexivity].
  destruct (truthy v); reflexivity.
Qed.

Lemma same_or_missing_value e s :
  same_or_missing e s -> py_or (default JNull e) (JStr empty_str) = JStr s.
Proof.
  unfold py_or. intros [->|[-> [->| ->]]]; cbn; try reflexivity.
  destruct (String.eqb s empty_str) eqn:E; cbn; [|reflexivity].
  apply String.eqb_eq in E. subst. reflexivity.
Qed.

Lemma same_or_missing_inj e s1 s2 : same_or_missing e s1 -> same_or_missing e s2 -> s1 = s2.
Proof.
  intros [->|[-> [->| ->]]] [H|[-> [H|H]]]; congruence.
Qed.

Lemma url_name_default rt o :
  url_file_name rt (default (JStr empty_str) o) = url_file_name rt (default JNull o).
Proof. destruct o; reflexivity. Qed.

(** The types [same_content] knows are the ones the adapter handles. *)
Lemma same_content_types mtype entry mdata :
  same_content mtype entry mdata -> In mtype handled_types.
Proof.
  unfold same_content, handled_types, _FILE_MTYPES. cbn [existsb In].
  repeat match goal with
         | |- context [String.eqb mtype ?s] =>
             destruct (String.eqb mtype s) eqn:?;
             [ match goal with H : String.eqb _ _ = true |- _ =>
                 apply String.eqb_eq in H; subst mtype end; intros _; tauto |]
         end.
  cbn. intros [].
Qed.

(** Splits on the message type behind a [same_content] premise of the goal. *)
Ltac by_type mtype :=
  unfold same_content; cbn [existsb _FILE_MTYPES];
  repeat match goal with
         | |- context [String.eqb mtype ?s] =>
             let E := fresh "E" in
             destruct (String.eqb mtype s) eqn:E;
             [ apply String.eqb_eq in E; subst mtype; cbn [orb] |]
         end;
  cbn [orb]; try (intros []; fail).

(** The envelope the adapter builds around the type-specific section. *)
Lemma adapter_envelope d api ty wa ts chat mt sec :
  assoc "type" d = Some ty -> assoc "idMessage" d = Some wa ->
  assoc "timestamp" d = Some ts -> assoc "chatId" d = Some chat ->
  assoc "typeMessage" d = Some mt ->
  section_of (JDict d) mt = Ok sec ->
  exists tw sender cname contact rest,
    history_entry_to_payload (JDict d) api
    = Ok (JDict ([ ("typeWebhook", JStr tw); ("idMessage", wa); ("timestamp", ts);
                   ("instanceData", JDict [ ("idInstance", JInt api) ]);
                   ("senderData",
                    JDict [ ("chatId", chat); ("sender", sender); ("chatName", cname);
                            ("senderName", default (JStr empty_str) (assoc "senderName" d));
                            ("senderContactName", contact) ]);
                   ("messageData", JDict (("typeMessage", mt) :: sec)) ] ++ rest)).
Proof.
  intros Hty Hwa Hts Hchat Hmt Hsec.
  unfold history_entry_to_payload, _mk_sender, History.get, get_default, getitem, has_key.
  rewrite Hty. cbn [mbind outcome_bind].
  destruct (is_str ty "incoming"); cbn [mbind outcome_bind].
  all: rewrite Hwa; cbn [mbind outcome_bind]; rewrite Hts; cbn [mbind outcome_bind].
  all: rewrite Hchat; cbn [mbind outcome_bind]; rewrite Hmt; cbn [mbind outcome_bind].
  all: rewrite Hsec; cbn [mbind outcome_bind].
  all: destruct (assoc "statusMessage" d) as [st|] eqn:Est; cbn; rewrite ?Est; cbn.
  all: try (eexists _, _, _, _, [ (_, _) ]; reflexivity).
  all: eexists _, _, _, _, []; reflexivity.
Qed.

(** What the adapter builds is itself a webhook of the entry's message. *)
Lemma adapter_is_live api entry native :
  live_equivalent api entry native ->
  exists p, history_entry_to_payload entry api = Ok p /\ live_equivalent api entry p.
Proof.
  intros (ty & wa & ts & chat & mtype & inst & sender & mdata & Hty & Hwa & _ & Hts & _ &
          Hchat & _ & _ & _ & _ & _ & Hmt & _ & _ & Hc).
  destruct (field_dict _ _ _ Hty) as [d ->]. cbn [field] in *.
  assert (Hsec : exists sec,
    section_of (JDict d) (JStr mtype) = Ok sec /\
    same_content mtype (JDict d) (JDict (("typeMessage", JStr mtype) :: sec))).
  { revert Hc. by_type mtype.
    all: intros H; repeat match type of H with ex _ => destruct H as [? H] end.
    all: repeat match goal with H : _ /\ _ |- _ => destruct H end.
    all: cbn [field] in *.
    all: repeat match goal with
                | H : field ?x _ = Some _ |- _ =>
                    is_var x; destruct (field_dict _ _ _ H) as [? ->]; cbn [field] in *
                end.
    all: unfold section_of, _file_section, History.get, get_default, getitem, has_key.
    all: cbn [is_str String.eqb Ascii.eqb Bool.eqb in_str_set existsb _FILE_MTYPES orb
              mbind outcome_bind].
    all: repeat (match goal with
                 | H : assoc ?k ?dd = Some _ |- context [assoc ?k ?dd] => rewrite H
                 end; cbn [mbind outcome_bind]).
    all: try (eexists; split; [reflexivity|];
              cbn [field assoc String.eqb Ascii.eqb Bool.eqb]; eauto 10; fail).
    1: { (* extendedTextMessage *)
      destruct (assoc "textMessage" d) as [v|]; cbn [truthy];
        [destruct (truthy v) eqn:Ev; [destruct H1 as [H1| ->]; [congruence|]|]|].
      all: eexists; split; [reflexivity|];
        cbn [field assoc String.eqb Ascii.eqb Bool.eqb]; eauto 10. }
    1: { (* reactionMessage *)
      destruct (assoc "quotedMessage" d) as [q|] eqn:Eq; cbn; rewrite ?Eq; cbn.
      all: eexists; split; [reflexivity|];
        cbn [field assoc String.eqb Ascii.eqb Bool.eqb]; eauto 10. }
    all: repeat match goal with
                | H : same_or_missing ?e ?s |- _ =>
                    lazymatch goal with
                    | _ : py_or (default JNull e) _ = JStr s |- _ => fail
                    | _ => pose proof (same_or_missing_value _ _ H)
                    end
                end.
    all: eexists; (split; [reflexivity|]).
    all: eexists _, _, _, _; cbn [field assoc String.eqb Ascii.eqb Bool.eqb].
    all: repeat match goal with
                | H : py_or (default JNull ?e) _ = JStr _ |- _ =>
                    unfold default in H; cbn [from_option id] in H; rewrite H; clear H
                end.
    all: repeat (split; [first [eassumption | reflexivity | eauto]|]).
    all: reflexivity. }
  destruct Hsec as (sec & Hsec & Hc').
  destruct (adapter_envelope d api ty wa ts chat (JStr mtype) sec Hty Hwa Hts Hchat Hmt Hsec)
    as (tw & snd & cname & contact & rest & Hrun).
  eexists. split; [exact Hrun|].
  exists ty, wa, ts, chat, mtype. eexists _, _, _. cbn [field app assoc String.eqb Ascii.eqb Bool.eqb].
  repeat (split; [first [eassumption | reflexivity | eauto]|]).
  { cbn [field assoc String.eqb Ascii.eqb Bool.eqb].
    destruct (assoc "senderName" d) as [v|]; reflexivity. }
  repeat (split; [first [eassumption | reflexivity | eauto]|]).
  exact Hc'.
Qed.

(** ** Stepping through two runs *)

(** Replaces the reads whose result the context knows. *)
Ltac reads :=
  unfold GreenMsg.get, History.get;
  repeat match goal with
         | H : field ?x ?k = Some ?v |- context [getitem ?x ?k] =>
             rewrite (field_getitem x k v H)
         | Hd : (exists d, ?x = JDict d) |- context [get_default ?x ?k ?dflt] =>
             rewrite (dict_get_default x k dflt Hd)
         | H : field ?x ?k = Some ?v |- context [field ?x ?k] => rewrite H
         end;
  cbn [default from_option id].

(** One step on either side; a computation both sides share is run once. *)
Ltac alike_step :=
  lazymatch goal with
  | |- alike _ (bind (bind _ _) _) _ => apply alike_assoc_l
  | |- alike _ _ (bind (bind _ _) _) => apply alike_assoc_r
  | |- alike _ (bind (lift (Ok _)) _) _ => apply alike_lift_l
  | |- alike _ _ (bind (lift (Ok _)) _) => apply alike_lift_r
  | |- alike _ (bind (ret _) _) _ => apply alike_ret_l
  | |- alike _ _ (bind (ret _) _) => apply alike_ret_r
  | |- alike _ (bind (lift (Raise ?e)) _) (bind (lift (Raise ?e)) _) => apply alike_raise
  | |- alike _ (bind ?m _) (bind ?m _) => apply alike_same; intros ?
  | |- alike _ (bind (if ?c then _ else _) _) _ => destruct c eqn:?
  | |- alike _ _ (bind (if ?c then _ else _) _) => destruct c eqn:?
  | |- alike _ (if ?c then _ else _) _ => destruct c eqn:?
  | |- alike _ _ (if ?c then _ else _) => destruct c eqn:?
  | |- alike _ (match ?x with _ => _ end) _ => destruct x eqn:?
  | |- alike _ _ (match ?x with _ => _ end) => destruct x eqn:?
  end; cbn beta iota.

Section Equivalence.
Variable MEDIA_ROOT : string.
Variable N : Net.
Variable rt : Runtime.

(** The part of [payload_to_msg] before the branch by type. *)
Lemma skeleton_alike (p1 p2 md1 md2 sender1 sender2 : json) (name : option json)
    (chat wa ts : json) (mtype : string) iid inc1 arch1 inc2 arch2 :
  field p1 "messageData" = Some md1 -> field p2 "messageData" = Some md2 ->
  field md1 "typeMessage" = Some (JStr mtype) ->
  field md2 "typeMessage" = Some (JStr mtype) ->
  field p1 "senderData" = Some sender1 -> field p2 "senderData" = Some sender2 ->
  (exists d, sender1 = JDict d) -> (exists d, sender2 = JDict d) ->
  field sender1 "chatId" = Some chat -> field sender2 "chatId" = Some chat ->
  name = shown_name (field sender1 "senderName") ->
  name = shown_name (field sender2 "senderName") ->
  field p1 "idMessage" = Some wa -> field p2 "idMessage" = Some wa ->
  field p1 "timestamp" = Some ts -> field p2 "timestamp" = Some ts ->
  (forall msg1 msg2,
     wa_message_id msg1 = wa_message_id msg2 -> chat_id msg1 = chat_id msg2 ->
     files msg1 = [] -> files msg2 = [] ->
     alike same_digest (message_content MEDIA_ROOT N rt p1 md1 (JStr mtype) msg1)
                       (message_content MEDIA_ROOT N rt p2 md2 (JStr mtype) msg2)) ->
  alike same_digest (payload_to_msg MEDIA_ROOT N rt p1 iid inc1 arch1)
                    (payload_to_msg MEDIA_ROOT N rt p2 iid inc2 arch2).
Proof.
  intros Hmd1 Hmd2 Hty1 Hty2 Hs1 Hs2 Hd1 Hd2 Hc1 Hc2 Hn1 Hn2 Hwa1 Hwa2 Hts1 Hts2 Hcontent.
  unfold payload_to_msg. reads.
  do 2 alike_step. reads. do 2 alike_step.
  cbn [in_str_set]. do 2 alike_step.
  alike_step; [apply alike_ret; reflexivity|].
  do 2 alike_step. reads. do 2 alike_step.
  alike_step. destruct a as [[chat_id phone] gtype].
  reads. do 2 alike_step. rewrite !py_or_shown, <- Hn1, <- Hn2.
  alike_step. do 4 alike_step. alike_step.
  apply Hcontent; reflexivity.
Qed.

(** The media branch. *)
Lemma media_alike (p1 p2 md1 md2 inst1 inst2 fm1 fm2 : json) (url : json) (api : Z)
    (caption fname mime : string) (msg1 msg2 : Message) cls :
  field md1 "fileMessageData" = Some fm1 -> field md2 "fileMessageData" = Some fm2 ->
  (exists d, fm1 = JDict d) -> (exists d, fm2 = JDict d) ->
  field fm1 "caption" = Some (JStr caption) -> field fm2 "caption" = Some (JStr caption) ->
  field fm1 "fileName" = Some (JStr fname) -> field fm2 "fileName" = Some (JStr fname) ->
  field fm1 "mimeType" = Some (JStr mime) -> field fm2 "mimeType" = Some (JStr mime) ->
  default JNull (field fm1 "downloadUrl") = url ->
  default JNull (field fm2 "downloadUrl") = url ->
  field p1 "instanceData" = Some inst1 -> field inst1 "idInstance" = Some (JInt api) ->
  field p2 "instanceData" = Some inst2 -> field inst2 "idInstance" = Some (JInt api) ->
  wa_message_id msg1 = wa_message_id msg2 -> chat_id msg1 = chat_id msg2 ->
  files msg1 = [] -> files msg2 = [] ->
  alike (fun a b => digest a = digest b)
        (media_branch MEDIA_ROOT N rt p1 md1 msg1 cls)
        (media_branch MEDIA_ROOT N rt p2 md2 msg2 cls).
Proof.
  intros Hfm1 Hfm2 Hd1 Hd2 Hc1 Hc2 Hn1 Hn2 Hm1 Hm2 Hu1 Hu2 Hi1 Ha1 Hi2 Ha2 Hwa Hchat Hf1 Hf2.
  unfold media_branch. destruct cls as [mty fcls].
  rewrite Hwa, Hchat, Hf1, Hf2.
  reads. rewrite ?url_name_default, ?Hu1, ?Hu2.
  repeat (reads; rewrite ?url_name_default, ?Hu1, ?Hu2; alike_step).
  all: apply alike_ret; reflexivity.
Qed.

(** The branch by type. *)
Lemma content_alike (p1 p2 md1 md2 inst1 inst2 entry : json) (api : Z) (mtype : string)
    (msg1 msg2 : Message) :
  same_content mtype entry md1 -> same_content mtype entry md2 ->
  field p1 "instanceData" = Some inst1 -> field inst1 "idInstance" = Some (JInt api) ->
  field p2 "instanceData" = Some inst2 -> field inst2 "idInstance" = Some (JInt api) ->
  wa_message_id msg1 = wa_message_id msg2 -> chat_id msg1 = chat_id msg2 ->
  files msg1 = [] -> files msg2 = [] ->
  alike same_digest (message_content MEDIA_ROOT N rt p1 md1 (JStr mtype) msg1)
                    (message_content MEDIA_ROOT N rt p2 md2 (JStr mtype) msg2).
Proof.
  intros H1 H2 Hi1 Ha1 Hi2 Ha2 Hwa Hchat Hf1 Hf2. revert H1 H2. by_type mtype.
  all: intros H1 H2.
  all: repeat match type of H1 with ex _ => destruct H1 as [? H1] end.
  all: repeat match type of H2 with ex _ => destruct H2 as [? H2] end.
  all: repeat match goal with H : _ /\ _ |- _ => destruct H end.
  all: repeat match goal with
              | H : field ?x ?k = Some ?a, H' : field ?x ?k = Some ?b |- _ =>
                  assert (a = b) by congruence; subst b; clear H'
              end.
  all: unfold message_content, _location_to_text.
  all: cbn [in_str_set text_types existsb String.eqb Ascii.eqb Bool.eqb orb is_str
            ext_class List.find _EXT2FCLS fst snd fmap option_fmap option_map].
  all: repeat (reads; alike_step).
  all: try (apply alike_ret; unfold same_digest, digest; cbn; rewrite ?Hf1, ?Hf2;
            reflexivity).
  all: repeat match goal with
              | H : same_or_missing ?e ?a, H' : same_or_missing ?e ?b |- _ =>
                  pose proof (same_or_missing_inj e a b H H'); subst b; clear H'
              end.
  all: match goal with
       | Hx : field ?m1 "fileMessageData" = Some ?f1,
         Hy : field ?m2 "fileMessageData" = Some ?f2
         |- alike _ (bind (media_branch _ _ _ ?q1 ?m1 _ _) _)
                    (bind (media_branch _ _ _ ?q2 ?m2 _ _) _) =>
           eapply alike_bind;
           [eapply (media_alike q1 q2 m1 m2 _ _ f1 f2);
            first [eassumption | eapply field_dict; eassumption]|]
       end.
  all: intros a b Hab; apply alike_ret; unfold same_digest; cbn; congruence.
Qed.

(** Two webhooks of the same journal entry are mapped alike. *)
Lemma equivalent_payloads_alike (api : Z) (entry p1 p2 : json) iid inc1 arch1 inc2 arch2 :
  live_equivalent api entry p1 -> live_equivalent api entry p2 ->
  alike same_digest (payload_to_msg MEDIA_ROOT N rt p1 iid inc1 arch1)
                    (payload_to_msg MEDIA_ROOT N rt p2 iid inc2 arch2).
Proof.
  intros (ty & wa & ts & chat & mtype & inst1 & sender1 & md1 & Hty & Hwa & Hwa1 & Hts &
          Hts1 & Hchat & Hs1 & Hc1 & Hn1 & Hi1 & Ha1 & Hmt & Hmd1 & Hty1 & Hcont1)
         (ty' & wa' & ts' & chat' & mtype' & inst2 & sender2 & md2 & Hty' & Hwa' & Hwa2 &
          Hts' & Hts2 & Hchat' & Hs2 & Hc2 & Hn2 & Hi2 & Ha2 & Hmt' & Hmd2 & Hty2 & Hcont2).
  pose proof (field_dict _ _ _ Hc1) as Hd1. pose proof (field_dict _ _ _ Hc2) as Hd2.
  assert (wa' = wa) by congruence. assert (ts' = ts) by congruence.
  assert (chat' = chat) by congruence. assert (mtype' = mtype) by congruence. subst.
  eapply (skeleton_alike p1 p2 md1 md2 sender1 sender2
            (shown_name (field entry "senderName")) chat wa ts mtype); try eassumption.
  intros msg1 msg2 Hw Hc Hf1 Hf2.
  eapply content_alike; eassumption.
Qed.

End Equivalence.




(** The two runs of the witness: an image message with one attachment and
    the caption as text, from the journal as from the webhook. *)
Lemma image_entry_example :
  exists payload m1 m2 w1 t1,
    history_entry_to_payload (Examples.image_entry "A1" "https://media.example/1" "one") 1101
    = Ok payload /\
    payload_to_msg "/app/media" Examples.ex_net_up Examples.ex_rt payload 1 true true
      Examples.ex_world = (Ok (Some m1), w1, t1) /\
    payload_to_msg "/app/media" Examples.ex_net_up Examples.ex_rt
      (Examples.image_message "A1" "https://media.example/1" "one") 1 true false
      Examples.ex_world = (Ok (Some m2), w1, t1) /\
    digest m1 = (MessageType.file_image, JStr "one", 1) /\
    digest m2 = (MessageType.file_image, JStr "one", 1).
Proof.
  eexists _, _, _, _, _.
  split; [vm_compute; reflexivity|].
  split; [vm_compute; reflexivity|].
  split; [vm_compute; reflexivity|].
  split; vm_compute; reflexivity.
Qed.

(** Why [live_equivalent] asks the webhook for its caption: the adapter
    writes an empty caption where the journal has none, and the text of the
    message is the caption; on a webhook that has no caption key the text
    is [None]. *)
Remark caption_key_matters :
  exists payload m1 m2 w1 t1,
    history_entry_to_payload Examples.bare_image_entry 1101 = Ok payload /\
    payload_to_msg "/app/media" Examples.ex_net_up Examples.ex_rt payload 1 true true
      Examples.ex_world = (Ok (Some m1), w1, t1) /\
    payload_to_msg "/app/media" Examples.ex_net_up Examples.ex_rt
      Examples.bare_image_message 1 true false Examples.ex_world = (Ok (Some m2), w1, t1) /\
    digest m1 = (MessageType.file_image, JStr empty_str, 1) /\
    digest m2 = (MessageType.file_image, JNull, 1).
Proof.
  eexists _, _, _, _, _.
  split; [vm_compute; reflexivity|].
  split; [vm_compute; reflexivity|].
  split; [vm_compute; reflexivity|].
  split; vm_compute; reflexivity.
Qed.

End HistoryProofs.

Module LimiterExtras.
Import Json Limiter Client Expected LimiterProofs.

(** Python's [round] stays within one half of its argument. *)
Lemma py_round_near x :
  (inject_Z (py_round x) - x <= 1 # 2)%Q /\ (x - inject_Z (py_round x) <= 1 # 2)%Q.
Proof.
  unfold py_round.
  pose proof (Qfloor_le x) as Hlo. pose proof (Qlt_floor x) as Hhi.
  assert (Hf1 : (inject_Z (Qfloor x + 1) == inject_Z (Qfloor x) + 1)%Q)
    by (rewrite inject_Z_plus; reflexivity).
  destruct (x - inject_Z (Qfloor x) ?= 1 # 2)%Q eqn:E.
  - apply Qeq_alt in E. destruct (Z.even (Qfloor x)); [|rewrite Hf1]; split; lra.
  - apply Qlt_alt in E. split; lra.
  - apply Qgt_alt in E. rewrite Hf1. split; lra.
Qed.

(** X1. [SmartLimiter(rps)] for a positive rate: the constructor succeeds, the
    limiter starts empty and unblocked, its [period] is positive and is the
    pace of its bucket. From one request per second on the period is
    [1 / rps]; below, the bucket admits one request per [round(1 / rps)]
    seconds, a whole number of seconds at least 1 and within half a second
    of [1 / rps]. A rate of zero raises [ZeroDivisionError]. *)
Theorem limiter_constructor_paces (rps : Q) :
  (0 < rps)%Q ->
  SmartLimiter_init 0 = Raise ZeroDivisionError /\
  exists l,
    SmartLimiter_init rps = Ok l /\
    _level l = 0%Q /\ _blocked_until l = None /\
    (0 < period l)%Q /\ (1 / _rate_per_sec l == period l)%Q /\
    ((1 <= rps)%Q -> (period l == 1 / rps)%Q /\ (_rate_per_sec l == rps)%Q) /\
    ((rps < 1)%Q ->
       exists n : Z, period l = inject_Z n /\ (1 <= n)%Z /\ max_rate l = 1%Q /\
         (period l - 1 / rps <= 1 # 2)%Q /\ (1 / rps - period l <= 1 # 2)%Q).
Proof.
  intros Hpos. split; [reflexivity|].
  unfold SmartLimiter_init.
  destruct (Qle_bool 1 rps) eqn:E.
  - apply Qle_bool_iff in E. eexists. split; [reflexivity|].
    cbn [_level _blocked_until period]. unfold _rate_per_sec. cbn [max_rate time_period].
    split; [reflexivity|]. split; [reflexivity|].
    split; [apply Qlt_shift_div_l; lra|].
    split; [field; lra|].
    split; [intros _; split; [reflexivity|field]|intros Hlt; lra].
  - apply Qle_bool_false in E.
    destruct (is_zero rps) eqn:Z; [apply Qeq_bool_iff in Z; lra|].
    assert (H1 : (1 <= py_round (1 / rps))%Z).
    { etransitivity; [|apply py_round_ge_floor].
      change 1%Z with (Qfloor 1) at 1. apply Qfloor_resp_le.
      apply Qle_shift_div_l; lra. }
    assert (H2 : (1 <= inject_Z (py_round (1 / rps)))%Q).
    { change 1%Q with (inject_Z 1). rewrite <- Zle_Qle. exact H1. }
    destruct (is_zero (inject_Z (py_round (1 / rps)))) eqn:Z2;
      [apply Qeq_bool_iff in Z2; lra|].
    eexists. split; [reflexivity|].
    cbn [_level _blocked_until period max_rate]. unfold _rate_per_sec.
    cbn [max_rate time_period].
    split; [reflexivity|]. split; [reflexivity|].
    split; [lra|]. split; [field; lra|].
    split; [intros Hge; lra|]. intros _.
    exists (py_round (1 / rps)). split; [reflexivity|]. split; [exact H1|].
    split; [reflexivity|]. apply py_round_near.
Qed.

Lemma limiter_constructor_paces_witness :
  SmartLimiter_init 0 = Raise ZeroDivisionError /\
  exists l,
    SmartLimiter_init (2 # 5) = Ok l /\
    _level l = 0%Q /\ _blocked_until l = None /\
    (0 < period l)%Q /\ (1 / _rate_per_sec l == period l)%Q /\
    ((1 <= 2 # 5)%Q -> (period l == 1 / (2 # 5))%Q /\ (_rate_per_sec l == 2 # 5)%Q) /\
    ((2 # 5 < 1)%Q ->
       exists n : Z, period l = inject_Z n /\ (1 <= n)%Z /\ max_rate l = 1%Q /\
         (period l - 1 / (2 # 5) <= 1 # 2)%Q /\ (1 / (2 # 5) - period l <= 1 # 2)%Q).
Proof. apply (limiter_constructor_paces (2 # 5)). reflexivity. Defined.

(** X2. [wait_slot] after [block]: the slot is granted, not before the block
    ends at [t0 + 1.5 * period] and not before [now], and at most one period
    after the later of the two. *)
Theorem wait_slot_honours_block (l : SmartLimiter) (t0 now : Q) :
  limiter_wf l now ->
  exists l' t,
    wait_slot 2 (block l t0) now = Some (Ok (l', t)) /\
    (t0 + period l * (3 # 2) <= t)%Q /\ (now <= t)%Q /\
    ((t <= now + period l)%Q \/ (t <= t0 + period l * (3 # 2) + period l)%Q).
Proof.
  intros Hwf. pose proof (wf_block l now t0 Hwf) as Hb.
  unfold wait_slot. cbn [block _blocked_until].
  pose proof Hb as [Hrate _ _ _ _ _]. apply Qle_bool_iff in Hrate.
  destruct (Qltb 0 (t0 + period l * (3 # 2) - now)) eqn:E.
  - apply Qltb_true in E.
    assert (Hwf' : limiter_wf (block l t0) (now + (t0 + period l * (3 # 2) - now)))
      by (eapply wf_mono; [exact Hb|lra]).
    destruct (acquire_loop_total _ _ Hwf') as (l' & t & Hacq & _ & Hle & Hub & _).
    unfold acquire. rewrite Hrate, Hacq. exists l', t. cbn [block period] in Hub.
    split; [reflexivity|]. split; [lra|]. split; [lra|]. right. lra.
  - apply Qltb_false in E.
    destruct (acquire_loop_total _ _ Hb) as (l' & t & Hacq & _ & Hle & Hub & _).
    unfold acquire. rewrite Hrate, Hacq. exists l', t. cbn [block period] in Hub.
    split; [reflexivity|]. split; [lra|]. split; [lra|]. left. lra.
Qed.

Lemma wait_slot_honours_block_witness :
  exists l' t,
    wait_slot 2 (block (mkLimiter 1 1 0 0 1 None) (1 # 10)) (1 # 10) = Some (Ok (l', t)) /\
    ((1 # 10) + period (mkLimiter 1 1 0 0 1 None) * (3 # 2) <= t)%Q /\ (1 # 10 <= t)%Q /\
    ((t <= (1 # 10) + period (mkLimiter 1 1 0 0 1 None))%Q \/
     (t <= (1 # 10) + period (mkLimiter 1 1 0 0 1 None) * (3 # 2)
           + period (mkLimiter 1 1 0 0 1 None))%Q).
Proof.
  apply (wait_slot_honours_block (mkLimiter 1 1 0 0 1 None) (1 # 10) (1 # 10)).
  constructor; simpl; unfold Qle, Qlt, Qeq; simpl; lia.
Defined.

(** X3. [_get_limiter] builds the limiter of an endpoint once, from the rate of
    the table or the default rate, and hands the same one out afterwards:
    to every endpoint with the same first path segment, and without
    touching the limiters of the others. *)
Theorem get_limiter_caches (METHOD_RPS : gmap string Q) (DEFAULT_RPS : Q)
    (c : GreenAPIClient) (method : string) :
  (0 < DEFAULT_RPS)%Q ->
  (forall k v, METHOD_RPS !! k = Some v -> (0 < v)%Q) ->
  exists l c1,
    _get_limiter METHOD_RPS DEFAULT_RPS c method = Ok (l, c1) /\
    _limiters c1 !! split_first "/" method = Some l /\
    (_limiters c !! split_first "/" method = None ->
       SmartLimiter_init (default DEFAULT_RPS (METHOD_RPS !! split_first "/" method)) = Ok l) /\
    (forall k, k <> split_first "/" method -> _limiters c1 !! k = _limiters c !! k) /\
    (forall m', split_first "/" m' = split_first "/" method ->
       _get_limiter METHOD_RPS DEFAULT_RPS c1 m' = Ok (l, c1)).
Proof.
  intros Hdef Htab. unfold _get_limiter at 1.
  destruct (_limiters c !! split_first "/" method) as [l|] eqn:E.
  - exists l, c. split; [reflexivity|]. split; [exact E|].
    split; [discriminate|]. split; [reflexivity|].
    intros m' Hm'. unfold _get_limiter. rewrite Hm', E. reflexivity.
  - assert (Hpos : (0 < default DEFAULT_RPS (METHOD_RPS !! split_first "/" method))%Q).
    { destruct (METHOD_RPS !! split_first "/" method) eqn:E2; cbn; eauto. }
    destruct (init_wf _ 0 Hpos ltac:(lra)) as (l & Hl & _). rewrite Hl. cbn.
    eexists _, _. split; [reflexivity|]. cbn [_limiters set_limiters].
    split; [apply lookup_insert_eq|]. split; [intros _; reflexivity|].
    split; [intros k Hk; apply lookup_insert_ne; congruence|].
    intros m' Hm'. unfold _get_limiter. cbn [_limiters set_limiters].
    rewrite Hm', lookup_insert_eq. reflexivity.
Qed.

Lemma get_limiter_caches_witness :
  exists l c1,
    _get_limiter {[ "sendMessage" := (5 # 1)%Q ]} 1 Examples.ex_client "sendMessage/x"
    = Ok (l, c1) /\
    _limiters c1 !! split_first "/" "sendMessage/x" = Some l /\
    (_limiters Examples.ex_client !! split_first "/" "sendMessage/x" = None ->
       SmartLimiter_init
         (default 1%Q (({[ "sendMessage" := (5 # 1)%Q ]} : gmap string Q)
                         !! split_first "/" "sendMessage/x")) = Ok l) /\
    (forall k, k <> split_first "/" "sendMessage/x" ->
       _limiters c1 !! k = _limiters Examples.ex_client !! k) /\
    (forall m', split_first "/" m' = split_first "/" "sendMessage/x" ->
       _get_limiter {[ "sendMessage" := (5 # 1)%Q ]} 1 c1 m' = Ok (l, c1)).
Proof.
  apply (get_limiter_caches {[ "sendMessage" := (5 # 1)%Q ]} 1 Examples.ex_client
           "sendMessage/x").
  - reflexivity.
  - intros k v H. apply lookup_singleton_Some in H as [_ <-]. reflexivity.
Defined.

End LimiterExtras.

Module MappingExtras.
Import Json Models Store Eff GreenMsg Runs Expected EffFacts MappingFacts StoreFacts.
Import DownloadProofs OverwriteProofs.
Local Open Scope eff_scope.

(** Runs a read whose result is known. *)
Ltac run_lift :=
  rewrite ?bind_assoc; erewrite bind_lift_ok by (first [eassumption | reflexivity]).

Section Download.
Variable MEDIA_ROOT : string.
Variable N : Net.
Variable rt : Runtime.

Lemma download_loop_succeeds url local data backoff : forall k n a w,
  k <= n -> a + k <= 3 ->
  (forall j, j < k -> failing (fetch N url (a + j))) ->
  fetch N url (a + k) = Fetched data -> data <> empty_str ->
  exists t,
    download_loop N (S n) 3 backoff url local a w
    = (Ok (Some (local, Z.of_nat (String.length data))),
       mkWorld (db w) (<[local := data]> (fs w)), t) /\
    attempts t = S k.
Proof.
  induction k as [|k IH]; intros n a w Hn Ha Hfail Hok Hdata.
  - rewrite Nat.add_0_r in Hok. cbn [download_loop]. rewrite Hok.
    cbv beta iota zeta delta [bind emit write_file ret app db fs].
    rewrite (length_nonempty _ Hdata). eexists. split; reflexivity.
  - pose proof (Hfail 0 ltac:(lia)) as H0. rewrite Nat.add_0_r in H0.
    rewrite (failed_round N _ _ _ _ _ _ _ H0).
    replace (3 <? S a)%nat with false by (symmetry; apply Nat.ltb_ge; lia).
    destruct n as [|n]; [lia|].
    destruct (IH n (S a) (without_file local w)) as (t & Hrun & Hatt).
    + lia.
    + lia.
    + intros j Hj. replace (S a + j) with (a + S j) by lia. apply Hfail. lia.
    + replace (S a + k) with (a + S k) by lia. exact Hok.
    + exact Hdata.
    + rewrite Hrun. eexists. split.
      * unfold without_file. cbn [db fs]. rewrite insert_delete_eq. reflexivity.
      * rewrite attempts_app, Hatt. reflexivity.
Qed.

(** X4. [download_safe] retries until a body arrives: when the first [k]
    attempts fail in a way the loop catches (or bring no byte) and the next
    one, at most the fourth, brings [data], the file holds [data], the
    result is its path and size, and [k + 1] requests were made. *)
Theorem download_succeeds_after_failures (url fname data : string) (k : nat) (w : world) :
  url <> empty_str -> is_blank url = false ->
  k <= 3 ->
  (forall j, j < k -> failing (fetch N url j)) ->
  fetch N url k = Fetched data -> data <> empty_str ->
  exists t,
    download_safe MEDIA_ROOT N (JStr url) (JStr fname) w
    = (Ok (Some (path_join (MEDIA_ROOT +:+ "/" +:+ utc_month N) fname,
                 Z.of_nat (String.length data))),
       mkWorld (db w)
               (<[path_join (MEDIA_ROOT +:+ "/" +:+ utc_month N) fname := data]> (fs w)),
       t) /\
    attempts t = S k.
Proof.
  intros Hurl Hblank Hk Hfail Hok Hdata. unfold download_safe.
  rewrite (truthy_str _ Hurl), Hblank. cbn [negb].
  apply (download_loop_succeeds url _ data (3 # 2) k 3 0 w); auto; lia.
Qed.

(** X5. An exception of a class the loop does not catch (a [RuntimeError],
    as of a closed session) leaves [download_safe] on the first attempt:
    nothing is retried, nothing is logged, and what was written of the
    file stays on the disk. *)
Theorem download_lets_other_errors_out (url fname part msg : string) (w : world) :
  url <> empty_str -> is_blank url = false ->
  (fetch N url 0 = Refused (RuntimeError msg) ->
     download_safe MEDIA_ROOT N (JStr url) (JStr fname) w
     = (Raise (RuntimeError msg), w, [ HttpGet url ])) /\
  (fetch N url 0 = Broken part (RuntimeError msg) ->
     download_safe MEDIA_ROOT N (JStr url) (JStr fname) w
     = (Raise (RuntimeError msg),
        mkWorld (db w)
                (<[path_join (MEDIA_ROOT +:+ "/" +:+ utc_month N) fname := part]> (fs w)),
        [ HttpGet url ])).
Proof.
  intros Hurl Hblank. unfold download_safe.
  rewrite (truthy_str _ Hurl), Hblank. cbn [negb download_loop].
  split; intros ->; reflexivity.
Qed.

(** X6. [payload_to_msg] never inserts or changes a message row, an instance
    or a notification, and never removes a conversation, whatever the
    payload and whether it returns or raises. *)
Theorem mapping_leaves_messages_alone (payload : json) (iid : Z) (incoming archived : bool)
    (w : world) :
  messages (db (world_after (payload_to_msg MEDIA_ROOT N rt payload iid incoming archived w)))
  = messages (db w) /\
  instances (db (world_after (payload_to_msg MEDIA_ROOT N rt payload iid incoming archived w)))
  = instances (db w) /\
  notified (db (world_after (payload_to_msg MEDIA_ROOT N rt payload iid incoming archived w)))
  = notified (db w) /\
  next_id (db (world_after (payload_to_msg MEDIA_ROOT N rt payload iid incoming archived w)))
  = next_id (db w) /\
  exists l,
    conversations
      (db (world_after (payload_to_msg MEDIA_ROOT N rt payload iid incoming archived w)))
    = conversations (db w) ++ l.
Proof.
  apply (payload_to_msg_keeps MEDIA_ROOT N rt
           (fun d => messages d = messages (db w) /\ instances d = instances (db w) /\
                     notified d = notified (db w) /\ next_id d = next_id (db w) /\
                     exists l, conversations d = conversations (db w) ++ l)).
  - intros d i chat phone name c d' (H1 & H2 & H3 & H4 & l & H5) E.
    destruct (get_or_create_messages _ _ _ _ _ _ _ E) as (-> & -> & -> & ->).
    repeat (split; [assumption|]).
    unfold get_or_create_conversation in E.
    destruct (List.find _ _); [injection E as _ <-; eauto|].
    destruct (as_text_not_null _); [|discriminate]. cbn in E. injection E as _ <-.
    cbn. rewrite H5, <- app_assoc. eauto.
  - repeat (split; [reflexivity|]). exists []. symmetry. apply app_nil_r.
Qed.

Lemma media_branch_envelope payload mdata msg cls :
  returns (media_branch MEDIA_ROOT N rt payload mdata msg cls) (same_envelope msg).
Proof.
  unfold media_branch. destruct cls.
  repeat first [returns_step
               | apply returns_ret; unfold same_envelope; cbn;
                 rewrite ?length_app; cbn; repeat split; lia].
Qed.

(** X7. Every message [payload_to_msg] returns carries the instance it was
    given and the payload's [idMessage], has the status [incoming], is not
    from the app, has the direction and the archive flag of the call, and
    at most one file. *)
Theorem mapped_message_envelope (payload : json) (iid : Z) (incoming archived : bool)
    (w w' : world) (t : list event) (m : Message) :
  payload_to_msg MEDIA_ROOT N rt payload iid incoming archived w = (Ok (Some m), w', t) ->
  instance_id m = iid /\
  getitem payload "idMessage" = Ok (wa_message_id m) /\
  status m = MessageStatus.incoming /\ from_app m = false /\
  direction m = (if incoming then MessageDirection.inc else MessageDirection.out) /\
  is_archived m = archived /\
  length (files m) <= 1.
Proof.
  intros Hrun. revert m Hrun.
  enough (H : returns (payload_to_msg MEDIA_ROOT N rt payload iid incoming archived)
                (fun r => forall m, r = Some m ->
                   instance_id m = iid /\
                   getitem payload "idMessage" = Ok (wa_message_id m) /\
                   status m = MessageStatus.incoming /\ from_app m = false /\
                   direction m
                   = (if incoming then MessageDirection.inc else MessageDirection.out) /\
                   is_archived m = archived /\
                   length (files m) <= 1))
    by (intros m Hrun; exact (H _ _ _ _ Hrun m eq_refl)).
  unfold payload_to_msg, message_content.
  do 3 returns_step. returns_step; [apply returns_ret; discriminate|].
  do 3 returns_step. returns_step. returns_step.
  do 5 returns_step.
  repeat first
    [ eapply returns_bind; [apply media_branch_envelope|intros ? ?]
    | returns_step
    | apply returns_ret; intros ? [= <-];
      repeat match goal with
             | H : same_envelope _ _ |- _ =>
                 destruct H as (? & ? & ? & ? & ? & ? & ? & ? & ? & ? & ?)
             end;
      cbn in *; repeat split; first [congruence | lia] ].
Qed.

(** X8. A download that fails takes the file with it: what
    [MEDIA_ROOT/<yyyy>/<mm>/<fname>] held before the call (the file of an
    earlier message with the same name) is removed, the rest of the disk
    and the store stay as they were. *)
Theorem failed_download_removes_earlier_file (url fname old : string) (w : world) :
  url <> empty_str -> is_blank url = false ->
  (forall k, failing (fetch N url k)) ->
  fs w !! path_join (MEDIA_ROOT +:+ "/" +:+ utc_month N) fname = Some old ->
  exists w' t,
    download_safe MEDIA_ROOT N (JStr url) (JStr fname) w = (Ok None, w', t) /\
    fs w' !! path_join (MEDIA_ROOT +:+ "/" +:+ utc_month N) fname = None /\
    (forall p, p <> path_join (MEDIA_ROOT +:+ "/" +:+ utc_month N) fname ->
               fs w' !! p = fs w !! p) /\
    db w' = db w.
Proof.
  intros Hurl Hblank Hfail Hold.
  eexists _, _. split.
  { unfold download_safe. rewrite (truthy_str _ Hurl), Hblank. cbn [negb].
    apply download_loop_gives_up. exact Hfail. }
  unfold without_file. cbn [fs db]. split; [apply lookup_delete_eq|].
  split; [|reflexivity].
  intros p Hp. apply lookup_delete_ne. congruence.
Qed.

End Download.

Lemma failed_download_removes_earlier_file_witness :
  exists w' t,
    download_safe "/app/media" Examples.ex_net_down (JStr "https://media.example/1")
      (JStr "a.jpg") Examples.ex_outbox_world = (Ok None, w', t) /\
    fs w' !! path_join ("/app/media" +:+ "/" +:+ utc_month Examples.ex_net_down) "a.jpg"
    = None /\
    (forall p, p <> path_join ("/app/media" +:+ "/" +:+ utc_month Examples.ex_net_down) "a.jpg" ->
               fs w' !! p = fs Examples.ex_outbox_world !! p) /\
    db w' = db Examples.ex_outbox_world.
Proof.
  apply (failed_download_removes_earlier_file "/app/media" Examples.ex_net_down
           "https://media.example/1" "a.jpg" "jpeg!" Examples.ex_outbox_world).
  - discriminate.
  - reflexivity.
  - intros k. reflexivity.
  - reflexivity.
Defined.

Lemma mapped_message_envelope_witness :
  exists m w' t,
    payload_to_msg "/app/media" Examples.ex_net_up Examples.ex_rt Examples.text_message 1
      true false Examples.ex_world = (Ok (Some m), w', t) /\
    instance_id m = 1%Z /\
    getitem Examples.text_message "idMessage" = Ok (wa_message_id m) /\
    status m = MessageStatus.incoming /\ from_app m = false /\
    direction m = MessageDirection.inc /\ is_archived m = false /\
    length (files m) <= 1.
Proof.
  eexists _, _, _. split; [vm_compute; reflexivity|].
  eapply (mapped_message_envelope "/app/media" Examples.ex_net_up Examples.ex_rt
            Examples.text_message 1 true false Examples.ex_world).
  vm_compute. reflexivity.
Defined.

Lemma download_succeeds_after_failures_witness :
  exists t,
    download_safe "/app/media" Examples.ex_net_slow (JStr "https://media.example/1")
      (JStr "photo.jpg") Examples.ex_world
    = (Ok (Some (path_join ("/app/media" +:+ "/" +:+ utc_month Examples.ex_net_slow)
                   "photo.jpg",
                 Z.of_nat (String.length "third time"))),
       mkWorld (db Examples.ex_world)
               (<[path_join ("/app/media" +:+ "/" +:+ utc_month Examples.ex_net_slow)
                    "photo.jpg" := "third time"]> (fs Examples.ex_world)),
       t) /\
    attempts t = 3.
Proof.
  apply (download_succeeds_after_failures "/app/media" Examples.ex_net_slow
           "https://media.example/1" "photo.jpg" "third time" 2 Examples.ex_world).
  - discriminate.
  - reflexivity.
  - lia.
  - intros [|[|j]] Hj; [reflexivity|reflexivity|lia].
  - reflexivity.
  - discriminate.
Defined.

Lemma download_lets_other_errors_out_witness :
  (fetch Examples.ex_net_cut "https://media.example/1" 0 = Refused (RuntimeError "closed") ->
     download_safe "/app/media" Examples.ex_net_cut (JStr "https://media.example/1")
       (JStr "photo.jpg") Examples.ex_world
     = (Raise (RuntimeError "closed"), Examples.ex_world,
        [ HttpGet "https://media.example/1" ])) /\
  (fetch Examples.ex_net_cut "https://media.example/1" 0
   = Broken "par" (RuntimeError "closed") ->
     download_safe "/app/media" Examples.ex_net_cut (JStr "https://media.example/1")
       (JStr "photo.jpg") Examples.ex_world
     = (Raise (RuntimeError "closed"),
        mkWorld (db Examples.ex_world)
                (<[path_join ("/app/media" +:+ "/" +:+ utc_month Examples.ex_net_cut)
                     "photo.jpg" := "par"]> (fs Examples.ex_world)),
        [ HttpGet "https://media.example/1" ])).
Proof.
  apply (download_lets_other_errors_out "/app/media" Examples.ex_net_cut
           "https://media.example/1" "photo.jpg" "par" "closed" Examples.ex_world).
  - discriminate.
  - reflexivity.
Defined.

End MappingExtras.

Module WebhookExtras.
Import Json Models Store Eff GreenMsg Webhook Runs Expected EffFacts MappingFacts StoreFacts.
Import DedupProofs StatusProofs DownloadProofs.
Local Open Scope eff_scope.

(** ** Invariants of the store that every handler keeps *)

Section Invariant.
Variable MEDIA_ROOT : string.
Variable N : Net.
Variable rt : Runtime.
Variable bot_send_message : Z -> string -> outcome unit.

Variable P : DB -> Prop.

Hypothesis conv_stable :
  forall d iid chat phone name c d',
    P d -> get_or_create_conversation d iid chat phone name = Ok (c, d') -> P d'.
Hypothesis insert_stable :
  forall m d d', P d -> insert_message m d = Ok d' -> P d'.
Hypothesis status_stable : forall mid st d, P d -> P (commit_status mid st d).
Hypothesis text_stable : forall mid txt d, P d -> P (commit_text mid txt d).
Hypothesis state_stable : forall iid s d, P d -> P (set_instance_state iid s d).

Ltac stable_step :=
  first
    [ apply (payload_to_msg_keeps MEDIA_ROOT N rt P conv_stable)
    | apply keeps_with_db; intros ? ? ? ? ?; eapply conv_stable; eauto
    | apply keeps_commit; intros ? ? ? ?; unfold on_store in *; cbn [db];
      first [ solve [eapply insert_stable; eauto]
            | match goal with H : Ok _ = Ok _ |- _ => injection H as <- end;
              first [apply status_stable | apply text_stable | apply state_stable];
              assumption ]
    | keeps_step ].

Lemma handlers_keep kind fn :
  table_get (_HANDLERS MEDIA_ROOT N rt bot_send_message) kind = Ok (Some fn) ->
  forall payload, keeps (on_store P) (fn payload).
Proof.
  unfold table_get, _HANDLERS. destruct kind as [| | | |s| |]; try discriminate.
  cbn [List.find fst snd].
  repeat match goal with
         | |- context [String.eqb ?a ?b] => destruct (String.eqb a b)
         end;
    cbn; intros [= <-] payload;
    unfold _handle_incoming, _handle_outgoing, _handle_call, _handle_status,
      _handle_state, notify_send_error, resolve, select_wa;
    repeat stable_step.
Qed.

Lemma webhook_keeps payload :
  keeps (on_store P) (green_webhook MEDIA_ROOT N rt bot_send_message payload).
Proof.
  unfold green_webhook. apply keeps_bind; [apply keeps_lift|intros kind].
  intros w Hw. cbn beta.
  destruct (table_get (_HANDLERS MEDIA_ROOT N rt bot_send_message) kind) as [[fn|]|e] eqn:E.
  - erewrite bind_lift_ok by reflexivity. eapply handlers_keep; eauto.
  - erewrite bind_lift_ok by reflexivity. exact Hw.
  - erewrite bind_lift_raise by reflexivity. exact Hw.
Qed.

End Invariant.

Lemma grown_refl rows : grown rows rows.
Proof.
  exists rows, []. split; [by rewrite app_nil_r|].
  induction rows as [|r rows IH]; constructor; [|exact IH].
  unfold same_row. by destruct r.
Qed.

Lemma grown_snoc old rows row : grown old rows -> grown old (rows ++ [row]).
Proof.
  intros (kept & added & -> & H). exists kept, (added ++ [row]).
  split; [by rewrite app_assoc|exact H].
Qed.

Lemma grown_update old rows (g : Row -> Row) :
  (forall o r, same_row o r -> same_row o (g r)) ->
  grown old rows -> grown old (map g rows).
Proof.
  intros Hg (kept & added & -> & H). exists (map g kept), (map g added).
  split; [apply map_app|].
  induction H as [|o r old kept Hr H IH]; constructor; auto.
Qed.

(** X9. No webhook, whatever it carries and however its handler ends, removes a
    message row, moves one, or changes anything of a stored row but its
    status and its text: the table afterwards is the old rows, in place,
    followed by the rows the handler added. *)
Theorem webhook_never_drops_rows (MEDIA_ROOT : string) (N : Net) (rt : Runtime)
    (bot_send_message : Z -> string -> outcome unit) (payload : json) (w : world) :
  grown (messages (db w))
        (messages (db (world_after
                         (green_webhook MEDIA_ROOT N rt bot_send_message payload w)))).
Proof.
  apply (webhook_keeps MEDIA_ROOT N rt bot_send_message
           (fun d => grown (messages (db w)) (messages d))).
  - intros d iid chat phone name c d' H E.
    destruct (get_or_create_messages _ _ _ _ _ _ _ E) as (-> & _). exact H.
  - intros m d d' H E. destruct (insert_message_ok _ _ _ E) as (row & -> & _).
    apply grown_snoc, H.
  - intros mid st d H. cbn. apply grown_update; [|exact H].
    intros o r Hr. destruct (r_id r =? mid)%Z; [|exact Hr].
    unfold same_row in *. rewrite <- Hr at 3. by destruct r.
  - intros mid txt d H. cbn. apply grown_update; [|exact H].
    intros o r Hr. destruct (r_id r =? mid)%Z; [|exact Hr].
    unfold same_row in *. rewrite <- Hr at 3. by destruct r.
  - intros iid s d H. exact H.
  - apply grown_refl.
Qed.

(** ** Calls *)

Ltac run_lift :=
  rewrite ?bind_assoc; erewrite bind_lift_ok by (first [eassumption | reflexivity]).

Lemma bind_with_db_ok {A B} (f : DB -> outcome (A * DB)) (k : A -> M B) w a d :
  f (db w) = Ok (a, d) -> bind (with_db f) k w = k a (mkWorld d (fs w)).
Proof.
  intros H. unfold bind, with_db. rewrite H.
  destruct (k a _) as [[r w2] t2]. reflexivity.
Qed.

Lemma call_human rt s :
  "📞 " +:+ py_str rt match snd <$> List.find (fun kv => String.eqb (fst kv) s)
                                   _CALL_STATUS_HUMAN with
                      | Some h => JStr h
                      | None => JStr s
                      end
  = call_text s.
Proof. unfold call_text. destruct (List.find _ _); reflexivity. Qed.

Section Call.
Variable rt : Runtime.
Variables (api : Z) (wa from phone gtype : string) (inst : Z).
Hypothesis Hfrom : rsplit1 "@" from = [ phone; gtype ].

Local Abbreviation shown := (if strips_to "g.us" gtype then phone +:+ " (group)" else phone).

Lemma call_run s row w :
  resolve_internal_id (JInt api) (db w) = Ok (Some inst) ->
  select_by_wa inst (JStr wa) (db w) = Ok row ->
  exists conv d',
    get_or_create_conversation (db w) inst from (split_first "@" from)
      (JStr (split_first "@" from)) = Ok (conv, d') /\
    _handle_call rt (call_webhook api wa from s) w
    = try_except
        (match row with
         | None =>
             commit (insert_message
                       (mkMessage inst (Some (c_id conv)) (JStr wa) from (JStr shown)
                          JNull false MessageDirection.inc MessageStatus.incoming
                          MessageType.call (JStr (call_text s)) false []))
         | Some r => commit (fun d => Ok (commit_text (r_id r) (call_text s) d))
         end)
        is_integrity (fun _ => emit Rollback) (mkWorld d' (fs w)).
Proof.
  intros Hres Hsel.
  destruct (conversation_found (db w) inst from (split_first "@" from))
    as (conv & d' & Hconv & _).
  exists conv, d'. split; [exact Hconv|].
  unfold _handle_call, call_webhook, resolve, select_wa.
  run_lift. run_lift. run_lift. run_lift.
  erewrite bind_lift_ok by (unfold rsplit_at; cbn; rewrite Hfrom; reflexivity).
  cbn iota beta. run_lift.
  rewrite (bind_query_ok _ _ _ _ Hres). cbn iota beta.
  rewrite (bind_query_ok _ _ _ _ Hsel).
  rewrite (bind_with_db_ok _ _ _ _ _ Hconv).
  rewrite call_human. reflexivity.
Qed.

End Call.

Lemma find_none_exists {A} (p : A -> bool) (l : list A) :
  List.find p l = None -> existsb p l = false.
Proof.
  induction l as [|a l IH]; [reflexivity|]. cbn. destruct (p a); [discriminate|exact IH].
Qed.

Lemma find_app_none {A} (p : A -> bool) (l l' : list A) :
  List.find p l = None -> List.find p (l ++ l') = List.find p l'.
Proof.
  induction l as [|a l IH]; [reflexivity|]. cbn. destruct (p a); [discriminate|exact IH].
Qed.

(** X10. A call is one record: the first [incomingCall] webhook of a call
    stores a row of type call, which the trigger announces on [msg_in];
    a later webhook with the same [idMessage] rewrites the text of that
    row with the new stage, adds no row and announces nothing. *)
Theorem call_offer_then_final (rt : Runtime) (api : Z) (wa from phone gtype : string)
    (inst : Z) (s1 s2 : string) (w : world) :
  rsplit1 "@" from = [ phone; gtype ] ->
  resolve_internal_id (JInt api) (db w) = Ok (Some inst) ->
  select_by_wa inst (JStr wa) (db w) = Ok None ->
  exists row w1 w2,
    _handle_call rt (call_webhook api wa from s1) w = (Ok tt, w1, []) /\
    messages (db w1) = messages (db w) ++ [ row ] /\
    r_instance_id row = inst /\ r_wa_message_id row = Some wa /\
    r_message_type row = MessageType.call /\
    r_direction row = MessageDirection.inc /\
    r_text row = Some (call_text s1) /\
    notified (db w1) = notified (db w) ++ [ (msg_in, r_id row) ] /\
    _handle_call rt (call_webhook api wa from s2) w1 = (Ok tt, w2, []) /\
    select_by_wa inst (JStr wa) (db w2)
    = Ok (Some (row_with_text row (Some (call_text s2)))) /\
    length (messages (db w2)) = length (messages (db w1)) /\
    notified (db w2) = notified (db w1).
Proof.
  intros Hfrom Hres Hsel.
  destruct (call_run rt api wa from phone gtype inst Hfrom s1 None w Hres Hsel)
    as (conv & d' & Hconv & Hrun1).
  destruct (get_or_create_messages _ _ _ _ _ _ _ Hconv) as (Hm & Hi & Hn & Hnot).
  assert (Hnone : List.find (wa_matches inst (Some wa)) (messages (db w)) = None).
  { unfold select_by_wa in Hsel. cbn in Hsel. congruence. }
  set (row := mkRow (next_id d') inst (Some (c_id conv)) (Some wa) None from
                (if strips_to "g.us" gtype then phone +:+ " (group)" else phone)
                JNull false MessageDirection.inc MessageStatus.incoming MessageType.call
                (Some (call_text s1)) false []).
  set (d1 := mkDB (instances d') (conversations d') (messages d' ++ [ row ])
               (next_id d' + 1)%Z (next_conv_id d') (notified d' ++ triggers row)).
  assert (Hins : insert_message
                   (mkMessage inst (Some (c_id conv)) (JStr wa) from
                      (JStr (if strips_to "g.us" gtype then phone +:+ " (group)" else phone))
                      JNull false MessageDirection.inc MessageStatus.incoming
                      MessageType.call (JStr (call_text s1)) false []) d' = Ok d1).
  { assert (Hc : existsb (wa_matches inst (Some wa)) (messages d') = false)
      by (rewrite Hm; apply find_none_exists, Hnone).
    unfold insert_message. cbn. rewrite Hc. reflexivity. }
  assert (Hres1 : resolve_internal_id (JInt api) d1 = Ok (Some inst)).
  { rewrite <- Hres. apply resolve_instances. exact Hi. }
  assert (Hsel1 : select_by_wa inst (JStr wa) d1 = Ok (Some row)).
  { unfold select_by_wa. cbn. rewrite Hm, (find_app_none _ _ _ Hnone). cbn.
    unfold wa_matches, row. cbn. rewrite Z.eqb_refl, String.eqb_refl. reflexivity. }
  destruct (call_run rt api wa from phone gtype inst Hfrom s2 (Some row)
              (mkWorld d1 (fs w)) Hres1 Hsel1) as (conv2 & d2 & Hconv2 & Hrun2).
  destruct (get_or_create_messages _ _ _ _ _ _ _ Hconv2) as (Hm2 & Hi2 & Hn2 & Hnot2).
  cbn [db fs] in *.
  exists row, (mkWorld d1 (fs w)),
    (mkWorld (commit_text (r_id row) (call_text s2) d2) (fs w)).
  split.
  { rewrite Hrun1. unfold try_except, commit. cbn [db fs]. rewrite Hins. reflexivity. }
  split; [cbn; by rewrite Hm|].
  do 5 (split; [reflexivity|]).
  split; [cbn; by rewrite Hnot|].
  split.
  { rewrite Hrun2. reflexivity. }
  split.
  { unfold select_by_wa. cbn. unfold update_row. rewrite find_map_stable.
    - rewrite Hm2. unfold select_by_wa in Hsel1. cbn in Hsel1.
      injection Hsel1 as Hsel1. change (messages d1) with (messages d' ++ [ row ]).
      rewrite Hsel1. cbn. rewrite Z.eqb_refl. reflexivity.
    - intros r. destruct (r_id r =? next_id d')%Z; reflexivity. }
  split.
  { cbn. unfold update_row. rewrite length_map, Hm2. reflexivity. }
  cbn. exact Hnot2.
Qed.

(** ** Messages of an instance the panel does not know *)

(** X11. A message webhook (incoming, or the echo of an outgoing one) of an
    account that is not in the instance table is answered and dropped:
    one warning, no download, no conversation, no row. *)
Theorem unknown_instance_is_ignored (MEDIA_ROOT : string) (N : Net) (rt : Runtime)
    (bot_send_message : Z -> string -> outcome unit)
    (payload api wa : json) (kind : string) (w : world) :
  get payload "typeWebhook" = Ok (JStr kind) ->
  In kind [ "incomingMessageReceived"; "outgoingMessageReceived";
            "outgoingAPIMessageReceived" ] ->
  instance_of payload = Ok api ->
  getitem payload "idMessage" = Ok wa ->
  resolve_internal_id api (db w) = Ok None ->
  green_webhook MEDIA_ROOT N rt bot_send_message payload w = (Ok tt, w, unknown_instance).
Proof.
  intros Hkind Hin Hinst Hwa Hres. unfold green_webhook.
  rewrite (bind_lift_ok _ _ _ _ Hkind).
  destruct Hin as [<-|[<-|[<-|[]]]];
    (erewrite bind_lift_ok by reflexivity);
    unfold _HANDLERS; cbn [List.find fst snd String.eqb Ascii.eqb Bool.eqb fmap option_fmap
                           option_map];
    unfold _handle_incoming, _handle_outgoing, resolve;
    rewrite (bind_lift_ok _ _ _ _ Hinst), ?(bind_lift_ok _ _ _ _ Hwa),
      (bind_query_ok _ _ _ _ Hres); reflexivity.
Qed.

(** X12. A webhook of a kind without a handler (or without the [typeWebhook]
    key) is logged and answered; nothing is stored. *)
Theorem unhandled_webhook_is_logged (MEDIA_ROOT : string) (N : Net) (rt : Runtime)
    (bot_send_message : Z -> string -> outcome unit)
    (items : list (string * json)) (w : world) :
  match assoc "typeWebhook" items with
  | Some (JStr kind) =>
      ~ In kind [ "incomingCall"; "outgoingMessageReceived"; "outgoingAPIMessageReceived";
                  "outgoingMessageStatus"; "stateInstanceChanged";
                  "incomingMessageReceived" ]
  | Some (JList _) | Some (JDict _) => False
  | _ => True
  end ->
  green_webhook MEDIA_ROOT N rt bot_send_message (JDict items) w
  = (Ok tt, w, [ Log warning "Unhandled webhook %s" ]).
Proof.
  intros H. unfold green_webhook, get, get_default.
  destruct (assoc "typeWebhook" items) as [[| | | |kind| |]|]; try contradiction;
    try reflexivity.
  erewrite bind_lift_ok by reflexivity.
  assert (Hnone : table_get (_HANDLERS MEDIA_ROOT N rt bot_send_message) (JStr kind)
                  = Ok None).
  { unfold table_get, _HANDLERS. cbn [List.find fst snd].
    repeat match goal with
           | |- context [String.eqb ?a ?b] =>
               destruct (String.eqb_spec a b) as [?|?];
                 [exfalso; apply H; subst kind; cbn; tauto|]
           end.
    reflexivity. }
  rewrite (bind_lift_ok _ _ _ _ Hnone). reflexivity.
Qed.

(** ** The echo of an outgoing message *)

Section Echo.
Variable MEDIA_ROOT : string.
Variable N : Net.
Variable rt : Runtime.

Lemma text_webhook_maps kind api wa chat phone gtype ts body iid incoming archived w :
  rsplit1 "@" chat = [ phone; gtype ] ->
  exists conv d',
    get_or_create_conversation (db w) iid chat phone (JStr phone) = Ok (conv, d') /\
    payload_to_msg MEDIA_ROOT N rt (text_webhook kind api wa chat ts body) iid incoming
      archived w
    = (Ok (Some (mkMessage iid (Some (c_id conv)) (JStr wa) chat (JStr phone) (JInt ts)
                   false
                   (if incoming then MessageDirection.inc else MessageDirection.out)
                   MessageStatus.incoming MessageType.text (JStr body) archived [])),
       mkWorld d' (fs w), []).
Proof.
  intros Hchat.
  destruct (conversation_found (db w) iid chat phone) as (conv & d' & Hconv & _).
  exists conv, d'. split; [exact Hconv|].
  unfold payload_to_msg, text_webhook.
  run_lift. run_lift. run_lift.
  cbn [existsb _IGNORE_MTYPE String.eqb Ascii.eqb Bool.eqb orb].
  run_lift. run_lift.
  erewrite bind_lift_ok by (unfold rsplit_at; cbn; rewrite Hchat; reflexivity).
  cbn iota beta. run_lift.
  unfold py_or at 1. cbn [assoc String.eqb Ascii.eqb Bool.eqb truthy].
  rewrite (bind_with_db_ok _ _ _ _ _ Hconv).
  run_lift. run_lift. run_lift. unfold message_content. run_lift.
  cbn [existsb text_types String.eqb Ascii.eqb Bool.eqb orb is_str].
  run_lift. run_lift. reflexivity.
Qed.



End Echo.

(** ** The state of an instance *)

Lemma state_eqb_neq a b : a <> b -> state_eqb a b = false.
Proof. destruct a, b; intros H; try reflexivity; contradiction. Qed.

(** X14. A [stateInstanceChanged] webhook with a state other than the stored
    one: the new state is stored and one message is sent to the channel of
    the instance; when Telegram refuses the message the failure is logged
    and the state stays stored. A second delivery of the same webhook does
    nothing. *)
Theorem state_change_is_stored_and_told (rt : Runtime)
    (bot_send_message : Z -> string -> outcome unit)
    (api : Z) (state : string) (new_state : InstanceState.t) (inst : Instance)
    (w : world) :
  instance_state_of (JStr state) = Some new_state ->
  List.find (fun i => (i_api_id i =? api)%Z) (instances (db w)) = Some inst ->
  i_state inst <> new_state ->
  let text := "Статус инстанса " +:+ pretty api +:+ ": "
              +:+ state_value (i_state inst) +:+ " → " +:+ state_value new_state in
  let w1 := mkWorld (set_instance_state (i_id inst) new_state (db w)) (fs w) in
  _handle_state rt bot_send_message (state_webhook api state) w
  = (Ok tt, w1,
     [ Log info "Instance %s: %s → %s";
       match bot_send_message (i_telegram_id inst) text with
       | Ok _ => Telegram (i_telegram_id inst) text
       | Raise _ => Log error "Telegram notify failed: %s"
       end ]) /\
  List.find (fun i => (i_api_id i =? api)%Z) (instances (db w1))
  = Some (mkInstance (i_id inst) (i_api_id inst) new_state (i_telegram_id inst)) /\
  _handle_state rt bot_send_message (state_webhook api state) w1 = (Ok tt, w1, []).
Proof.
  intros Hst Hfind Hne text w1.
  assert (Hfind1 : List.find (fun i => (i_api_id i =? api)%Z) (instances (db w1))
                   = Some (mkInstance (i_id inst) (i_api_id inst) new_state
                             (i_telegram_id inst))).
  { cbn. rewrite find_map_stable.
    - rewrite Hfind. cbn. rewrite Z.eqb_refl. reflexivity.
    - intros i. destruct (i_id i =? i_id inst)%Z; reflexivity. }
  split; [|split; [exact Hfind1|]].
  - unfold _handle_state, state_webhook.
    run_lift. run_lift.
    cbn [assoc String.eqb Ascii.eqb Bool.eqb]. rewrite Hst.
    erewrite bind_query_ok by (cbn; rewrite Hfind; reflexivity).
    cbn iota beta. rewrite (state_eqb_neq _ _ Hne).
    unfold try_except, bind, commit, emit, lift. cbn.
    fold text. destruct (bot_send_message (i_telegram_id inst) text) as [[]|e]; reflexivity.
  - unfold _handle_state, state_webhook.
    run_lift. run_lift.
    cbn [assoc String.eqb Ascii.eqb Bool.eqb]. rewrite Hst.
    erewrite bind_query_ok by (rewrite Hfind1; reflexivity).
    cbn iota beta. cbn [i_state]. unfold state_eqb. rewrite String.eqb_refl. reflexivity.
Qed.

(** X15. Every webhook keeps the pair (instance, provider message id) unique
    among the message rows. *)
Theorem webhooks_keep_keys_unique (MEDIA_ROOT : string) (N : Net) (rt : Runtime)
    (bot_send_message : Z -> string -> outcome unit) (payload : json) (w : world) :
  uq_msg_wa (messages (db w)) ->
  uq_msg_wa (messages (db (world_after
                             (green_webhook MEDIA_ROOT N rt bot_send_message payload w)))).
Proof.
  intros H. apply (webhook_keeps_unique MEDIA_ROOT N rt bot_send_message payload w H).
Qed.

Lemma call_offer_then_final_witness :
  exists row w1 w2,
    _handle_call Examples.ex_rt (call_webhook 1101 "C1" "79001234567@c.us" "offer")
      Examples.ex_world = (Ok tt, w1, []) /\
    messages (db w1) = messages (db Examples.ex_world) ++ [ row ] /\
    r_instance_id row = 1%Z /\ r_wa_message_id row = Some "C1" /\
    r_message_type row = MessageType.call /\
    r_direction row = MessageDirection.inc /\
    r_text row = Some (call_text "offer") /\
    notified (db w1) = notified (db Examples.ex_world) ++ [ (msg_in, r_id row) ] /\
    _handle_call Examples.ex_rt (call_webhook 1101 "C1" "79001234567@c.us" "missed") w1
    = (Ok tt, w2, []) /\
    select_by_wa 1 (JStr "C1") (db w2)
    = Ok (Some (row_with_text row (Some (call_text "missed")))) /\
    length (messages (db w2)) = length (messages (db w1)) /\
    notified (db w2) = notified (db w1).
Proof.
  apply (call_offer_then_final Examples.ex_rt 1101 "C1" "79001234567@c.us" "79001234567"
           "c.us" 1 "offer" "missed" Examples.ex_world); reflexivity.
Defined.

Lemma unknown_instance_is_ignored_witness :
  green_webhook "/app/media" Examples.ex_net_up Examples.ex_rt (fun _ _ => Ok tt)
    (text_webhook "incomingMessageReceived" 2202 "T9" "79001234567@c.us" 1750000000 "hi")
    Examples.ex_world
  = (Ok tt, Examples.ex_world, unknown_instance).
Proof.
  apply (unknown_instance_is_ignored "/app/media" Examples.ex_net_up Examples.ex_rt
           (fun _ _ => Ok tt)
           (text_webhook "incomingMessageReceived" 2202 "T9" "79001234567@c.us" 1750000000
              "hi")
           (JInt 2202) (JStr "T9") "incomingMessageReceived" Examples.ex_world).
  - reflexivity.
  - simpl. tauto.
  - reflexivity.
  - reflexivity.
  - reflexivity.
Defined.

Lemma unhandled_webhook_is_logged_witness :
  green_webhook "/app/media" Examples.ex_net_up Examples.ex_rt (fun _ _ => Ok tt)
    (JDict [ ("typeWebhook", JStr "deviceInfo") ]) Examples.ex_world
  = (Ok tt, Examples.ex_world, [ Log warning "Unhandled webhook %s" ]).
Proof.
  apply (unhandled_webhook_is_logged "/app/media" Examples.ex_net_up Examples.ex_rt
           (fun _ _ => Ok tt) [ ("typeWebhook", JStr "deviceInfo") ] Examples.ex_world).
  simpl. intros H. repeat (destruct H as [H|H]; [discriminate H|]). exact H.
Defined.


Lemma state_change_is_stored_and_told_witness :
  let send := fun (_ : Z) (_ : string) => Raise (RuntimeError "chat not found") in
  let w1 := mkWorld (set_instance_state 1 InstanceState.not_authorized
                       (db Examples.ex_world)) (fs Examples.ex_world) in
  _handle_state Examples.ex_rt send (state_webhook 1101 "notAuthorized") Examples.ex_world
  = (Ok tt, w1,
     [ Log info "Instance %s: %s → %s"; Log error "Telegram notify failed: %s" ]) /\
  List.find (fun i => (i_api_id i =? 1101)%Z) (instances (db w1))
  = Some (mkInstance 1 1101 InstanceState.not_authorized (-1001)) /\
  _handle_state Examples.ex_rt send (state_webhook 1101 "notAuthorized") w1
  = (Ok tt, w1, []).
Proof.
  apply (state_change_is_stored_and_told Examples.ex_rt
           (fun _ _ => Raise (RuntimeError "chat not found")) 1101 "notAuthorized"
           InstanceState.not_authorized
           (mkInstance 1 1101 InstanceState.authorized (-1001)) Examples.ex_world).
  - reflexivity.
  - reflexivity.
  - discriminate.
Defined.

Lemma webhooks_keep_keys_unique_witness :
  uq_msg_wa (messages (db (world_after
    (green_webhook "/app/media" Examples.ex_net_up Examples.ex_rt (fun _ _ => Ok tt)
       Examples.text_message Examples.ex_sent_world)))).
Proof.
  apply (webhooks_keep_keys_unique "/app/media" Examples.ex_net_up Examples.ex_rt
           (fun _ _ => Ok tt) Examples.text_message Examples.ex_sent_world).
  intros i j r1 r2 k H1 H2 _ _ _.
  destruct i as [|i], j as [|j]; simpl in H1, H2; try discriminate; reflexivity.
Defined.


End WebhookExtras.

Module OutboxExtras.
Import Json Models Store Eff GreenMsg Webhook Outbox Runs Expected EffFacts MappingFacts StoreFacts.
Import StatusProofs.
Local Open Scope eff_scope.

Lemma find_by_id z rows msg :
  List.find (fun r => (r_id r =? z)%Z) rows = Some msg -> r_id msg = z.
Proof. intros H. apply List.find_some in H as [_ H]. by apply Z.eqb_eq. Qed.

Lemma select_by_id_update z d msg (g : Row -> Row) rows :
  (forall r, r_id (g r) = r_id r) ->
  messages d = update_row z g rows ->
  List.find (fun r => (r_id r =? z)%Z) rows = Some msg ->
  select_by_id z d = Some (g msg).
Proof.
  intros Hg Hm Hsel. unfold select_by_id. rewrite Hm. unfold update_row.
  rewrite find_map_stable.
  - rewrite Hsel. cbn. rewrite (find_by_id _ _ _ Hsel), Z.eqb_refl. reflexivity.
  - intros r. destruct (r_id r =? z)%Z eqn:E; [rewrite Hg; exact E|exact E].
Qed.

Section Dispatch.
Variable G : Gateway.
Variable throttle_is_api_error : bool.

Variables (envelope : json) (z : Z) (msg : Row) (inst : Instance) (w : world).
Hypothesis Henv : getitem envelope "msg_id" = Ok (JInt z).
Hypothesis Hsel : select_by_id z (db w) = Some msg.
Hypothesis Hinst :
  List.find (fun i => (i_id i =? r_instance_id msg)%Z) (instances (db w)) = Some inst.
Hypothesis Harch : r_is_archived msg = false.
Hypothesis Happ : r_from_app msg = true.
Hypothesis Hcl : client_for G (i_api_id inst) = Ok tt.

Lemma handle_run :
  handle G throttle_is_api_error envelope w
  = try_except
      (resp <- (match r_files msg with
                | [] =>
                    emit (SendMessage (r_chat_id msg) (text_or_empty (r_text msg))) ;;;
                    lift (send_message_reply G)
                | _ => _send_files G (r_chat_id msg) msg
                end) ;;
       ok <- _mark_wa_id msg resp ;;
       _mark_status G msg MessageStatus.sent ok)
      any_exception
      (fun e =>
         if is_green_api_error throttle_is_api_error e then
           _mark_status G msg MessageStatus.error_api false ;;;
           notify_send_error msg ("ошибка API (" +:+ exn_message e +:+ ")") ;;;
           emit (Log error "API error while sending: %s")
         else
           _mark_status G msg MessageStatus.error_int false ;;;
           notify_send_error msg "внутренняя ошибка" ;;;
           emit (Log error "Internal error while sending msg")) w.
Proof.
  unfold handle. rewrite (bind_lift_ok _ _ _ _ Henv).
  erewrite bind_query_ok; [|cbn beta iota; rewrite Hsel; cbn; rewrite Hinst; reflexivity].
  cbn beta iota. rewrite Harch, Happ. cbn [orb negb].
  unfold try_except. rewrite (bind_lift_ok _ _ _ _ Hcl). reflexivity.
Qed.

Lemma mark_status_run st ok d fsys :
  _mark_status G msg st ok (mkWorld d fsys)
  = (Ok tt, mkWorld (commit_status (r_id msg) st d) fsys, reaction_trace G msg ok).
Proof.
  unfold _mark_status, reaction_trace, bind, commit, try_except, lift, emit, ret. cbn.
  destruct (r_tg_message_id msg) as [tg|]; [|reflexivity].
  destruct (set_message_reaction G) as [[]|e]; reflexivity.
Qed.

Lemma failure_run e d fsys :
  (if is_green_api_error throttle_is_api_error e then
     _mark_status G msg MessageStatus.error_api false ;;;
     notify_send_error msg ("ошибка API (" +:+ exn_message e +:+ ")") ;;;
     emit (Log error "API error while sending: %s")
   else
     _mark_status G msg MessageStatus.error_int false ;;;
     notify_send_error msg "внутренняя ошибка" ;;;
     emit (Log error "Internal error while sending msg")) (mkWorld d fsys)
  = let api := is_green_api_error throttle_is_api_error e in
    (Ok tt,
     mkWorld (with_diagnostic (commit_status (r_id msg) (failure_status api) d) msg
                (failure_reason api e)) fsys,
     reaction_trace G msg false ++ [ failure_log api ]).
Proof.
  cbn zeta. unfold failure_status, failure_reason, failure_log.
  destruct (is_green_api_error throttle_is_api_error e);
    (erewrite bind_ok by apply mark_status_run); unfold bind, emit;
    rewrite notify_run; reflexivity.
Qed.

End Dispatch.

Lemma select_after_failure z msg st reason d :
  List.find (fun r => (r_id r =? z)%Z) (messages d) = Some msg ->
  select_by_id z (with_diagnostic (commit_status (r_id msg) st d) msg reason)
  = Some (row_with_status msg st).
Proof.
  intros Hsel. unfold select_by_id. cbn [with_diagnostic messages].
  apply find_app_some.
  pose proof (find_by_id _ _ _ Hsel) as Hid.
  change (select_by_id z (commit_status (r_id msg) st d) = Some (row_with_status msg st)).
  rewrite Hid.
  apply (select_by_id_update z _ msg (fun r => row_with_status r st) (messages d));
    [reflexivity|reflexivity|exact Hsel].
Qed.

(** X16. A send that the provider refuses, or that fails in any other way, is
    recorded and never escapes the dispatcher: the message gets the status
    [error_api] (for an API error) or [error_int], a system row with the
    reason is stored, whose insert is announced on [msg_in], and the error
    is logged. *)
Theorem send_failure_is_recorded (G : Gateway) (throttle_is_api_error : bool)
    (envelope : json) (z : Z) (msg : Row) (inst : Instance) (e : exn) (w : world) :
  getitem envelope "msg_id" = Ok (JInt z) ->
  select_by_id z (db w) = Some msg ->
  List.find (fun i => (i_id i =? r_instance_id msg)%Z) (instances (db w)) = Some inst ->
  r_is_archived msg = false ->
  r_from_app msg = true ->
  client_for G (i_api_id inst) = Ok tt ->
  r_files msg = [] ->
  send_message_reply G = Raise e ->
  let api := is_green_api_error throttle_is_api_error e in
  let d' := with_diagnostic (commit_status (r_id msg) (failure_status api) (db w)) msg
              (failure_reason api e) in
  handle G throttle_is_api_error envelope w
  = (Ok tt, mkWorld d' (fs w),
     [ SendMessage (r_chat_id msg) (text_or_empty (r_text msg)) ]
     ++ reaction_trace G msg false ++ [ failure_log api ]) /\
  select_by_id z d' = Some (row_with_status msg (failure_status api)) /\
  notified d' = notified (db w) ++ [ (msg_in, next_id (db w)) ].
Proof.
  intros Henv Hsel Hinst Harch Happ Hcl Hfiles Hsend api d'.
  split; [|split; [apply select_after_failure; exact Hsel|reflexivity]].
  rewrite (handle_run G throttle_is_api_error envelope z msg inst w
             Henv Hsel Hinst Harch Happ Hcl).
  rewrite Hfiles. unfold try_except.
  assert (Hbody :
    (resp <- (emit (SendMessage (r_chat_id msg) (text_or_empty (r_text msg))) ;;;
              lift (send_message_reply G)) ;;
     ok <- _mark_wa_id msg resp ;;
     _mark_status G msg MessageStatus.sent ok) w
    = (Raise e, w, [ SendMessage (r_chat_id msg) (text_or_empty (r_text msg)) ])).
  { rewrite Hsend. reflexivity. }
  rewrite Hbody. cbn [any_exception].
  destruct w as [d fsys].
  rewrite (failure_run G throttle_is_api_error msg e d fsys). reflexivity.
Qed.

(** X17. A reply that carries a message id, for a message that has none yet:
    the id is stored on the row and the row becomes [sent]; exactly one
    [sendMessage] call was made. *)
Theorem sent_text_gets_provider_id (G : Gateway) (throttle_is_api_error : bool)
    (envelope : json) (z : Z) (msg : Row) (inst : Instance) (resp : json) (wa : string)
    (d1 : DB) (w : world) :
  getitem envelope "msg_id" = Ok (JInt z) ->
  select_by_id z (db w) = Some msg ->
  List.find (fun i => (i_id i =? r_instance_id msg)%Z) (instances (db w)) = Some inst ->
  r_is_archived msg = false ->
  r_from_app msg = true ->
  client_for G (i_api_id inst) = Ok tt ->
  r_files msg = [] ->
  send_message_reply G = Ok resp ->
  getitem resp "idMessage" = Ok (JStr wa) -> wa <> empty_str ->
  r_wa_message_id msg = None ->
  commit_wa_id (r_id msg) (r_instance_id msg) wa (db w) = Ok d1 ->
  handle G throttle_is_api_error envelope w
  = (Ok tt, mkWorld (commit_status (r_id msg) MessageStatus.sent d1) (fs w),
     [ SendMessage (r_chat_id msg) (text_or_empty (r_text msg)) ]
     ++ reaction_trace G msg true) /\
  select_by_id z (commit_status (r_id msg) MessageStatus.sent d1)
  = Some (row_with_status (row_with_wa_id msg (Some wa)) MessageStatus.sent).
Proof.
  intros Henv Hsel Hinst Harch Happ Hcl Hfiles Hsend Hid Hwa Hnone Hcommit.
  assert (Hget : get (if truthy resp then resp else JDict []) "idMessage" = Ok (JStr wa)).
  { destruct resp as [| | | | | |items]; try discriminate. cbn in Hid.
    destruct items as [|kv items]; [discriminate|]. cbn [truthy].
    unfold get, get_default. destruct (assoc "idMessage" (kv :: items)); [|discriminate].
    congruence. }
  assert (Htruthy : truthy (JStr wa) = true).
  { cbn. destruct (String.eqb_spec wa empty_str); [contradiction|reflexivity]. }
  split.
  - rewrite (handle_run G throttle_is_api_error envelope z msg inst w
               Henv Hsel Hinst Harch Happ Hcl).
    rewrite Hfiles. unfold try_except.
    assert (Hbody :
      (resp <- (emit (SendMessage (r_chat_id msg) (text_or_empty (r_text msg))) ;;;
                lift (send_message_reply G)) ;;
       ok <- _mark_wa_id msg resp ;;
       _mark_status G msg MessageStatus.sent ok) w
      = (Ok tt, mkWorld (commit_status (r_id msg) MessageStatus.sent d1) (fs w),
         [ SendMessage (r_chat_id msg) (text_or_empty (r_text msg)) ]
         ++ reaction_trace G msg true)).
    { rewrite Hsend. rewrite bind_assoc, bind_emit.
      erewrite bind_lift_ok by reflexivity.
      unfold _mark_wa_id. rewrite bind_assoc. rewrite (bind_lift_ok _ _ _ _ Hget).
      rewrite Htruthy. cbn [negb]. rewrite Hnone.
      rewrite bind_assoc. erewrite bind_lift_ok by reflexivity.
      rewrite bind_assoc.
      erewrite (bind_ok (commit _)) by (unfold commit; rewrite Hcommit; reflexivity).
      rewrite bind_ret, mark_status_run. reflexivity. }
    rewrite Hbody. reflexivity.
  - unfold commit_wa_id in Hcommit. destruct (conflicts _ _ _); [discriminate|].
    injection Hcommit as <-.
    pose proof (find_by_id _ _ _ Hsel) as Hz.
    unfold select_by_id, commit_status. cbn [set_messages messages].
    unfold update_row. rewrite !find_map_stable.
    + unfold select_by_id in Hsel. rewrite Hsel. cbn. rewrite Hz, Z.eqb_refl. cbn.
      rewrite Hz, Z.eqb_refl. reflexivity.
    + intros r. rewrite Hz. destruct (r_id r =? z)%Z eqn:E; exact E.
    + intros r. rewrite Hz. destruct (r_id r =? z)%Z eqn:E; exact E.
Qed.

(** X18. A reply without a message id (or no reply body at all) is logged as a
    failed send, yet the message is still marked [sent]; its provider id
    stays empty, and the channel post gets the angry reaction. *)
Theorem reply_without_id_is_marked_sent (G : Gateway) (throttle_is_api_error : bool)
    (envelope : json) (z : Z) (msg : Row) (inst : Instance) (resp wa_id : json)
    (w : world) :
  getitem envelope "msg_id" = Ok (JInt z) ->
  select_by_id z (db w) = Some msg ->
  List.find (fun i => (i_id i =? r_instance_id msg)%Z) (instances (db w)) = Some inst ->
  r_is_archived msg = false ->
  r_from_app msg = true ->
  client_for G (i_api_id inst) = Ok tt ->
  r_files msg = [] ->
  send_message_reply G = Ok resp ->
  get (py_or resp (JDict [])) "idMessage" = Ok wa_id -> truthy wa_id = false ->
  handle G throttle_is_api_error envelope w
  = (Ok tt, mkWorld (commit_status (r_id msg) MessageStatus.sent (db w)) (fs w),
     [ SendMessage (r_chat_id msg) (text_or_empty (r_text msg));
       Log error "send failed: %s" ]
     ++ reaction_trace G msg false) /\
  select_by_id z (commit_status (r_id msg) MessageStatus.sent (db w))
  = Some (row_with_status msg MessageStatus.sent).
Proof.
  intros Henv Hsel Hinst Harch Happ Hcl Hfiles Hsend Hget Hfalsy.
  split.
  - rewrite (handle_run G throttle_is_api_error envelope z msg inst w
               Henv Hsel Hinst Harch Happ Hcl).
    rewrite Hfiles. unfold try_except.
    assert (Hbody :
      (resp <- (emit (SendMessage (r_chat_id msg) (text_or_empty (r_text msg))) ;;;
                lift (send_message_reply G)) ;;
       ok <- _mark_wa_id msg resp ;;
       _mark_status G msg MessageStatus.sent ok) w
      = (Ok tt, mkWorld (commit_status (r_id msg) MessageStatus.sent (db w)) (fs w),
         [ SendMessage (r_chat_id msg) (text_or_empty (r_text msg));
           Log error "send failed: %s" ]
         ++ reaction_trace G msg false)).
    { rewrite Hsend. rewrite bind_assoc, bind_emit.
      erewrite bind_lift_ok by reflexivity.
      unfold _mark_wa_id. rewrite bind_assoc.
      unfold py_or in Hget. rewrite (bind_lift_ok _ _ _ _ Hget).
      rewrite Hfalsy. cbn [negb].
      rewrite !bind_assoc, bind_emit, bind_ret.
      destruct w as [d fsys]. rewrite mark_status_run. reflexivity. }
    rewrite Hbody. reflexivity.
  - pose proof (find_by_id _ _ _ Hsel) as Hz. rewrite Hz.
    apply (select_by_id_update z _ msg (fun r => row_with_status r MessageStatus.sent)
             (messages (db w))); [reflexivity|reflexivity|exact Hsel].
Qed.

(** X19. Attachments go out one by one, and a file that cannot be read stops
    the dispatch where it stands: the attachments before it have been
    uploaded (the first with the caption), the message is marked
    [error_int] and a system row says so. *)
Theorem missing_attachment_stops_dispatch (G : Gateway) (throttle_is_api_error : bool)
    (envelope : json) (z : Z) (msg : Row) (inst : Instance)
    (f1 f2 : FileRow) (rest : list FileRow) (data : string) (r1 : json) (w : world) :
  getitem envelope "msg_id" = Ok (JInt z) ->
  select_by_id z (db w) = Some msg ->
  List.find (fun i => (i_id i =? r_instance_id msg)%Z) (instances (db w)) = Some inst ->
  r_is_archived msg = false ->
  r_from_app msg = true ->
  client_for G (i_api_id inst) = Ok tt ->
  r_files msg = f1 :: f2 :: rest ->
  fs w !! f_path f1 = Some data ->
  send_file_reply G 0 = Ok r1 ->
  fs w !! f_path f2 = None ->
  let d' := with_diagnostic (commit_status (r_id msg) MessageStatus.error_int (db w)) msg
              "внутренняя ошибка" in
  handle G throttle_is_api_error envelope w
  = (Ok tt, mkWorld d' (fs w),
     [ SendFile (r_chat_id msg) data (f_name f1) (f_mime f1) (text_or_empty (r_text msg)) ]
     ++ reaction_trace G msg false ++ [ Log error "Internal error while sending msg" ]) /\
  select_by_id z d' = Some (row_with_status msg MessageStatus.error_int).
Proof.
  intros Henv Hsel Hinst Harch Happ Hcl Hfiles Hf1 Hr1 Hf2 d'.
  split; [|apply select_after_failure; exact Hsel].
  rewrite (handle_run G throttle_is_api_error envelope z msg inst w
             Henv Hsel Hinst Harch Happ Hcl).
  rewrite Hfiles. unfold try_except.
  assert (Hbody :
    (resp <- _send_files G (r_chat_id msg) msg ;;
     ok <- _mark_wa_id msg resp ;;
     _mark_status G msg MessageStatus.sent ok) w
    = (Raise OSError, w,
       [ SendFile (r_chat_id msg) data (f_name f1) (f_mime f1)
           (text_or_empty (r_text msg)) ])).
  { unfold _send_files. rewrite Hfiles. cbn [send_files_loop].
    unfold bind, read_file, emit, lift. rewrite Hf1, Hr1, Hf2. reflexivity. }
  rewrite Hbody. cbn [any_exception].
  destruct w as [d fsys].
  rewrite (failure_run G throttle_is_api_error msg OSError d fsys). reflexivity.
Qed.

Lemma send_failure_is_recorded_witness :
  let e := GreenAPIError "sendMessage: 466" in
  let d' := with_diagnostic
              (commit_status 7 MessageStatus.error_api (db Examples.ex_pending_world))
              Examples.ex_pending (failure_reason true e) in
  handle Examples.ex_gateway_down true (JDict [ ("msg_id", JInt 7) ])
    Examples.ex_pending_world
  = (Ok tt, mkWorld d' (fs Examples.ex_pending_world),
     [ SendMessage "79001234567@c.us" "hello" ]
     ++ reaction_trace Examples.ex_gateway_down Examples.ex_pending false
     ++ [ failure_log true ]) /\
  select_by_id 7 d' = Some (row_with_status Examples.ex_pending MessageStatus.error_api) /\
  notified d' = notified (db Examples.ex_pending_world) ++ [ (msg_in, 8%Z) ].
Proof.
  apply (send_failure_is_recorded Examples.ex_gateway_down true
           (JDict [ ("msg_id", JInt 7) ]) 7 Examples.ex_pending
           (mkInstance 1 1101 InstanceState.authorized (-1001))
           (GreenAPIError "sendMessage: 466") Examples.ex_pending_world);
    reflexivity.
Defined.

Lemma sent_text_gets_provider_id_witness :
  let d1 := set_messages (db Examples.ex_pending_world)
              [ row_with_wa_id Examples.ex_pending (Some "S1") ] in
  handle Examples.ex_gateway true (JDict [ ("msg_id", JInt 7) ]) Examples.ex_pending_world
  = (Ok tt, mkWorld (commit_status 7 MessageStatus.sent d1) (fs Examples.ex_pending_world),
     [ SendMessage "79001234567@c.us" "hello" ]
     ++ reaction_trace Examples.ex_gateway Examples.ex_pending true) /\
  select_by_id 7 (commit_status 7 MessageStatus.sent d1)
  = Some (row_with_status (row_with_wa_id Examples.ex_pending (Some "S1"))
            MessageStatus.sent).
Proof.
  apply (sent_text_gets_provider_id Examples.ex_gateway true
           (JDict [ ("msg_id", JInt 7) ]) 7 Examples.ex_pending
           (mkInstance 1 1101 InstanceState.authorized (-1001))
           (JDict [ ("idMessage", JStr "S1") ]) "S1"
           (set_messages (db Examples.ex_pending_world)
              [ row_with_wa_id Examples.ex_pending (Some "S1") ])
           Examples.ex_pending_world);
    first [reflexivity | discriminate].
Defined.

Lemma reply_without_id_is_marked_sent_witness :
  handle Examples.ex_gateway_mute true (JDict [ ("msg_id", JInt 7) ])
    Examples.ex_pending_world
  = (Ok tt,
     mkWorld (commit_status 7 MessageStatus.sent (db Examples.ex_pending_world))
       (fs Examples.ex_pending_world),
     [ SendMessage "79001234567@c.us" "hello"; Log error "send failed: %s" ]
     ++ reaction_trace Examples.ex_gateway_mute Examples.ex_pending false) /\
  select_by_id 7 (commit_status 7 MessageStatus.sent (db Examples.ex_pending_world))
  = Some (row_with_status Examples.ex_pending MessageStatus.sent).
Proof.
  apply (reply_without_id_is_marked_sent Examples.ex_gateway_mute true
           (JDict [ ("msg_id", JInt 7) ]) 7 Examples.ex_pending
           (mkInstance 1 1101 InstanceState.authorized (-1001))
           (JDict []) JNull Examples.ex_pending_world);
    reflexivity.
Defined.

Lemma missing_attachment_stops_dispatch_witness :
  let d' := with_diagnostic
              (commit_status 7 MessageStatus.error_int (db Examples.ex_half_world))
              Examples.ex_outbound "внутренняя ошибка" in
  handle Examples.ex_gateway true (JDict [ ("msg_id", JInt 7) ]) Examples.ex_half_world
  = (Ok tt, mkWorld d' (fs Examples.ex_half_world),
     [ SendFile "79001234567@c.us" "jpeg!" "a.jpg" "image/jpeg" "two files" ]
     ++ reaction_trace Examples.ex_gateway Examples.ex_outbound false
     ++ [ Log error "Internal error while sending msg" ]) /\
  select_by_id 7 d' = Some (row_with_status Examples.ex_outbound MessageStatus.error_int).
Proof.
  apply (missing_attachment_stops_dispatch Examples.ex_gateway true
           (JDict [ ("msg_id", JInt 7) ]) 7 Examples.ex_outbound
           (mkInstance 1 1101 InstanceState.authorized (-1001))
           (mkFileRow FileType.image "a.jpg" "image/jpeg" "/app/media/2025/06/a.jpg"
              "/media/2025/06/a.jpg" 5)
           (mkFileRow FileType.other "b.pdf" "application/pdf" "/app/media/2025/06/b.pdf"
              "/media/2025/06/b.pdf" 6)
           [] "jpeg!" (JDict [ ("idMessage", JStr "S1") ]) Examples.ex_half_world);
    first [reflexivity | vm_compute; reflexivity].
Defined.

End OutboxExtras.

Module AdminExtras.
Import Json Models Store Eff GreenMsg AdminFiles Backfill Runs Expected.
Import BackfillProofs.

(** ** The upload path *)

Lemma length_append (a s : string) :
  String.length (a +:+ s) = String.length a + String.length s.
Proof.
  induction a as [|c a IH]; [reflexivity|].
  change (String c a +:+ s) with (String c (a +:+ s)). cbn [String.length].
  by rewrite IH.
Qed.

Lemma append_inv_tail (a b s : string) : a +:+ s = b +:+ s -> a = b.
Proof.
  revert b. induction a as [|c a IH]; intros [|c' b] H.
  - reflexivity.
  - exfalso. apply (f_equal String.length) in H.
    rewrite !length_append in H. cbn in H. lia.
  - exfalso. apply (f_equal String.length) in H.
    rewrite !length_append in H. cbn in H. lia.
  - change (String c (a +:+ s) = String c' (b +:+ s)) in H.
    injection H as -> H. f_equal. by apply IH.
Qed.

Section Path.
Variables (dst stem suf : string) (disk : gmap string string).

Local Abbreviation numbered := (fun n : nat => dst +:+ "/" +:+ stem +:+ "_" +:+ pretty n +:+ suf).

Lemma numbered_inj n m : numbered n = numbered m -> n = m.
Proof.
  intros H. do 4 apply String.app_inj in H.
  apply append_inv_tail in H. by apply pretty_nat_inj in H.
Qed.

Lemma free_name_free fuel : forall candidate n p,
  free_name fuel dst stem suf disk candidate n = Some p ->
  disk !! p = None /\
  (p = candidate \/
   is_Some (disk !! candidate) /\
   exists k, n <= k /\ p = numbered k /\ forall j, n <= j < k -> is_Some (disk !! numbered j)).
Proof.
  induction fuel as [|fuel IH]; intros candidate n p H; [discriminate|].
  cbn [free_name] in H. destruct (disk !! candidate) as [x|] eqn:E.
  - apply IH in H as (Hfree & Hp). split; [exact Hfree|]. right. split; [eauto|].
    destruct Hp as [->|(Hn & k & Hk & -> & Hbelow)].
    + exists n. split; [lia|]. split; [reflexivity|]. intros j Hj. lia.
    + exists k. split; [lia|]. split; [reflexivity|].
      intros j Hj. destruct (decide (j = n)) as [->|]; [exact Hn|]. apply Hbelow. lia.
  - injection H as <-. auto.
Qed.

Lemma free_name_found fuel : forall candidate n,
  (disk !! candidate = None /\ 1 <= fuel) \/
  (exists k, n <= k /\ disk !! numbered k = None /\ k - n + 2 <= fuel) ->
  is_Some (free_name fuel dst stem suf disk candidate n).
Proof.
  induction fuel as [|fuel IH]; intros candidate n H.
  - exfalso. destruct H as [[_ H]|(k & _ & _ & H)]; lia.
  - cbn [free_name]. destruct (disk !! candidate) as [x|] eqn:E; [|eauto].
    destruct H as [[H _]|(k & Hk & Hfree & Hfuel)]; [discriminate|].
    apply IH. destruct (decide (k = n)) as [->|].
    + left. split; [exact Hfree|lia].
    + right. exists k. split; [lia|]. split; [exact Hfree|lia].
Qed.

Lemma some_name_is_free : exists k, 1 <= k <= S (base.size disk) /\ disk !! numbered k = None.
Proof.
  destruct (decide (Forall (fun k => is_Some (disk !! numbered k)) (seq 1 (S (base.size disk)))))
    as [Hall|Hnot].
  - exfalso.
    assert (Hnodup : NoDup (numbered <$> seq 1 (S (base.size disk)))).
    { apply NoDup_fmap_2; [intros n m; apply numbered_inj|apply NoDup_seq]. }
    assert (Hsub : list_to_set (numbered <$> seq 1 (S (base.size disk))) ⊆@{gset string} dom disk).
    { intros p Hp. apply elem_of_list_to_set, list_elem_of_fmap in Hp as (k & -> & Hk).
      apply elem_of_dom. rewrite Forall_forall in Hall. apply Hall. exact Hk. }
    apply subseteq_size in Hsub.
    rewrite size_list_to_set, length_fmap, length_seq, size_dom in Hsub by exact Hnodup.
    lia.
  - apply not_Forall_Exists in Hnot; [|apply _].
    apply Exists_exists in Hnot as (k & Hk & Hfree).
    exists k. apply elem_of_seq in Hk. split; [lia|].
    cbn in Hfree. destruct (disk !! numbered k) eqn:E; [exfalso; apply Hfree; eauto|].
    exact E.
Qed.

End Path.



(** ** The backfill lock over the life of a task *)

(** X21. One backfill per account at a time, and the lock does not outlive the
    task: a scheduled request takes the lock of its account; until the task
    ends every further request for that account is answered 409 and leaves
    the state alone, while the locks of the other accounts are not
    touched; when the task ends the lock is free and the same request is
    scheduled again. *)
Theorem backfill_lock_is_released (req : request) (st : state) (wait : bool) :
  wait_flag req = Ok wait ->
  ~ held (api_id req) (history_lock st) ->
  exists st1 st2,
    admin_history req st = Some (Ok (json_response [ ("status", "scheduled") ] 201), st1) /\
    admin_history req st1
    = Some (Ok (json_response [ ("error", "already_running") ] 409), st1) /\
    (forall j, j <> api_id req -> history_lock st1 !! j = history_lock st !! j) /\
    ~ held (api_id req) (history_lock (task_done (api_id req) st1)) /\
    (forall j, j <> api_id req ->
       history_lock (task_done (api_id req) st1) !! j = history_lock st !! j) /\
    admin_history req (task_done (api_id req) st1)
    = Some (Ok (json_response [ ("status", "scheduled") ] 201), st2) /\
    held (api_id req) (history_lock st2).
Proof.
  intros Hflag Hfree.
  destruct (setdefault_free _ _ Hfree) as (locks' & Hset & Hother).
  set (st1 := mkState (<[api_id req := true]> locks') (tasks st ++ [ (api_id req, wait) ])).
  assert (Hheld1 : held (api_id req) (history_lock st1)) by apply lookup_insert_eq.
  assert (Hfree2 : ~ held (api_id req) (history_lock (task_done (api_id req) st1))).
  { unfold held, task_done. cbn [history_lock]. rewrite lookup_insert_eq. discriminate. }
  destruct (setdefault_free _ _ Hfree2) as (locks2 & Hset2 & _).
  exists st1, (mkState (<[api_id req := true]> locks2)
                 (tasks (task_done (api_id req) st1) ++ [ (api_id req, wait) ])).
  split; [unfold admin_history; rewrite Hflag, Hset; reflexivity|].
  split; [unfold admin_history; rewrite Hflag, (setdefault_held _ _ Hheld1); reflexivity|].
  split.
  { intros j Hj. cbn [history_lock st1]. rewrite lookup_insert_ne by congruence.
    by apply Hother. }
  split; [exact Hfree2|]. split.
  { intros j Hj. unfold task_done. cbn [history_lock st1].
    rewrite !lookup_insert_ne by congruence. by apply Hother. }
  split; [unfold admin_history; rewrite Hflag, Hset2; reflexivity|].
  apply lookup_insert_eq.
Qed.

Lemma backfill_lock_is_released_witness :
  exists st1 st2,
    admin_history Examples.ex_request (mkState ∅ [])
    = Some (Ok (json_response [ ("status", "scheduled") ] 201), st1) /\
    admin_history Examples.ex_request st1
    = Some (Ok (json_response [ ("error", "already_running") ] 409), st1) /\
    (forall j, j <> api_id Examples.ex_request ->
       history_lock st1 !! j = history_lock (mkState ∅ []) !! j) /\
    ~ held (api_id Examples.ex_request)
        (history_lock (task_done (api_id Examples.ex_request) st1)) /\
    (forall j, j <> api_id Examples.ex_request ->
       history_lock (task_done (api_id Examples.ex_request) st1) !! j
       = history_lock (mkState ∅ []) !! j) /\
    admin_history Examples.ex_request (task_done (api_id Examples.ex_request) st1)
    = Some (Ok (json_response [ ("status", "scheduled") ] 201), st2) /\
    held (api_id Examples.ex_request) (history_lock st2).
Proof.
  apply (backfill_lock_is_released Examples.ex_request (mkState ∅ []) true).
  - reflexivity.
  - unfold held. simpl. discriminate.
Defined.

(** X22. A request whose flag is not in the query string and whose body cannot
    be read as a JSON object is refused as a bad request before the lock
    table is looked at: no lock is created and nothing is scheduled. *)
Theorem unreadable_body_is_a_bad_request (req : request) (st : state) :
  existsb (String.eqb (lower (default "None" (q_wait req)))) [ "1"; "true"; "yes" ] = false ->
  can_read_body req = true ->
  match body req with
  | Ok (JDict _) => False
  | _ => True
  end ->
  admin_history req st = Some (Raise (HTTPBadRequest "invalid json"), st).
Proof.
  intros Hq Hcan Hbody. unfold admin_history, wait_flag.
  replace (match q_wait req with Some s => s | None => "None" end)
    with (default "None" (q_wait req)) by (destruct (q_wait req); reflexivity).
  rewrite Hq, Hcan. cbn [negb andb].
  destruct (body req) as [[| | | | | |items]|e]; try contradiction; reflexivity.
Qed.

Lemma unreadable_body_is_a_bad_request_witness :
  admin_history (mkRequest 1101 None true (Ok (JList []))) Examples.ex_running
  = Some (Raise (HTTPBadRequest "invalid json"), Examples.ex_running).
Proof.
  apply (unreadable_body_is_a_bad_request (mkRequest 1101 None true (Ok (JList [])))
           Examples.ex_running).
  - reflexivity.
  - reflexivity.
  - simpl. exact Logic.I.
Defined.

End AdminExtras.

Module NotifyExtras.
Import Notify.

Section Split.
Context {char : Type} `{EqDecision char}.
Variables (newline space : char).

Lemma rfind_spec (c : char) (part : list char) i :
  rfind c part = Some i -> part !! i = Some c.
Proof.
  revert i. induction part as [|x rest IH]; intros i Hf; [discriminate|].
  cbn [rfind] in Hf. destruct (rfind c rest) as [j|].
  - injection Hf as <-. cbn. by apply IH.
  - destruct (decide (x = c)) as [->|]; [|discriminate]. by injection Hf as <-.
Qed.

Lemma cut_at (c : char) (msg : list char) (mx i : nat) :
  rfind c (take mx msg) = Some i ->
  msg = take i (take mx msg) ++ [ c ] ++ drop (S i) msg /\ i < mx /\ i < length msg.
Proof.
  intros Hf. apply rfind_spec in Hf.
  pose proof (lookup_lt_Some _ _ _ Hf) as Hlt. rewrite length_take in Hlt.
  apply lookup_take_Some in Hf as [Hf _].
  split; [|lia].
  rewrite take_take. replace (i `min` mx) with i by lia.
  symmetry. by apply take_drop_middle.
Qed.

Lemma split_loop_spec (with_photo : bool) (fuel : nat) : forall acc msg,
  length msg < fuel ->
  exists new seps,
    split_loop newline space fuel with_photo acc msg = Some (acc ++ new) /\
    Forall (fun p => length p <= 4096) new /\
    (acc = [] -> with_photo = true -> Forall (fun p => length p <= 1024) (take 1 new)) /\
    length seps = length new /\
    Forall (separator newline space) seps /\
    msg = rejoin new seps /\
    (new = [] <-> msg = []) /\
    (length msg <= (match acc with
                    | _ :: _ => 4096
                    | [] => if with_photo then 1024 else 4096
                    end) -> msg <> [] -> new = [ msg ]).
Proof.
  induction fuel as [|fuel IH]; intros acc msg Hfuel; [lia|].
  cbn [split_loop]. destruct msg as [|a msg'].
  { exists [], []. rewrite app_nil_r. repeat split; try constructor; try done. }
  remember (a :: msg') as msg eqn:Emsg.
  assert (Hne : msg <> []) by (subst msg; discriminate).
  clear Emsg a msg'.
  set (mx := match acc with
             | _ :: _ => 4096
             | [] => if with_photo then 1024 else 4096
             end).
  assert (Hmx : 1 <= mx <= 4096) by (subst mx; destruct acc, with_photo; lia).
  assert (Hfirst : acc = [] -> with_photo = true -> mx = 1024)
    by (intros -> ->; reflexivity).
  clearbody mx.
  assert (Hlen : 0 < length msg) by (destruct msg; [congruence|cbn; lia]).
  destruct (Nat.leb_spec (length msg) mx) as [Hfit|Hlong].
  { exists [ msg ], [ [] ]. split; [reflexivity|].
    split; [constructor; [lia|constructor]|].
    split; [intros Ha Hw; constructor; [rewrite <- (Hfirst Ha Hw); exact Hfit|constructor]|].
    split; [reflexivity|].
    split; [constructor; [by left|constructor]|].
    split; [unfold rejoin; cbn; by rewrite !app_nil_r|].
    split; [split; [discriminate|contradiction]|done]. }
  assert (Hstep : forall p sep rest,
    msg = p ++ sep ++ rest -> length p <= mx -> separator newline space sep ->
    length rest < length msg ->
    exists new seps,
      split_loop newline space fuel with_photo (acc ++ [ p ]) rest = Some (acc ++ new) /\
      Forall (fun p => length p <= 4096) new /\
      (acc = [] -> with_photo = true -> Forall (fun p => length p <= 1024) (take 1 new)) /\
      length seps = length new /\
      Forall (separator newline space) seps /\
      msg = rejoin new seps /\
      (new = [] <-> msg = []) /\
      (length msg <= mx -> msg <> [] -> new = [ msg ])).
  { intros p sep rest Hcut Hp Hsep Hshort.
    destruct (IH (acc ++ [ p ]) rest) as (new & seps & Hrun & Hall & _ & Hseps & Hsp & Hre & _);
      [lia|].
    exists (p :: new), (sep :: seps).
    split; [rewrite Hrun, <- app_assoc; reflexivity|].
    split; [constructor; [lia|exact Hall]|].
    split.
    { intros Ha Hw. cbn. rewrite take_0. constructor; [|constructor].
      rewrite <- (Hfirst Ha Hw). exact Hp. }
    split; [cbn; by rewrite Hseps|].
    split; [by constructor|].
    split.
    { unfold rejoin in *. cbn. rewrite <- Hre, <- app_assoc. exact Hcut. }
    split; [split; [discriminate|contradiction]|]. lia. }
  destruct (rfind newline (take mx msg)) as [i|] eqn:Enl.
  { destruct (cut_at _ _ _ _ Enl) as (Hcut & Hi & Hi').
    apply (Hstep _ [ newline ] _ Hcut).
    - rewrite length_take. lia.
    - right. by left.
    - rewrite length_drop. lia. }
  destruct (rfind space (take mx msg)) as [i|] eqn:Esp.
  { destruct (cut_at _ _ _ _ Esp) as (Hcut & Hi & Hi').
    apply (Hstep _ [ space ] _ Hcut).
    - rewrite length_take. lia.
    - right. by right.
    - rewrite length_drop. lia. }
  apply (Hstep (take mx msg) [] (drop mx msg)).
  - cbn. by rewrite take_drop.
  - rewrite length_take. lia.
  - by left.
  - rewrite length_drop. lia.
Qed.

End Split.



End NotifyExtras.

Module RoutesExtras.
Import Json Limiter Store GreenMsg History Expected.

(** ** The refresh cooldown *)

Lemma Qltb_is_lt a b : Qltb a b = true <-> (a < b)%Q.
Proof.
  unfold Qltb. rewrite negb_true_iff. split.
  - intros H. apply Qnot_le_lt. intros Hle. apply Qle_bool_iff in Hle. congruence.
  - intros H. destruct (Qle_bool b a) eqn:E; [|reflexivity].
    apply Qle_bool_iff in E. exfalso. apply (Qlt_not_le _ _ H E).
Qed.

Lemma Qltb_is_ge a b : Qltb a b = false <-> (b <= a)%Q.
Proof.
  unfold Qltb. rewrite negb_false_iff. apply Qle_bool_iff.
Qed.

(** X24. After an accepted refresh of an account, every further request for it
    within 60 seconds (or with a clock that went backwards) is answered
    429 and changes nothing; from 60 seconds on the next request is
    accepted again; the cooldown of one account does not delay another. *)
Theorem refresh_cooldown_is_per_account (api_id : Z) (t0 : Q) (st : Refresh.state) :
  (Refresh.TTL <= t0 - default 0 (Refresh._COOLDOWN st !! api_id))%Q ->
  exists st1,
    Refresh.rpc_refresh api_id t0 st
    = (Refresh.json_response [ ("status", "scheduled") ] 202, st1) /\
    Refresh.jobs st1 = Refresh.jobs st ++ [ api_id ] /\
    (forall t, (t - t0 < Refresh.TTL)%Q ->
       Refresh.rpc_refresh api_id t st1
       = (Refresh.json_response [ ("error", "cooldown") ] 429, st1)) /\
    (forall t, (Refresh.TTL <= t - t0)%Q ->
       fst (Refresh.rpc_refresh api_id t st1)
       = Refresh.json_response [ ("status", "scheduled") ] 202) /\
    (forall j t, j <> api_id ->
       fst (Refresh.rpc_refresh j t st1) = fst (Refresh.rpc_refresh j t st)).
Proof.
  intros Hfree.
  exists (Refresh.mkState (<[api_id := t0]> (Refresh._COOLDOWN st))
            (Refresh.jobs st ++ [ api_id ])).
  split.
  { unfold Refresh.rpc_refresh. apply Qltb_is_ge in Hfree. rewrite Hfree. reflexivity. }
  split; [reflexivity|]. split; [|split].
  - intros t Ht. unfold Refresh.rpc_refresh. cbn [Refresh._COOLDOWN].
    rewrite lookup_insert_eq. cbn [default from_option id]. apply Qltb_is_lt in Ht. rewrite Ht. reflexivity.
  - intros t Ht. unfold Refresh.rpc_refresh. cbn [Refresh._COOLDOWN].
    rewrite lookup_insert_eq. cbn [default from_option id]. apply Qltb_is_ge in Ht. rewrite Ht. reflexivity.
  - intros j t Hj. unfold Refresh.rpc_refresh. cbn [Refresh._COOLDOWN].
    rewrite lookup_insert_ne by congruence.
    destruct (Qltb _ _); reflexivity.
Qed.

Lemma refresh_cooldown_is_per_account_witness :
  exists st1,
    Refresh.rpc_refresh 1101 1750000000 (Refresh.mkState ∅ [])
    = (Refresh.json_response [ ("status", "scheduled") ] 202, st1) /\
    Refresh.jobs st1 = Refresh.jobs (Refresh.mkState ∅ []) ++ [ 1101%Z ] /\
    (forall t, (t - 1750000000 < Refresh.TTL)%Q ->
       Refresh.rpc_refresh 1101 t st1
       = (Refresh.json_response [ ("error", "cooldown") ] 429, st1)) /\
    (forall t, (Refresh.TTL <= t - 1750000000)%Q ->
       fst (Refresh.rpc_refresh 1101 t st1)
       = Refresh.json_response [ ("status", "scheduled") ] 202) /\
    (forall j t, j <> 1101%Z ->
       fst (Refresh.rpc_refresh j t st1)
       = fst (Refresh.rpc_refresh j t (Refresh.mkState ∅ []))).
Proof.
  apply (refresh_cooldown_is_per_account 1101 1750000000 (Refresh.mkState ∅ [])).
  vm_compute. discriminate.
Defined.

(** ** Chat ids made by the panel *)

Lemma list_of_append (a b : string) :
  String.list_ascii_of_string (a +:+ b)
  = String.list_ascii_of_string a ++ String.list_ascii_of_string b.
Proof.
  induction a as [|c a IH]; [reflexivity|].
  change (String c a +:+ b) with (String c (a +:+ b)). cbn. by rewrite IH.
Qed.

Lemma string_of_app (l l' : list ascii) :
  String.string_of_list_ascii (l ++ l')
  = String.string_of_list_ascii l +:+ String.string_of_list_ascii l'.
Proof. induction l as [|c l IH]; [reflexivity|]. cbn. by rewrite IH. Qed.

Lemma rsplit1_suffix (p g : string) :
  (forall c, In c (String.list_ascii_of_string g) -> c <> "@"%char) ->
  rsplit1 "@" (p +:+ "@" +:+ g) = [ p; g ].
Proof.
  intros Hg. unfold rsplit1. rewrite !list_of_append, !rev_app_distr. cbn [String.list_ascii_of_string rev app].
  assert (Hgo : forall l tail,
    (forall c, In c l -> c <> "@"%char) ->
    rsplit1_go "@" (l ++ "@"%char :: rev (String.list_ascii_of_string p)) tail
    = Some (String.list_ascii_of_string p, rev l ++ tail)).
  { induction l as [|c l IH]; intros tail Hl.
    - cbn. by rewrite rev_involutive.
    - cbn [app rsplit1_go]. destruct (Ascii.eqb_spec c "@") as [->|_].
      + exfalso. by apply (Hl "@"%char); [left|].
      + rewrite IH by (intros c' Hc'; apply Hl; by right).
        cbn [rev]. by rewrite <- app_assoc. }
  rewrite <- app_assoc. cbn [app].
  rewrite Hgo.
  - rewrite rev_involutive, app_nil_r, !String.string_of_list_ascii_of_string. reflexivity.
  - intros c Hc. apply Hg. by apply in_rev.
Qed.

Lemma take_str_app (x y : string) : AdminChat.take_str (String.length x) (x +:+ y) = x.
Proof.
  induction x as [|c x IH]; [by destruct y|].
  change (String c x +:+ y) with (String c (x +:+ y)). cbn. by rewrite IH.
Qed.

Lemma length_app_str (a s : string) :
  String.length (a +:+ s) = String.length a + String.length s.
Proof.
  induction a as [|c a IH]; [reflexivity|].
  change (String c a +:+ s) with (String c (a +:+ s)). cbn [String.length].
  by rewrite IH.
Qed.

Lemma ends_with_app (suffix s : string) : ends_with suffix (s +:+ suffix) = true.
Proof.
  unfold ends_with. rewrite list_of_append, rev_app_distr.
  induction (rev (String.list_ascii_of_string suffix)) as [|c l IH]; [reflexivity|].
  cbn. by rewrite Ascii.eqb_refl.
Qed.

Lemma ends_with_split (phone : string) :
  ends_with "-g" phone = true -> exists base, phone = base +:+ "-g".
Proof.
  unfold ends_with. cbn [String.list_ascii_of_string rev app].
  destruct (rev (String.list_ascii_of_string phone)) as [|c1 [|c2 r]] eqn:E;
    cbn [ends_with_go]; try discriminate.
  - rewrite andb_false_r. discriminate.
  - intros H. apply andb_true_iff in H as [H1 H2]. apply andb_true_iff in H2 as [H2 _].
    apply Ascii.eqb_eq in H1, H2. subst c1 c2.
    exists (String.string_of_list_ascii (rev r)).
    rewrite <- (String.string_of_list_ascii_of_string phone).
    rewrite <- (rev_involutive (String.list_ascii_of_string phone)), E.
    cbn [rev]. rewrite <- app_assoc, string_of_app. reflexivity.
Qed.

(** X25. A chat id the panel makes from a phone number is one the webhook side
    can take apart: it splits at its last [@] into the number and [c.us]
    or [g.us], the number being the one typed without its [-g] mark, and a
    conversation made from it is a group exactly when the mark was there. *)
Theorem panel_chat_id_is_parsed (phone : string) :
  exists base gtype,
    rsplit_at (JStr (AdminChat._mk_chat_id phone))
    = Ok (AdminChat._mk_chat_id phone, base, gtype) /\
    AdminChat._mk_chat_id phone = base +:+ "@" +:+ gtype /\
    (ends_with "-g" phone = true -> phone = base +:+ "-g" /\ gtype = "g.us") /\
    (ends_with "-g" phone = false -> phone = base /\ gtype = "c.us") /\
    ends_with "@g.us" (AdminChat._mk_chat_id phone) = ends_with "-g" phone.
Proof.
  unfold AdminChat._mk_chat_id, rsplit_at, str_method. cbn [mbind outcome_bind].
  destruct (ends_with "-g" phone) eqn:E.
  - destruct (ends_with_split _ E) as [base ->].
    rewrite length_app_str. cbn [String.length].
    replace (String.length base + 2 - 2) with (String.length base) by lia.
    rewrite take_str_app.
    exists base, "g.us".
    change (base +:+ "@g.us") with (base +:+ "@" +:+ "g.us").
    rewrite (rsplit1_suffix base "g.us")
      by (cbn; intros c [<-|[<-|[<-|[<-|[]]]]]; discriminate).
    split; [reflexivity|]. split; [reflexivity|]. split; [auto|].
    split; [discriminate|].
    apply (ends_with_app "@g.us" base).
  - exists phone, "c.us".
    change (phone +:+ "@c.us") with (phone +:+ "@" +:+ "c.us").
    rewrite (rsplit1_suffix phone "c.us")
      by (cbn; intros c [<-|[<-|[<-|[<-|[]]]]]; discriminate).
    split; [reflexivity|]. split; [reflexivity|]. split; [discriminate|].
    split; [auto|].
    unfold ends_with. rewrite list_of_append, rev_app_distr. reflexivity.
Qed.

(** ** The journal adapter *)

(** X26. What [history_entry_to_payload] stamps on every payload it builds: the
    kind of webhook follows the entry's direction (an outgoing entry is an
    API echo exactly when [sendByApi] is true), the account is the one
    asked for, the message id and the timestamp are the entry's, and the
    payload has a [status] exactly when the entry has a [statusMessage],
    with the same value. *)
Theorem adapter_stamps_the_payload (entry : json) (api : Z) (p : json) :
  history_entry_to_payload entry api = Ok p ->
  exists ty,
    getitem entry "type" = Ok ty /\
    getitem p "typeWebhook"
    = Ok (JStr (if is_str ty "incoming" then _INCOMING
                else if truthy (default JNull (field entry "sendByApi"))
                     then _OUTGOING_BY_API else _OUTGOING_BY_PHONE)) /\
    getitem p "instanceData" = Ok (JDict [ ("idInstance", JInt api) ]) /\
    getitem p "idMessage" = getitem entry "idMessage" /\
    getitem p "timestamp" = getitem entry "timestamp" /\
    field p "status" = field entry "statusMessage".
Proof.
  unfold history_entry_to_payload.
  destruct entry as [| | | | | |d]; try discriminate.
  unfold _mk_sender, History.get, get_default, getitem, has_key, field.
  destruct (assoc "type" d) as [ty|]; [|discriminate]. cbn [mbind outcome_bind].
  destruct (is_str ty "incoming") eqn:Einc; cbn [mbind outcome_bind].
  all: destruct (assoc "idMessage" d) as [wa|]; cbn [mbind outcome_bind]; [|discriminate].
  all: destruct (assoc "timestamp" d) as [ts|]; cbn [mbind outcome_bind]; [|discriminate].
  all: destruct (assoc "chatId" d) as [chat|]; cbn [mbind outcome_bind]; [|discriminate].
  all: destruct (assoc "typeMessage" d) as [mt|]; cbn [mbind outcome_bind]; [|discriminate].
  all: destruct (section_of (JDict d) mt) as [sec|e]; cbn [mbind outcome_bind];
    [|discriminate].
  all: destruct (assoc "statusMessage" d) as [st|] eqn:Est; cbn; rewrite ?Est; cbn;
    intros [= <-]; exists ty; rewrite Einc; repeat split; try reflexivity.
  all: destruct (assoc "sendByApi" d) as [by_api|]; cbn [default from_option id];
    destruct (truthy _); reflexivity.
Qed.

Lemma adapter_stamps_the_payload_witness :
  exists p ty,
    history_entry_to_payload (Examples.image_entry "A1" "https://media.example/1" "look")
      1101 = Ok p /\
    getitem (Examples.image_entry "A1" "https://media.example/1" "look") "type" = Ok ty /\
    getitem p "typeWebhook"
    = Ok (JStr (if is_str ty "incoming" then _INCOMING
                else if truthy (default JNull
                                  (field (Examples.image_entry "A1" "https://media.example/1"
                                            "look") "sendByApi"))
                     then _OUTGOING_BY_API else _OUTGOING_BY_PHONE)).
Proof.
  destruct (adapter_stamps_the_payload
              (Examples.image_entry "A1" "https://media.example/1" "look") 1101 _ eq_refl)
    as (ty & Hty & Hkind & _).
  eexists _, ty. split; [reflexivity|]. split; [exact Hty|exact Hkind].
Defined.

(** X27. An entry that lacks one of the keys every entry must have is refused
    with a [KeyError] that names the first such key in the order [type],
    [idMessage], [timestamp], [chatId], [typeMessage]. *)
Theorem adapter_names_the_missing_key (d : list (string * json)) (api : Z)
    (present : list string) (k : string) :
  present ++ [ k ] `prefix_of` [ "type"; "idMessage"; "timestamp"; "chatId"; "typeMessage" ] ->
  Forall (fun key => is_Some (assoc key d)) present ->
  assoc k d = None ->
  history_entry_to_payload (JDict d) api = Raise (KeyError k).
Proof.
  intros Hpre Hall Hk.
  assert (Hcase :
    (present = [] /\ k = "type") \/
    (present = [ "type" ] /\ k = "idMessage") \/
    (present = [ "type"; "idMessage" ] /\ k = "timestamp") \/
    (present = [ "type"; "idMessage"; "timestamp" ] /\ k = "chatId") \/
    (present = [ "type"; "idMessage"; "timestamp"; "chatId" ] /\ k = "typeMessage")).
  { destruct Hpre as [rest Hrest].
    destruct present as [|k1 [|k2 [|k3 [|k4 [|k5 more]]]]]; cbn in Hrest;
      injection Hrest; intros; subst; auto 10.
    destruct more; discriminate. }
  unfold history_entry_to_payload, _mk_sender, History.get, get_default, getitem.
  destruct Hcase as [[-> ->]|[[-> ->]|[[-> ->]|[[-> ->]|[-> ->]]]]];
    repeat match goal with
           | H : Forall _ (_ :: _) |- _ => apply Forall_cons in H as [[? ->] H]
           end;
    rewrite Hk; cbn [mbind outcome_bind];
    repeat match goal with
           | |- context [ if ?b then _ else _ ] => destruct b; cbn [mbind outcome_bind]
           end;
    reflexivity.
Qed.

Lemma adapter_names_the_missing_key_witness :
  history_entry_to_payload
    (JDict [ ("type", JStr "outgoing"); ("idMessage", JStr "B1");
             ("typeMessage", JStr "textMessage"); ("textMessage", JStr "hi") ]) 1101
  = Raise (KeyError "timestamp").
Proof.
  apply (adapter_names_the_missing_key
           [ ("type", JStr "outgoing"); ("idMessage", JStr "B1");
             ("typeMessage", JStr "textMessage"); ("textMessage", JStr "hi") ] 1101
           [ "type"; "idMessage" ] "timestamp").
  - exists [ "chatId"; "typeMessage" ]. reflexivity.
  - repeat constructor; simpl; eauto.
  - reflexivity.
Defined.

(** ** The QR code *)

(** X28. The provider is asked for the QR code at most once a second: when a
    call finds nothing fresh in the cache and the provider answers with a
    payload, that payload is returned and kept with the instant of the
    call; every call made less than a second after that instant returns
    the same payload without a request, leaving the client and the cache
    as they were. *)
Theorem qr_answer_is_kept_for_a_second (METHOD_RPS : gmap string Q) (DEFAULT_RPS : Q)
    (rt : Runtime) (fuel : nat) (c : Client.GreenAPIClient) (cache : option (json * Q))
    (net : Client.exchange) (now : Q) (run : Client.json_run) (raw payload : json) :
  (1 <= now - snd (default (JNull, 0%Q) cache))%Q ->
  Client._json METHOD_RPS DEFAULT_RPS fuel c "qr" false net now = Some run ->
  Client.result run = Ok raw ->
  Qr.qr_payload rt raw = Ok payload ->
  Qr.get_qr METHOD_RPS DEFAULT_RPS rt fuel c cache net now
  = Some (Qr.mkQr (Ok payload) (Client.client_after run) (Some (payload, now)) true) /\
  forall fuel' net' now', (now' - now < 1)%Q ->
    Qr.get_qr METHOD_RPS DEFAULT_RPS rt fuel' (Client.client_after run)
      (Some (payload, now)) net' now'
    = Some (Qr.mkQr (Ok payload) (Client.client_after run) (Some (payload, now)) false).
Proof.
  intros Hold Hrun Hres Hpay. split.
  - unfold Qr.get_qr. destruct (default (JNull, 0%Q) cache) as [cached ts].
    cbn [snd] in Hold. apply Qltb_is_ge in Hold. rewrite Hold, Hrun.
    cbn [mbind option_bind]. rewrite Hres, Hpay. reflexivity.
  - intros fuel' net' now' Hnow. unfold Qr.get_qr. cbn [default from_option id].
    apply Qltb_is_lt in Hnow. rewrite Hnow. reflexivity.
Qed.

Lemma qr_answer_is_kept_for_a_second_witness :
  exists run payload,
    Client._json ∅ 1 3 Examples.ex_client "qr" false
      (Client.Responded
         (Client.mkResponse 200 "{}"
            (Ok (JDict [ ("type", JStr "qrCode"); ("message", JStr "iVBORw0KGgo=") ])))
         (1 # 10)) 5 = Some run /\
    Qr.get_qr ∅ 1 Examples.ex_rt 3 Examples.ex_client None
      (Client.Responded
         (Client.mkResponse 200 "{}"
            (Ok (JDict [ ("type", JStr "qrCode"); ("message", JStr "iVBORw0KGgo=") ])))
         (1 # 10)) 5
    = Some (Qr.mkQr (Ok payload) (Client.client_after run) (Some (payload, 5%Q)) true) /\
    payload = JDict [ ("status", JStr "qr");
                      ("image", JStr "data:image/png;base64,iVBORw0KGgo=") ] /\
    forall fuel' net' now', (now' - 5 < 1)%Q ->
      Qr.get_qr ∅ 1 Examples.ex_rt fuel' (Client.client_after run) (Some (payload, 5%Q))
        net' now'
      = Some (Qr.mkQr (Ok payload) (Client.client_after run) (Some (payload, 5%Q)) false).
Proof.
  eexists _, _. split; [vm_compute; reflexivity|].
  refine (let H := qr_answer_is_kept_for_a_second ∅ 1 Examples.ex_rt 3 Examples.ex_client
                     None _ 5 _ _ _ _ _ _ _ in _).
  - destruct H as [H1 H2]. split; [exact H1|]. split; [reflexivity|exact H2].
  Unshelve.
  all: try (vm_compute; first [reflexivity | discriminate]).
Defined.

(** ** Conversations *)

Lemma find_snoc_none {A} (q : A -> bool) (l : list A) (a : A) :
  List.find q l = None -> q a = true -> List.find q (l ++ [ a ]) = Some a.
Proof.
  intros Hl Ha. induction l as [|b l IH]; cbn.
  - by rewrite Ha.
  - cbn in Hl. destruct (q b); [discriminate|]. by apply IH.
Qed.

(** X29. A conversation is made once per instance and chat: the first look-up
    creates it, with the name seen then as its title; every later look-up
    for the same instance and chat returns that conversation and leaves
    the store alone, whatever phone or name it is given, so the title is
    never replaced. No look-up touches the message rows. *)
Theorem conversation_is_created_once (d : DB) (iid : Z) (chat phone : string)
    (name : json) (c : Models.Conversation) (d1 : DB) :
  get_or_create_conversation d iid chat phone name = Ok (c, d1) ->
  Models.c_instance_id c = iid /\ Models.c_chat_id c = chat /\
  messages d1 = messages d /\
  (List.find (fun x => (Models.c_instance_id x =? iid)%Z
                       && String.eqb (Models.c_chat_id x) chat) (conversations d) = None ->
   as_text_not_null (py_or name (JStr phone)) = Ok (Models.c_title c) /\
   conversations d1 = conversations d ++ [ c ]) /\
  forall phone' name',
    get_or_create_conversation d1 iid chat phone' name' = Ok (c, d1).
Proof.
  unfold get_or_create_conversation.
  destruct (List.find _ (conversations d)) as [conv|] eqn:Efind.
  - intros [= <- <-].
    pose proof (List.find_some _ _ Efind) as [_ Hq].
    apply andb_true_iff in Hq as [Hi Hc].
    apply Z.eqb_eq in Hi. apply String.eqb_eq in Hc.
    split; [exact Hi|]. split; [exact Hc|]. split; [reflexivity|].
    split; [discriminate|].
    intros phone' name'. rewrite Efind. reflexivity.
  - destruct (as_text_not_null (py_or name (JStr phone))) as [title|e] eqn:Et;
      [|discriminate].
    cbn [mbind outcome_bind]. intros [= <- <-]. cbn.
    split; [reflexivity|]. split; [reflexivity|]. split; [reflexivity|].
    split; [auto|].
    intros phone' name'.
    rewrite (find_snoc_none _ _ _ Efind); [reflexivity|].
    cbn. by rewrite Z.eqb_refl, String.eqb_refl.
Qed.

Lemma conversation_is_created_once_witness :
  exists c d1,
    get_or_create_conversation Examples.ex_db 1 "79001234567@c.us" "79001234567"
      (JStr "Ann") = Ok (c, d1) /\
    Models.c_title c = "Ann" /\
    get_or_create_conversation d1 1 "79001234567@c.us" "79001234567" (JStr "Anna")
    = Ok (c, d1).
Proof.
  eexists _, _. split; [reflexivity|]. split; [reflexivity|].
  eapply (conversation_is_created_once Examples.ex_db 1 "79001234567@c.us" "79001234567"
            (JStr "Ann")).
  reflexivity.
Defined.

End RoutesExtras.
